(** * Zoho Attendance Helper: detection chain, action executor, scheduler, logs

    A shallow embedding of the decision logic of the extension:

    - [ZohoAttendanceShared] (src/common/shared.js): the clickability
      predicate and the activation sequence;
    - [ZohoAttendanceBotChrome] (content script): the five detection
      strategies, their fallback chain and the message listener;
    - [AttendanceSchedulerFirefox] / [AttendanceSchedulerChrome]
      (background scripts): daily alarms, scheduled firing, persisted log;
    - [AttendancePopup] (popup script): manual trigger and interactive log.

    The browser (DOM, tabs, alarms, storage, clock) is the environment: its
    answers are inputs of the model, the calls the scripts make on it are
    recorded in a chronological trace. *)

From stdpp Require Import gmap strings list pretty.
From Stdlib Require Import Ascii ZArith.

Local Open Scope Z_scope.

(** ** JavaScript strings *)

Module JsString.

(** [a || b] on strings: the empty string (like [undefined]) is falsy. *)
Definition or (a b : string) : string :=
  match a with
  | EmptyString => b
  | _ => a
  end.

Fixpoint startsWith (s prefix : string) : bool :=
  match prefix, s with
  | EmptyString, _ => true
  | String p prefix', String c s' => Ascii.eqb p c && startsWith s' prefix'
  | String _ _, EmptyString => false
  end.

(** [s.includes(needle)] *)
Fixpoint includes (s needle : string) : bool :=
  startsWith s needle ||
  match s with
  | EmptyString => false
  | String _ s' => includes s' needle
  end.

Definition lowerAscii (c : ascii) : ascii :=
  let n := nat_of_ascii c in
  if ((65 <=? n)%nat && (n <=? 90)%nat)%bool then ascii_of_nat (n + 32) else c.

(** [s.toLowerCase()], on the ASCII letters; other bytes are kept. *)
Fixpoint toLowerCase (s : string) : string :=
  match s with
  | EmptyString => EmptyString
  | String c s' => String (lowerAscii c) (toLowerCase s')
  end.

(** [s.split(sep)] for a one-character separator. *)
Fixpoint split_aux (sep : ascii) (s : string) (cur : string) : list string :=
  match s with
  | EmptyString => [String.rev cur]
  | String c s' =>
      if Ascii.eqb c sep then String.rev cur :: split_aux sep s' EmptyString
      else split_aux sep s' (String c cur)
  end.

Definition split (s : string) (sep : ascii) : list string :=
  split_aux sep s EmptyString.

End JsString.

Infix "|||" := JsString.or (at level 50, left associativity).

(** ** The page: DOM elements and the document's query interface *)

(** The fields of [window.getComputedStyle(element)] that the scripts read. *)
Record Style := {
  display : string;
  visibility : string;
  opacity : string
}.

(** The result of a call that may throw: [Throw message] stands for a thrown
    [Error] whose [message] is given. *)
Inductive Outcome (A : Type) : Type :=
| Ok (a : A)
| Throw (message : string).
Arguments Ok {A} a.
Arguments Throw {A} message.

(** How an [async] method ends: it returns, it throws (its promise
    rejects), or it waits for ever on a promise that never settles. *)
Inductive Completion (A : Type) : Type :=
| Returned (a : A)
| Thrown (message : string)
| Pending.
Arguments Returned {A} a.
Arguments Thrown {A} message.
Arguments Pending {A}.

Record Element := {
  textContent : string;
  value : string;
  title : string;
  computedStyle : Style;
  disabled : bool;
  (** [element.style.cssText], the inline style *)
  cssText : string;
  (** [element.closest('form')]: the identifier of the enclosing form *)
  closestForm : option nat;
  (** [element.click()]: it throws a [TypeError] when the element has no
      such method (an SVG element); nothing is clicked then *)
  elementClick : Outcome unit;
  (** [form.submit()] on the enclosing form: it throws a [TypeError] when a
      control of the form is named [submit] and shadows the method; nothing
      is submitted then *)
  formSubmit : Outcome unit;
  (** the click or the submission starts a navigation, and the page is
      unloaded while the script waits afterwards: the script is never
      resumed *)
  unloadsPage : bool
}.

Record Page := {
  (** [document.readyState === 'complete'] *)
  readyComplete : bool;
  (** [document.querySelectorAll(selector)]; throws on a selector the
      browser cannot parse *)
  querySelectorAll : string -> Outcome (list Element);
  (** [document.evaluate(xpath, document, null, FIRST_ORDERED_NODE_TYPE,
      null).singleNodeValue] *)
  evaluate : string -> option Element;
  (** [form.querySelectorAll(selector)] *)
  elementQuerySelectorAll : Element -> string -> Outcome (list Element);
  (** [window[name]]: [None] when it is not a function, otherwise what
      calling it does *)
  windowFunction : string -> option (Outcome unit)
}.

(** [document.querySelector(selector)]: the first match, or null. *)
Definition querySelector (page : Page) (selector : string) : Outcome (option Element) :=
  match querySelectorAll page selector with
  | Ok elements => Ok (head elements)
  | Throw message => Throw message
  end.

(** ** Effects of the content script *)

Inductive Event :=
| ConsoleLog (level : string) (message : string)
| ConsoleLogElement (message : string) (element : Element)
| AwaitLoad
| ScrollIntoView (element : Element) (behavior block : string)
| Sleep (ms : Z)
| SetOutline (element : Element) (v : string)
| SetBackgroundColor (element : Element) (v : string)
| Focus (element : Element)
| Click (element : Element)
| DispatchMouseEvent (element : Element) (eventType : string)
| Submit (form : nat)
| SetCssText (element : Element) (v : string)
| CallWindowFunction (name : string).

(** A computation: the calls it made, in order, and how it ended;
    [Pending] is a script that was never resumed, its page being
    unloaded. *)
Definition M (A : Type) : Type := (list Event * Completion A)%type.

Definition ret {A} (a : A) : M A := ([], Returned a).

Definition bind {A B} (f : A -> M B) (m : M A) : M B :=
  match m with
  | (t, Returned a) => let '(t', r) := f a in (t ++ t', r)
  | (t, Thrown message) => (t, Thrown message)
  | (t, Pending) => (t, Pending)
  end.

#[global] Instance M_ret : MRet M := @ret.
#[global] Instance M_bind : MBind M := @bind.

Definition throw {A} (message : string) : M A := ([], Thrown message).

Definition emit (ev : Event) : M unit := ([ev], Returned tt).

Definition lift {A} (o : Outcome A) : M A :=
  match o with
  | Ok a => ret a
  | Throw message => throw message
  end.

(** The page is unloaded: the script is not resumed. *)
Definition unloaded {A} : M A := ([], Pending).

(** [try { m } catch (error) { handler(error.message) }] *)
Definition try_catch {A} (m : M A) (handler : string -> M A) : M A :=
  match m with
  | (t, Thrown message) => let '(t', r) := handler message in (t ++ t', r)
  | other => other
  end.

(** ** src/common/shared.js *)

(** The double-quote character, and a double-quoted string. *)
Definition dq : string := String "034"%char EmptyString.
Definition quoted (s : string) : string := dq +:+ s +:+ dq.

Module ZohoAttendanceShared.

Definition attendanceSelectors : list string := [
  "[data-action=" +:+ quoted "checkin" +:+ "]";
  "[data-action=" +:+ quoted "checkout" +:+ "]";
  "button[title*=" +:+ quoted "Check In" +:+ "]";
  "button[title*=" +:+ quoted "Check Out" +:+ "]";
  "button[title*=" +:+ quoted "Punch In" +:+ "]";
  "button[title*=" +:+ quoted "Punch Out" +:+ "]";
  ".attendance-btn";
  ".checkin-btn";
  ".checkout-btn";
  ".punch-btn";
  "input[value*=" +:+ quoted "Check In" +:+ "]";
  "input[value*=" +:+ quoted "Check Out" +:+ "]";
  "input[value*=" +:+ quoted "Punch In" +:+ "]";
  "input[value*=" +:+ quoted "Punch Out" +:+ "]";
  "button:contains(" +:+ quoted "Check In" +:+ ")";
  "button:contains(" +:+ quoted "Check Out" +:+ ")";
  "button:contains(" +:+ quoted "Punch In" +:+ ")";
  "button:contains(" +:+ quoted "Punch Out" +:+ ")";
  "a:contains(" +:+ quoted "Check In" +:+ ")";
  "a:contains(" +:+ quoted "Check Out" +:+ ")";
  ".zpd-attendance button";
  ".attendance-widget button";
  ".attendance-panel button";
  "#attendance button";
  ".quick-actions button"
].

(** [isElementClickable(element)]; [None] is a null element. *)
Definition isElementClickable (element : option Element) : bool :=
  match element with
  | None => false
  | Some element =>
      let style := computedStyle element in
      negb (String.eqb (display style) "none") &&
      negb (String.eqb (visibility style) "hidden") &&
      negb (String.eqb (opacity style) "0") &&
      negb (disabled element)
  end.

Definition sleep (ms : Z) : M unit := emit (Sleep ms).

(** [array.forEach(f)] for an effectful [f]. *)
Fixpoint forEach {A} (l : list A) (f : A -> M unit) : M unit :=
  match l with
  | [] => ret tt
  | x :: l' => f x ;; forEach l' f
  end.

(** [clickElement(element)]. There is no [try] in it: a call that throws
    ends it at once, and the style is not restored. [Click] and [Submit]
    are recorded when the call was made, that is when the method exists.
    The second [sleep] is where a page that is being left is unloaded. *)
Definition clickElement (element : Element) : M unit :=
  emit (ConsoleLogElement "🎯 Clicking element:" element) ;;
  emit (ScrollIntoView element "smooth" "center") ;;
  sleep 500 ;;
  let originalStyle := cssText element in
  emit (SetOutline element "3px solid #4ade80") ;;
  emit (SetBackgroundColor element "rgba(74, 222, 128, 0.2)") ;;
  emit (Focus element) ;;
  lift (elementClick element) ;;
  emit (Click element) ;;
  forEach ["mousedown"; "mouseup"; "click"]
    (fun eventType => emit (DispatchMouseEvent element eventType)) ;;
  let form := closestForm element in
  match form with
  | Some form => lift (formSubmit element) ;; emit (Submit form)
  | None => ret tt
  end ;;
  sleep 1000 ;;
  (if unloadsPage element then unloaded else ret tt) ;;
  emit (SetCssText element originalStyle).

(** [log(message, type = 'info')]: the console line; the timestamp that
    prefixes it is not part of the model. *)
Definition log (message : string) (type : string) : M unit :=
  emit (ConsoleLog type message).

End ZohoAttendanceShared.

(** ** The content script *)

(** What a successful strategy reports besides its method: the third field
    of the returned object. *)
Inductive Locator :=
| ByElement (selector : string)
| ByText (text : string)
| ByLabel (label : string)
| ByButton (buttonText : string)
| ByFunction (name : string).

(** [{ success, method, ... }] *)
Record Result := {
  success : bool;
  method : string;
  locator : Locator
}.

(** What [sendResponse] is called with: a strategy's result, or
    [{ success: false, error }]. *)
Inductive Response :=
| ResponseResult (result : Result)
| ResponseError (error : string).

Record Request := {
  action : string;
  type : string
}.

Module ZohoAttendanceBotChrome.
Import ZohoAttendanceShared.

(** *** Strategy 1 *)

Definition selectorKeywords (type : string) : list string :=
  if String.eqb type "checkin" then
    ["check in"; "checkin"; "punch in"; "punchin"; "start work"; "clock in"]
  else
    ["check out"; "checkout"; "punch out"; "punchout"; "end work"; "clock out"].

(** The inner loop, over the elements one selector matched; [Some] is the
    [return] out of both loops. *)
Fixpoint selectorElements (keywords : list string) (selector : string)
    (elements : list Element) : M (option Result) :=
  match elements with
  | [] => mret None
  | element :: elements' =>
      let text := JsString.toLowerCase
        (textContent element ||| value element ||| title element ||| EmptyString) in
      let hasKeyword := existsb (fun keyword => JsString.includes text keyword) keywords in
      if hasKeyword && isElementClickable (Some element) then
        clickElement element ;;
        mret (Some {| success := true; method := "selector"; locator := ByElement selector |})
      else selectorElements keywords selector elements'
  end.

Fixpoint selectorLoop (page : Page) (keywords : list string)
    (selectors : list string) : M (option Result) :=
  match selectors with
  | [] => mret None
  | selector :: selectors' =>
      elements ← lift (querySelectorAll page selector) ;
      found ← selectorElements keywords selector elements ;
      match found with
      | Some result => mret (Some result)
      | None => selectorLoop page keywords selectors'
      end
  end.

Definition findAndClickBySelector (type : string) (page : Page) : M Result :=
  log "Strategy 1: Selector-based search" "info" ;;
  let keywords := selectorKeywords type in
  found ← selectorLoop page keywords attendanceSelectors ;
  match found with
  | Some result => mret result
  | None => throw "No matching selectors found"
  end.

(** *** Strategy 2 *)

Definition searchTexts (type : string) : list string :=
  if String.eqb type "checkin" then
    ["Check In"; "Punch In"; "Clock In"; "Start Work"]
  else
    ["Check Out"; "Punch Out"; "Clock Out"; "End Work"].

Definition textXPath (searchText : string) : string :=
  "//button[contains(text(), " +:+ quoted searchText +:+ ")] | //input[@value="
    +:+ quoted searchText +:+ "] | //a[contains(text(), " +:+ quoted searchText +:+ ")]".

Fixpoint textLoop (page : Page) (texts : list string) : M (option Result) :=
  match texts with
  | [] => mret None
  | searchText :: texts' =>
      let xpath := textXPath searchText in
      let singleNodeValue := evaluate page xpath in
      match singleNodeValue with
      | Some node =>
          if isElementClickable (Some node) then
            clickElement node ;;
            mret (Some {| success := true; method := "text"; locator := ByText searchText |})
          else textLoop page texts'
      | None => textLoop page texts'
      end
  end.

Definition findAndClickByText (type : string) (page : Page) : M Result :=
  log "Strategy 2: Text-based search" "info" ;;
  found ← textLoop page (searchTexts type) ;
  match found with
  | Some result => mret result
  | None => throw "No matching text found"
  end.

(** *** Strategy 3 *)

Definition ariaLabels (type : string) : list string :=
  if String.eqb type "checkin" then
    ["check in"; "punch in"; "clock in"]
  else
    ["check out"; "punch out"; "clock out"].

Definition ariaSelector (label : string) : string :=
  "[aria-label*=" +:+ quoted label +:+ " i], [aria-labelledby*=" +:+ quoted label +:+ " i]".

Fixpoint ariaLoop (page : Page) (labels : list string) : M (option Result) :=
  match labels with
  | [] => mret None
  | label :: labels' =>
      element ← lift (querySelector page (ariaSelector label)) ;
      match element with
      | Some el =>
          if isElementClickable (Some el) then
            clickElement el ;;
            mret (Some {| success := true; method := "aria"; locator := ByLabel label |})
          else ariaLoop page labels'
      | None => ariaLoop page labels'
      end
  end.

Definition findAndClickByAria (type : string) (page : Page) : M Result :=
  log "Strategy 3: ARIA-based search" "info" ;;
  found ← ariaLoop page (ariaLabels type) ;
  match found with
  | Some result => mret result
  | None => throw "No matching ARIA labels found"
  end.

(** *** Strategy 4 *)

Definition isCorrectType (type : string) (buttonText : string) : bool :=
  if String.eqb type "checkin" then
    JsString.includes buttonText "in" || JsString.includes buttonText "start"
  else
    JsString.includes buttonText "out" || JsString.includes buttonText "end".

Fixpoint formButtons (type : string) (buttons : list Element) : M (option Result) :=
  match buttons with
  | [] => mret None
  | button :: buttons' =>
      let buttonText := JsString.toLowerCase
        (textContent button ||| value button ||| EmptyString) in
      if isCorrectType type buttonText && isElementClickable (Some button) then
        clickElement button ;;
        mret (Some {| success := true; method := "form"; locator := ByButton buttonText |})
      else formButtons type buttons'
  end.

Definition formButtonSelector : string :=
  "button, input[type=" +:+ quoted "submit" +:+ "], input[type=" +:+ quoted "button" +:+ "]".

Fixpoint formLoop (type : string) (page : Page) (forms : list Element) : M (option Result) :=
  match forms with
  | [] => mret None
  | form :: forms' =>
      let formText := JsString.toLowerCase (textContent form) in
      let isAttendanceForm :=
        existsb (fun keyword => JsString.includes formText keyword)
          ["attendance"; "check"; "punch"; "clock"] in
      if isAttendanceForm then
        buttons ← lift (elementQuerySelectorAll page form formButtonSelector) ;
        found ← formButtons type buttons ;
        match found with
        | Some result => mret (Some result)
        | None => formLoop type page forms'
        end
      else formLoop type page forms'
  end.

Definition findAndClickByForm (type : string) (page : Page) : M Result :=
  log "Strategy 4: Form-based search" "info" ;;
  forms ← lift (querySelectorAll page "form") ;
  found ← formLoop type page forms ;
  match found with
  | Some result => mret result
  | None => throw "No matching forms found"
  end.

(** *** Strategy 5 *)

Definition possibleFunctions : list string :=
  ["checkIn"; "checkOut"; "punchIn"; "punchOut";
   "markAttendance"; "recordAttendance"; "submitAttendance"].

Fixpoint functionLoop (page : Page) (names : list string) : M (option Result) :=
  match names with
  | [] => mret None
  | funcName :: names' =>
      match windowFunction page funcName with
      | Some call =>
          called ← try_catch
            (emit (CallWindowFunction funcName) ;;
             lift call ;;
             mret (Some {| success := true; method := "api"; locator := ByFunction funcName |}))
            (fun message =>
               log ("Failed to call " +:+ funcName +:+ ": " +:+ message) "info" ;;
               mret None) ;
          match called with
          | Some result => mret (Some result)
          | None => functionLoop page names'
          end
      | None => functionLoop page names'
      end
  end.

Fixpoint attendanceElementLoop (elements : list Element) : M (option Result) :=
  match elements with
  | [] => mret None
  | element :: elements' =>
      if isElementClickable (Some element) then
        clickElement element ;;
        mret (Some {| success := true; method := "api"; locator := ByElement "attendance element" |})
      else attendanceElementLoop elements'
  end.

Definition attendanceElementSelector : string :=
  "[class*=" +:+ quoted "attendance" +:+ "], [id*=" +:+ quoted "attendance" +:+ "]".

Definition findAndClickByAPI (type : string) (page : Page) : M Result :=
  log "Strategy 5: API-based approach" "info" ;;
  called ← functionLoop page possibleFunctions ;
  match called with
  | Some result => mret result
  | None =>
      attendanceElements ← lift (querySelectorAll page attendanceElementSelector) ;
      found ← attendanceElementLoop attendanceElements ;
      match found with
      | Some result => mret result
      | None => throw "No API methods found"
      end
  end.

(** *** The chain *)

(** The promise settles when the document is loaded; a [load] event is
    taken to arrive when the document is not complete yet. *)
Definition waitForPageLoad (page : Page) : M unit :=
  if readyComplete page then mret tt else emit AwaitLoad.

Definition strategies (type : string) (page : Page) : list (M Result) :=
  [ findAndClickBySelector type page;
    findAndClickByText type page;
    findAndClickByAria type page;
    findAndClickByForm type page;
    findAndClickByAPI type page ].

(** The [for (const strategy of strategies)] loop with its [try]/[catch];
    [Some] is the [return result] out of the loop. *)
Fixpoint strategyLoop (type : string) (l : list (M Result)) : M (option Result) :=
  match l with
  | [] => mret None
  | strategy :: l' =>
      returned ← try_catch
        (result ← strategy ;
         if success result then
           log (type +:+ " successful via " +:+ method result) "success" ;;
           mret (Some result)
         else mret None)
        (fun message =>
           log ("Strategy failed: " +:+ message) "error" ;;
           mret None) ;
      match returned with
      | Some result => mret (Some result)
      | None => strategyLoop type l'
      end
  end.

Definition performAttendance (type : string) (page : Page) : M Result :=
  log ("Attempting " +:+ type +:+ "...") "info" ;;
  waitForPageLoad page ;;
  returned ← strategyLoop type (strategies type page) ;
  match returned with
  | Some result => mret result
  | None => throw ("Could not find " +:+ type +:+ " button on this page")
  end.

(** The [onMessage] listener: the trace of the call and the argument of
    [sendResponse], if it is called; it is not called for another action,
    nor when the page is unloaded under the run. *)
Definition onMessage (request : Request) (page : Page) : list Event * option Response :=
  if String.eqb (action request) "performAttendance" then
    match performAttendance (type request) page with
    | (t, Returned result) => (t, Some (ResponseResult result))
    | (t, Thrown message) => (t, Some (ResponseError message))
    | (t, Pending) => (t, None)
    end
  else ([], None).

End ZohoAttendanceBotChrome.

(** ** JavaScript dates and numbers *)

Module JsDate.

Definition msPerDay : Z := 86400000.

(** The local time zone and calendar, as far as the scripts use them. The
    offset from UTC changes with daylight saving: [offsetAt t] is the
    offset in force at the instant [t] (LocalTZA(t, true) of the language
    specification), [offsetOfLocal t] the offset a local time value is read
    with (LocalTZA(t, false)), which for a local time that a clock change
    skips or repeats is the offset before the change. Then the day number
    of the first day of the month a day lies in, and the locale's rendering
    of a time value. *)
Record Locale := {
  offsetAt : Z -> Z;
  offsetOfLocal : Z -> Z;
  monthStart : Z -> Z;
  toLocaleString : option Z -> string;
  toLocaleTimeString : option Z -> string
}.

(** A [Date] object's time value, in milliseconds since the epoch; [None]
    is NaN, an invalid date. *)
Definition Date := option Z.

Definition Day (t : Z) : Z := t / msPerDay.
Definition TimeWithinDay (t : Z) : Z := t mod msPerDay.
Definition MakeTime (hour min sec ms : Z) : Z :=
  hour * 3600000 + min * 60000 + sec * 1000 + ms.
Definition MakeDate (day time : Z) : Z := day * msPerDay + time.
Definition LocalTime (L : Locale) (t : Z) : Z := t + offsetAt L t.
Definition UTC (L : Locale) (t : Z) : Z := t - offsetOfLocal L t.

(** [MakeDay(YearFromTime(t), MonthFromTime(t), dt)]: the day number of
    day [dt] of the month [t] lies in. *)
Definition MakeDayInMonth (L : Locale) (t dt : Z) : Z :=
  monthStart L (Day t) + dt - 1.

(** [date.setHours(hour, min, sec, ms)] *)
Definition setHours (L : Locale) (date : Date) (hour min sec ms : option Z) : Date :=
  t ← date ; h ← hour ; m ← min ; s ← sec ; milli ← ms ;
  let t := LocalTime L t in
  Some (UTC L (MakeDate (Day t) (MakeTime h m s milli))).

(** [date.getDate()] *)
Definition getDate (L : Locale) (date : Date) : option Z :=
  t ← date ;
  let t := LocalTime L t in
  Some (Day t - monthStart L (Day t) + 1).

(** [date.setDate(dt)] *)
Definition setDate (L : Locale) (date : Date) (dt : option Z) : Date :=
  t ← date ; dt ← dt ;
  let t := LocalTime L t in
  Some (UTC L (MakeDate (MakeDayInMonth L t dt) (TimeWithinDay t))).

(** [a <= b] on dates: false as soon as one is NaN. *)
Definition le (a b : Date) : bool :=
  match a, b with
  | Some a, Some b => a <=? b
  | _, _ => false
  end.

Definition digit (c : ascii) : option Z :=
  let n := nat_of_ascii c in
  if ((48 <=? n)%nat && (n <=? 57)%nat)%bool then Some (Z.of_nat n - 48) else None.

Fixpoint digits (s : string) (acc : Z) : option Z :=
  match s with
  | EmptyString => Some acc
  | String c s' => d ← digit c ; digits s' (10 * acc + d)
  end.

(** [Number(s)] for a string of decimal digits, the only form the settings
    hold ("09", "30"); every other string is taken as NaN. [None] as
    argument is [undefined], whose number is NaN. *)
Definition Number (s : option string) : option Z :=
  s ← s ; digits s 0.

End JsDate.

(** ** The background scripts *)

Module LogEntry.
Record t := {
  timestamp : string;
  message : string;
  type : string
}.
End LogEntry.

Record Tab := {
  id : nat;
  url : option string
}.

Record Alarm := {
  when : option Z;
  periodInMinutes : Z
}.

(** [chrome.storage.sync]: the keys the scripts use; [None] is a key that
    was never set. *)
Record Settings := {
  autoSchedule : option bool;
  checkinTime : option string;
  checkoutTime : option string
}.

(** What the browser answers to the background script. *)
Record Env := {
  (** the clock, in milliseconds since the epoch *)
  now : Z;
  locale : JsDate.Locale;
  (** [tabs.query({ url: '*://people.zoho.com/*' })] *)
  tabsQuery : Outcome (list Tab);
  (** [tabs.create({ url: 'https://people.zoho.com', active: false })] *)
  tabsCreate : Outcome Tab;
  (** whether the tab ever reports [status === 'complete'] *)
  tabLoadCompletes : nat -> bool;
  (** [tabs.sendMessage(tabId, request)]: the response (undefined when the
      receiver sent none), a rejection, or no answer at all *)
  tabsSendMessage : nat -> Request -> Completion (option Response)
}.

Inductive BgEvent :=
| BgConsoleLog (line : string)
| AlarmsClear (name : string)
| AlarmsCreate (name : string) (alarm : Alarm)
| TabsQuery
| TabsCreate
| AwaitTabLoad (tabId : nat) (delay : Z)
| TabsSendMessage (tabId : nat) (request : Request)
| NotificationsCreate (title message : string)
| StorageSyncSet (key : string).

(** The state the browser keeps for the extension, and the journal of the
    calls the background script made, oldest first. The storage answers a
    [get] after the turn that called it: [turnLogs] is the [logs] value it
    answers to the calls of the current turn, the one stored when the turn
    began; [logs] is the value as the writes of their callbacks leave it. *)
Record Browser := {
  sync : Settings;
  alarms : gmap string Alarm;
  (** [storage.local]'s [logs] key *)
  logs : option (list LogEntry.t);
  turnLogs : option (list LogEntry.t);
  journal : list BgEvent
}.

(** An [async] method over a state [S]: state passing, with the way it
    ends. *)
Definition St (S A : Type) : Type := S -> S * Completion A.

Section St.
Context {S : Type}.

Definition St_ret {A} (a : A) : St S A := fun st => (st, Returned a).

Definition St_bind {A C} (f : A -> St S C) (m : St S A) : St S C :=
  fun st =>
    match m st with
    | (st', Returned a) => f a st'
    | (st', Thrown message) => (st', Thrown message)
    | (st', Pending) => (st', Pending)
    end.

Definition St_throw {A} (message : string) : St S A := fun st => (st, Thrown message).

Definition St_pending {A} : St S A := fun st => (st, Pending).

(** [try { m } catch (error) { handler(error.message) }] *)
Definition St_try_catch {A} (m : St S A) (handler : string -> St S A) : St S A :=
  fun st =>
    match m st with
    | (st', Thrown message) => handler message st'
    | other => other
    end.

(** [await] on a promise of the browser's. *)
Definition St_await {A} (c : Completion A) : St S A := fun st => (st, c).

Definition St_lift {A} (o : Outcome A) : St S A :=
  match o with
  | Ok a => St_ret a
  | Throw message => St_throw message
  end.

End St.

#[global] Instance St_mret {S} : MRet (St S) := @St_ret S.
#[global] Instance St_mbind {S} : MBind (St S) := @St_bind S.

Abbreviation B := (St Browser).

Definition record (ev : BgEvent) : B unit :=
  fun st =>
    ({| sync := sync st; alarms := alarms st; logs := logs st;
        turnLogs := turnLogs st; journal := journal st ++ [ev] |}, Returned tt).

Definition updateAlarms (f : gmap string Alarm -> gmap string Alarm) : B unit :=
  fun st =>
    ({| sync := sync st; alarms := f (alarms st); logs := logs st;
        turnLogs := turnLogs st; journal := journal st |}, Returned tt).

(** [storage.local.get(['logs']).then(result => ... set({ logs }))]: the
    callback gets the list stored when the turn began, whatever the calls
    before it in the turn wrote, and its write replaces theirs. *)
Definition updateLogs (f : option (list LogEntry.t) -> option (list LogEntry.t)) : B unit :=
  fun st =>
    ({| sync := sync st; alarms := alarms st; logs := f (turnLogs st);
        turnLogs := turnLogs st; journal := journal st |}, Returned tt).

Definition updateSync (f : Settings -> Settings) : B unit :=
  fun st =>
    ({| sync := f (sync st); alarms := alarms st; logs := logs st;
        turnLogs := turnLogs st; journal := journal st |}, Returned tt).

(** A later turn begins: the storage callbacks of the calls made so far
    have run, and the list stored is what a [get] is answered from now on. *)
Definition nextTurn (st : Browser) : Browser :=
  {| sync := sync st; alarms := alarms st; logs := logs st;
     turnLogs := logs st; journal := journal st |}.

(** [await m] on a promise of the browser's or of an [async] method: the
    caller is resumed, or its [catch] entered, in a later turn. *)
Definition awaiting {A} (m : B A) : B A :=
  fun st => let '(st', c) := m st in (nextTurn st', c).

Definition getSync : B Settings := fun st => (st, Returned (sync st)).

(** The methods below read the same in [AttendanceSchedulerFirefox] and
    [AttendanceSchedulerChrome], up to the name of the API object
    ([browser] or [chrome]) and the promise or callback around each call;
    [sendAttendanceMessage], which differs, is given once per browser. *)
Module AttendanceScheduler.
Section WithEnv.

Variable env : Env.

Definition entryType (message : string) : string :=
  if JsString.includes message "❌" then "error"
  else if JsString.includes message "✅" then "success"
  else "info".

(** The storage callback of [log]: the list it stores, from the entry and
    the stored [logs] value. *)
Definition storeLog (entry : LogEntry.t) (stored : option (list LogEntry.t))
    : list LogEntry.t :=
  let logs := default [] stored in
  let logs := entry :: logs in
  if (50 <? length logs)%nat then take 50 logs else logs.

(** [log(message)]. The console line is written at once; the entry is
    stored by the callback of the [get], which runs after the turn. Of the
    calls made in one turn each callback gets the same list, and the entry
    of the last one is the one that stays stored. *)
Definition log (message : string) : B unit :=
  let timestamp := JsDate.toLocaleString (locale env) (Some (now env)) in
  record (BgConsoleLog ("[" +:+ timestamp +:+ "] " +:+ message)) ;;
  updateLogs (fun stored =>
    Some (storeLog {| LogEntry.timestamp := timestamp;
                      LogEntry.message := message;
                      LogEntry.type := entryType message |} stored)).

Definition alarmsCreate (name : string) (alarm : Alarm) : B unit :=
  record (AlarmsCreate name alarm) ;;
  updateAlarms (fun m => <[name := alarm]> m).

Definition alarmsClear (name : string) : B unit :=
  record (AlarmsClear name) ;;
  updateAlarms (fun m => delete name m).

(** The time the alarm is created for: [scheduledTime] after the
    [setHours] and the conditional [setDate]. Both [new Date()] are taken
    at the same instant [now env]. *)
Definition scheduledTimeFor (time : string) : JsDate.Date :=
  let parts := (fun s => JsDate.Number (Some s)) <$> JsString.split time ":"%char in
  let hours := mjoin (parts !! 0%nat) in
  let minutes := mjoin (parts !! 1%nat) in
  let now_ : JsDate.Date := Some (now env) in
  let scheduledTime : JsDate.Date := Some (now env) in
  let scheduledTime :=
    JsDate.setHours (locale env) scheduledTime hours minutes (Some 0) (Some 0) in
  if JsDate.le scheduledTime now_ then
    JsDate.setDate (locale env) scheduledTime
      ((fun d => d + 1) <$> JsDate.getDate (locale env) scheduledTime)
  else scheduledTime.

(** [createDailyAlarm(name, time)]; [time] is [None] when the setting is
    undefined, and [time.split] then throws. *)
Definition createDailyAlarm (name : string) (time : option string) : B unit :=
  match time with
  | None => St_throw "time is undefined"
  | Some time =>
      let scheduledTime := scheduledTimeFor time in
      alarmsCreate name {| when := scheduledTime; periodInMinutes := 24 * 60 |} ;;
      log (name +:+ " alarm set for " +:+
           JsDate.toLocaleString (locale env) scheduledTime)
  end.

Definition clearSchedule : B unit :=
  alarmsClear "checkin" ;;
  alarmsClear "checkout" ;;
  log "Schedule cleared".

(** The text of an optional string in a template literal. *)
Definition show (s : option string) : string := default "undefined" s.

Definition setupSchedule (checkinTime checkoutTime : option string) : B unit :=
  clearSchedule ;;
  createDailyAlarm "checkin" checkinTime ;;
  createDailyAlarm "checkout" checkoutTime ;;
  log ("Schedule set: Check-in at " +:+ show checkinTime +:+
       ", Check-out at " +:+ show checkoutTime).

(** [loadSettings()]: the [get] fills in its defaults for unset keys. *)
Definition loadSettings : B unit :=
  stored ← awaiting getSync ;
  let settings_autoSchedule := default false (autoSchedule stored) in
  let settings_checkinTime := default "09:00" (checkinTime stored) in
  let settings_checkoutTime := default "17:30" (checkoutTime stored) in
  if settings_autoSchedule then
    setupSchedule (Some settings_checkinTime) (Some settings_checkoutTime)
  else mret tt.

Definition toggleAutoSchedule (enabled : bool) : B unit :=
  awaiting
    (record (StorageSyncSet "autoSchedule") ;;
     updateSync (fun s => {| autoSchedule := Some enabled;
                             checkinTime := checkinTime s;
                             checkoutTime := checkoutTime s |})) ;;
  (if enabled then
     settings ← awaiting getSync ;
     setupSchedule (checkinTime settings) (checkoutTime settings)
   else clearSchedule) ;;
  log ("Auto-schedule " +:+ (if enabled then "enabled" else "disabled")).

Definition waitForTabLoad (tabId : nat) : B unit :=
  if tabLoadCompletes env tabId then record (AwaitTabLoad tabId 2000)
  else St_pending.

Definition showNotification (type status : string) (error : option string) : B unit :=
  let title :=
    if String.eqb status "success" then
      "✅ " +:+ (if String.eqb type "checkin" then "Checked In" else "Checked Out")
    else
      "❌ " +:+ (if String.eqb type "checkin" then "Check-in" else "Check-out") +:+ " Failed" in
  let message :=
    if String.eqb status "success" then "Attendance recorded successfully"
    else default EmptyString error ||| "Failed to record attendance" in
  record (NotificationsCreate title message).

(** [response && response.success] *)
Definition responseSuccess (response : option Response) : bool :=
  match response with
  | Some (ResponseResult result) => success result
  | Some (ResponseError _) => false
  | None => false
  end.

(** [response?.error || fallback] *)
Definition responseError (response : option Response) (fallback : string) : string :=
  match response with
  | Some (ResponseError error) => error ||| fallback
  | _ => fallback
  end.

Definition attendanceRequest (type : string) : Request :=
  {| action := "performAttendance"; type := type |}.

Variable sendAttendanceMessage : nat -> string -> B (option Response).

Definition performScheduledAttendance (type : string) : B unit :=
  log ("🔔 Scheduled " +:+ type +:+ " triggered") ;;
  St_try_catch
    (record TabsQuery ;;
     tabs ← awaiting (St_lift (tabsQuery env)) ;
     match tabs with
     | [] =>
         record TabsCreate ;;
         tab ← awaiting (St_lift (tabsCreate env)) ;
         awaiting (waitForTabLoad (id tab)) ;;
         awaiting (sendAttendanceMessage (id tab) type) ;;
         mret tt
     | tab :: _ =>
         awaiting (sendAttendanceMessage (id tab) type) ;;
         mret tt
     end ;;
     showNotification type "success" None)
    (fun message =>
       log ("❌ Scheduled " +:+ type +:+ " failed: " +:+ message) ;;
       showNotification type "error" (Some message)).

(** The [alarms.onAlarm] listener. *)
Definition onAlarm (name : string) : B unit :=
  if String.eqb name "checkin" then performScheduledAttendance "checkin"
  else if String.eqb name "checkout" then performScheduledAttendance "checkout"
  else mret tt.

(** The constructor: the listeners are registered, then the settings are
    loaded. *)
Definition init : B unit := loadSettings.

End WithEnv.
End AttendanceScheduler.

Module AttendanceSchedulerFirefox.
Section WithEnv.

Variable env : Env.

Definition sendAttendanceMessage (tabId : nat) (type : string) : B (option Response) :=
  St_try_catch
    (let request := AttendanceScheduler.attendanceRequest type in
     record (TabsSendMessage tabId request) ;;
     response ← St_await (tabsSendMessage env tabId request) ;
     if AttendanceScheduler.responseSuccess response then mret response
     else St_throw (AttendanceScheduler.responseError response "Unknown error"))
    (fun message => St_throw ("Failed to send message: " +:+ message)).

Definition performScheduledAttendance : string -> B unit :=
  AttendanceScheduler.performScheduledAttendance env sendAttendanceMessage.

Definition onAlarm : string -> B unit :=
  AttendanceScheduler.onAlarm env sendAttendanceMessage.

End WithEnv.
End AttendanceSchedulerFirefox.

Module AttendanceSchedulerChrome.
Section WithEnv.

Variable env : Env.

(** The callback of [chrome.tabs.sendMessage]: a rejection of the call is
    [chrome.runtime.lastError]. *)
Definition sendAttendanceMessage (tabId : nat) (type : string) : B (option Response) :=
  let request := AttendanceScheduler.attendanceRequest type in
  record (TabsSendMessage tabId request) ;;
  match tabsSendMessage env tabId request with
  | Thrown lastError => St_throw lastError
  | Returned response =>
      if AttendanceScheduler.responseSuccess response then mret response
      else St_throw (AttendanceScheduler.responseError response "Unknown error")
  | Pending => St_pending
  end.

Definition performScheduledAttendance : string -> B unit :=
  AttendanceScheduler.performScheduledAttendance env sendAttendanceMessage.

Definition onAlarm : string -> B unit :=
  AttendanceScheduler.onAlarm env sendAttendanceMessage.

End WithEnv.
End AttendanceSchedulerChrome.

(** ** The alarms API, seen from the scheduler *)

(** A repeating alarm that fires is scheduled again [periodInMinutes]
    later, and its name is handed to the [onAlarm] listener, in a turn of
    its own; the name of an alarm that does not exist is not fired. *)
Definition alarmFires (listener : string -> B unit) (name : string) : B unit :=
  fun st =>
    match alarms st !! name with
    | None => (st, Returned tt)
    | Some alarm =>
        let next := {| when := (fun w => w + periodInMinutes alarm * 60000) <$> when alarm;
                       periodInMinutes := periodInMinutes alarm |} in
        (awaiting (updateAlarms (fun m => <[name := next]> m)) ;; listener name) st
    end.

(** What a restart of the browser leaves of the extension's state. The
    settings and the logs are on disk. The alarms are kept by a browser
    that stores them (Chrome, as a rule) and dropped by one that does not
    (Firefox: alarms do not outlive the browser session). *)
Definition restarted (keepsAlarms : bool) (st : Browser) : Browser :=
  {| sync := sync st;
     alarms := if keepsAlarms then alarms st else ∅;
     logs := logs st;
     turnLogs := logs st;
     journal := journal st |}.

(** An alarm whose time has come. *)
Definition isDue (env : Env) (st : Browser) (name : string) : bool :=
  match alarms st !! name with
  | Some alarm =>
      match when alarm with
      | Some w => w <=? now env
      | None => false
      end
  | None => false
  end.

(** The browser fires an alarm it holds that is due. *)
Definition deliverDue (env : Env) (listener : string -> B unit) (name : string)
    (st : Browser) : Browser :=
  if isDue env st name then (alarmFires listener name st).1 else st.

(** The state in which the storage answers [loadSettings] after a restart:
    the constructor has registered the [onAlarm] listener and asked for
    the settings, and the browser has fired the alarms of the schedule it
    kept that are due. Each firing is run to its end here; the calls it
    makes do not depend on when the storage answers. *)
Definition delivered (env : Env) (listener : string -> B unit) (keepsAlarms : bool)
    (st : Browser) : Browser :=
  deliverDue env listener "checkout"
    (deliverDue env listener "checkin" (restarted keepsAlarms st)).

(** The scheduler starts in a restarted browser. *)
Definition startUp (env : Env) (listener : string -> B unit) (keepsAlarms : bool)
    : B unit :=
  fun st => AttendanceScheduler.init env (delivered env listener keepsAlarms st).

(** ** The popup *)

Module PopupLog.
Record t := {
  message : string;
  type : string
}.
End PopupLog.

Inductive PopupEvent :=
| ClassListAdd (button class : string)
| ClassListRemove (button class : string)
| SetDisabled (button : string) (v : bool)
| UpdateLogs
| UpdateStatus (status : string)
| PopupTabsQuery
| PopupTabsSendMessage (tabId : nat) (request : Request)
| PopupNotification (message type : string)
| RemoveFlashLater (button : string) (delay : Z).

(** [this.logs], and the calls the popup made, oldest first. *)
Record Popup := {
  popupLogs : list PopupLog.t;
  calls : list PopupEvent
}.

Record PopupEnv := {
  popupNow : Z;
  popupLocale : JsDate.Locale;
  (** [tabs.query({ active: true, currentWindow: true })] *)
  activeTabs : Outcome (list Tab);
  popupSendMessage : nat -> Request -> Completion (option Response)
}.

Module AttendancePopup.
Section WithEnv.

Variable env : PopupEnv.

Definition call (ev : PopupEvent) : St Popup unit :=
  fun st => ({| popupLogs := popupLogs st; calls := calls st ++ [ev] |}, Returned tt).

(** The list [this.logs] holds after [addLog] on [logs]:
    [unshift], then one [pop] if the length exceeds 10. *)
Definition addLogTo (entry : PopupLog.t) (logs : list PopupLog.t) : list PopupLog.t :=
  let logs := entry :: logs in
  if (10 <? length logs)%nat then removelast logs else logs.

Definition addLog (message type : string) : St Popup unit :=
  let timestamp := JsDate.toLocaleTimeString (popupLocale env) (Some (popupNow env)) in
  let logEntry := "[" +:+ timestamp +:+ "] " +:+ message in
  (fun st =>
     ({| popupLogs := addLogTo {| PopupLog.message := logEntry; PopupLog.type := type |}
                        (popupLogs st);
         calls := calls st |}, Returned tt)) ;;
  call UpdateLogs.

Definition showNotification (message type : string) : St Popup unit :=
  call (PopupNotification message type).

(** [try { body } catch (error) { ... } finally { finalizer }] for a
    [catch] block that does not throw. *)
Definition try_finally {A} (body : St Popup A) (finalizer : St Popup unit) : St Popup A :=
  fun st =>
    match body st with
    | (st', Pending) => (st', Pending)
    | (st', done) =>
        match finalizer st' with
        | (st'', Returned _) => (st'', done)
        | (st'', Thrown message) => (st'', Thrown message)
        | (st'', Pending) => (st'', Pending)
        end
    end.

Definition performAttendanceAction (action : string) : St Popup unit :=
  let button := if String.eqb action "checkin" then "checkInBtn" else "checkOutBtn" in
  call (ClassListAdd button "loading") ;;
  call (SetDisabled button true) ;;
  addLog ("Attempting " +:+ action +:+ "...") "info" ;;
  try_finally
    (St_try_catch
       (call PopupTabsQuery ;;
        tabs ← St_lift (activeTabs env) ;
        tab ← match tabs !! 0%nat with
              | Some tab => mret tab
              | None => St_throw "tab is undefined"
              end ;
        tabUrl ← match url tab with
                 | Some u => mret u
                 | None => St_throw "tab.url is undefined"
                 end ;
        (if negb (JsString.includes tabUrl "people.zoho.com") then
           St_throw "Please navigate to Zoho People first"
         else mret tt) ;;
        let request := {| action := "performAttendance"; type := action |} in
        call (PopupTabsSendMessage (id tab) request) ;;
        response ← St_await (popupSendMessage env (id tab) request) ;
        if AttendanceScheduler.responseSuccess response then
          addLog (action +:+ " successful!") "success" ;;
          call (UpdateStatus "success") ;;
          call (ClassListAdd button "success-flash") ;;
          showNotification (action +:+ " completed successfully") "success"
        else
          St_throw (AttendanceScheduler.responseError response "Unknown error occurred"))
       (fun message =>
          addLog (action +:+ " failed: " +:+ message) "error" ;;
          call (ClassListAdd button "error-flash") ;;
          showNotification (action +:+ " failed: " +:+ message) "error"))
    (call (ClassListRemove button "loading") ;;
     call (SetDisabled button false) ;;
     call (RemoveFlashLater button 500)).

End WithEnv.
End AttendancePopup.

(** ** The rest of the scripts *)

(** *** [ZohoAttendanceShared.formatTime] *)

Module TimeDisplay.

(** [formatTime(time24)]: [hours % 12 || 12], [hours >= 12], and the
    template literal. [hours] and [minutes] are the first two pieces of
    the split; a NaN remainder is falsy, a NaN comparison is false, and a
    missing piece prints as "undefined". Numbers are exact integers. *)
Definition formatTime (time24 : string) : string :=
  let parts := JsString.split time24 ":"%char in
  let hours := parts !! 0%nat in
  let minutes := parts !! 1%nat in
  let remainder := (fun n => Z.rem n 12) <$> JsDate.Number hours in
  let hour12 :=
    match remainder with
    | Some r => if r =? 0 then 12 else r
    | None => 12
    end in
  let ampm :=
    match JsDate.Number hours with
    | Some n => if 12 <=? n then "PM" else "AM"
    | None => "AM"
    end in
  pretty hour12 +:+ ":" +:+ default "undefined" minutes +:+ " " +:+ ampm.

(** The hour a 12-hour display stands for. *)
Definition hourOf (hour12 : nat) (pm : bool) : nat :=
  (hour12 mod 12 + if pm then 12 else 0)%nat.

(** Reading a display "H:MM AM" or "H:MM PM" back: the hour and the
    minutes of the day. *)
Definition readBack (shown : string) : option (nat * nat) :=
  let parts := JsString.split shown ":"%char in
  hour12 ← JsDate.Number (parts !! 0%nat) ;
  rest ← parts !! 1%nat ;
  let pieces := JsString.split rest " "%char in
  minutes ← JsDate.Number (pieces !! 0%nat) ;
  suffix ← pieces !! 1%nat ;
  Some (hourOf (Z.to_nat hour12) (String.eqb suffix "PM"), Z.to_nat minutes).

End TimeDisplay.

(** *** [scanForAttendanceButtons] *)

(** A control the scan looks at: the element and its
    [dataset.attendanceBot], [None] when the attribute is absent. *)
Record Scanned := {
  scannedElement : Element;
  attendanceBot : option string
}.

Module PageScan.

(** [!button.dataset.attendanceBot] *)
Definition unmarked (button : Scanned) : bool :=
  match attendanceBot button with
  | None => true
  | Some EmptyString => true
  | Some _ => false
  end.

Definition scanText (button : Scanned) : string :=
  JsString.toLowerCase
    (textContent (scannedElement button) ||| value (scannedElement button)
       ||| title (scannedElement button) ||| EmptyString).

Definition looksLikeAttendance (text : string) : bool :=
  JsString.includes text "check" || JsString.includes text "punch"
    || JsString.includes text "attendance".

(** The body of the [forEach]: the button as the scan leaves it, and the
    console lines it writes. *)
Definition scanButton (button : Scanned) : Scanned * list Event :=
  let text := scanText button in
  if looksLikeAttendance text then
    if unmarked button then
      ({| scannedElement := scannedElement button; attendanceBot := Some "detected" |},
       [ConsoleLog "info" ("Detected potential attendance button: " +:+ text)])
    else (button, [])
  else (button, []).

(** [scanForAttendanceButtons()] on the controls the query returned: the
    controls afterwards, and the console lines. *)
Fixpoint scanForAttendanceButtons (buttons : list Scanned) : list Scanned * list Event :=
  match buttons with
  | [] => ([], [])
  | button :: buttons' =>
      let '(button1, lines) := scanButton button in
      let '(rest, lines') := scanForAttendanceButtons buttons' in
      (button1 :: rest, lines ++ lines')
  end.

End PageScan.

(** *** The background script: messages, installation, instances *)

(** A message to the background script: [{ action, enabled }]. *)
Record Message := {
  messageAction : string;
  enabled : bool
}.

(** The background context: the schedulers constructed in it, each with its
    own [onMessage] and [onAlarm] listeners registered, and the browser
    state they share. *)
Record Background := {
  schedulers : nat;
  browser : Browser
}.

Module BackgroundScript.
Section WithEnv.

Variable env : Env.
Variable sendAttendanceMessage : nat -> string -> B (option Response).

(** The [runtime.onMessage] listener of [setupMessageListeners]. *)
Definition onMessage (request : Message) : B unit :=
  if String.eqb (messageAction request) "toggleAutoSchedule" then
    AttendanceScheduler.toggleAutoSchedule env (enabled request)
  else mret tt.

(** [handleInstallation()]. The [timezone] key it also stores is read by
    no script and has no place in [Settings]. *)
Definition handleInstallation : B unit :=
  awaiting
    (record (StorageSyncSet "autoSchedule,checkinTime,checkoutTime,timezone") ;;
     updateSync (fun _ => {| autoSchedule := Some false;
                             checkinTime := Some "09:00";
                             checkoutTime := Some "17:30" |})) ;;
  AttendanceScheduler.log env "🚀 Zoho Attendance Helper installed" ;;
  record (NotificationsCreate "🕐 Zoho Attendance Helper"
            "Extension installed! Click the icon to get started.").

(** [new AttendanceScheduler...()]: one more pair of listeners, and the
    settings loaded. *)
Definition construct (bg : Background) : Background :=
  {| schedulers := S (schedulers bg);
     browser := (AttendanceScheduler.init env (browser bg)).1 |}.

(** The script is run in a fresh context: the last statement constructs a
    scheduler. *)
Definition scriptLoaded (st : Browser) : Background :=
  construct {| schedulers := 0; browser := st |}.

(** The [runtime.onInstalled] listener. *)
Definition onInstalled (reason : string) (bg : Background) : Background :=
  let bg := construct bg in
  if String.eqb reason "install" then
    {| schedulers := schedulers bg; browser := (handleInstallation (browser bg)).1 |}
  else bg.

(** The [runtime.onStartup] listener. *)
Definition onStartup (bg : Background) : Background := construct bg.

(** An alarm fires: the browser schedules a repeating alarm again, as in
    [alarmFires], and calls each registered [onAlarm] listener with its
    name, in the order of registration. Each listener's firing is run to
    its end before the next one starts; the browser may interleave them at
    their [await]s, which changes the order of the journal but not the
    calls each of them makes, since what the environment answers does not
    depend on the order. The listeners are called in one turn: which of
    their log entries stay stored is not followed here. *)
Definition alarmDispatched (name : string) (bg : Background) : Background :=
  match alarms (browser bg) !! name with
  | None => bg
  | Some alarm =>
      let next := {| when := (fun w => w + periodInMinutes alarm * 60000) <$> when alarm;
                     periodInMinutes := periodInMinutes alarm |} in
      {| schedulers := schedulers bg;
         browser :=
           Nat.iter (schedulers bg)
             (fun st => (AttendanceScheduler.onAlarm env sendAttendanceMessage name st).1)
             (updateAlarms (fun m => <[name := next]> m) (browser bg)).1 |}
  end.

(** A message arrives: each registered [onMessage] listener handles it. *)
Definition messageDispatched (request : Message) (bg : Background) : Background :=
  {| schedulers := schedulers bg;
     browser := Nat.iter (schedulers bg) (fun st => (onMessage request st).1) (browser bg) |}.

End WithEnv.
End BackgroundScript.

(** *** The popup: status line and schedule toggle *)

(** What [updateStatus] writes: the indicator's class and the text. *)
Record StatusLine := {
  indicatorClass : string;
  statusText : string
}.

(** The popup together with what its toggle touches: the [active] class of
    the toggle, the synced settings, and the messages sent to the
    background script, oldest first. *)
Record PopupWorld := {
  toggleActive : bool;
  popupSync : Settings;
  sentToBackground : list Message;
  popup : Popup
}.

Module AttendancePopupUi.
Section WithEnv.

Variable env : PopupEnv.

(** [updateStatus()] *)
Definition updateStatus : StatusLine :=
  match activeTabs env with
  | Ok tabs =>
      let connected :=
        match tabs !! 0%nat with
        | Some tab =>
            match url tab with
            | Some u =>
                negb (String.eqb u EmptyString) && JsString.includes u "people.zoho.com"
            | None => false
            end
        | None => false
        end in
      if connected then
        {| indicatorClass := "status-indicator online";
           statusText := "Connected to Zoho People" |}
      else
        {| indicatorClass := "status-indicator offline";
           statusText := "Navigate to Zoho People" |}
  | Throw _ =>
      {| indicatorClass := "status-indicator offline"; statusText := "Extension ready" |}
  end.

(** [loadSettings()]: the toggle shows the stored [autoSchedule] (false when
    unset) and the two times are displayed through [formatTime]. *)
Definition loadSettings (w : PopupWorld) : PopupWorld * (string * string) :=
  let settings_autoSchedule := default false (autoSchedule (popupSync w)) in
  let settings_checkinTime := default "09:00" (checkinTime (popupSync w)) in
  let settings_checkoutTime := default "17:30" (checkoutTime (popupSync w)) in
  ({| toggleActive := settings_autoSchedule;
      popupSync := popupSync w;
      sentToBackground := sentToBackground w;
      popup := popup w |},
   (TimeDisplay.formatTime settings_checkinTime,
    TimeDisplay.formatTime settings_checkoutTime)).

(** [toggleAutoSchedule()] *)
Definition toggleAutoSchedule (w : PopupWorld) : PopupWorld :=
  let newState := negb (toggleActive w) in
  {| toggleActive := newState;
     popupSync := {| autoSchedule := Some newState;
                     checkinTime := checkinTime (popupSync w);
                     checkoutTime := checkoutTime (popupSync w) |};
     sentToBackground :=
       sentToBackground w ++
       [ {| messageAction := "toggleAutoSchedule"; enabled := newState |} ];
     popup :=
       (AttendancePopup.addLog env
          ("Auto-schedule " +:+ (if newState then "enabled" else "disabled")) "info"
          (popup w)).1 |}.

End WithEnv.
End AttendancePopupUi.

(** *** The manifest *)

Module Manifest.

(** [content_scripts[0].matches] *)
Definition matches : list string :=
  [ "https://people.zoho.com/*"; "https://people.zoho.eu/*"; "https://people.zoho.in/*" ].

(** A match pattern [scheme://host/*] matches the URLs of that scheme and
    host whatever their path: the URLs that start with the pattern
    without its star. *)
Definition withoutStar (pattern : string) : string :=
  String.substring 0 (String.length pattern - 1) pattern.

Definition patternMatches (pattern url : string) : bool :=
  JsString.startsWith url (withoutStar pattern).

(** The content script is injected into the pages one of the patterns
    matches. *)
Definition contentScriptInjected (url : string) : bool :=
  existsb (fun pattern => patternMatches pattern url) matches.

End Manifest.

(** *** The build and packaging scripts *)

(** The files and directories that exist, as paths relative to the project
    root ([rootDir]). What the scripts write to the console is left out. *)
Definition Disk := list string.

(** How a script ends: it runs to its end, it calls [process.exit], or it
    waits for ever. *)
Inductive Ended :=
| Finished
| Exit (code : Z)
| Hangs.

(** The exit status is 0. *)
Definition succeeded (ended : Ended) : bool :=
  match ended with
  | Finished => true
  | Exit code => code =? 0
  | Hangs => false
  end.

Module FsExtra.

Definition pathExists (p : string) (disk : Disk) : bool :=
  existsb (String.eqb p) disk.

(** [p] is [dir] or lies below it. *)
Definition under (dir p : string) : bool :=
  String.eqb p dir || JsString.startsWith p (dir +:+ "/").

Definition addPath (p : string) (disk : Disk) : Disk :=
  if pathExists p disk then disk else disk ++ [p].

(** [fs.remove(p)]: [p] and all that lies below it are removed; nothing
    happens when [p] does not exist. *)
Definition remove (p : string) : St Disk unit :=
  fun disk => (List.filter (fun q => negb (under p q)) disk, Returned tt).

(** [fs.ensureDir(p)], for a [p] whose parent exists. *)
Definition ensureDir (p : string) : St Disk unit :=
  fun disk => (addPath p disk, Returned tt).

Fixpoint dropChars (n : nat) (s : string) : string :=
  match n, s with
  | S n', String _ s' => dropChars n' s'
  | _, _ => s
  end.

(** Where the path [q], at or below [src], lands when [src] is copied to
    [dest]. *)
Definition rebase (src dest q : string) : string :=
  dest +:+ dropChars (String.length src) q.

(** [fs.copy(src, dest)]: the file, or the directory with all that lies
    below it, is copied; it is an error when [src] does not exist. *)
Definition copy (src dest : string) : St Disk unit :=
  fun disk =>
    if pathExists src disk then
      (List.fold_left (fun d q => addPath q d)
         (List.map (rebase src dest) (List.filter (under src) disk)) disk,
       Returned tt)
    else (disk, Thrown ("ENOENT: no such file or directory, lstat '" +:+ src +:+ "'")).

End FsExtra.

Module ExtensionBuilder.
Import FsExtra.

Definition srcDir : string := "src".
Definition distDir : string := "dist".
Definition iconsDir : string := "icons".

Definition copySourceFiles (targetDir browser : string) : St Disk unit :=
  ensureDir (targetDir +:+ "/popup") ;;
  ensureDir (targetDir +:+ "/content") ;;
  ensureDir (targetDir +:+ "/background") ;;
  ensureDir (targetDir +:+ "/common") ;;
  copy (srcDir +:+ "/popup") (targetDir +:+ "/popup") ;;
  copy (srcDir +:+ "/common") (targetDir +:+ "/common") ;;
  copy (srcDir +:+ "/content/content-" +:+ browser +:+ ".js")
       (targetDir +:+ "/content/content-" +:+ browser +:+ ".js") ;;
  copy (srcDir +:+ "/background/background-" +:+ browser +:+ ".js")
       (targetDir +:+ "/background/background-" +:+ browser +:+ ".js").

Definition buildChrome : St Disk unit :=
  let chromeDir := distDir +:+ "/chrome" in
  ensureDir chromeDir ;;
  copy "manifest-chrome.json" (chromeDir +:+ "/manifest.json") ;;
  copySourceFiles chromeDir "chrome" ;;
  copy iconsDir (chromeDir +:+ "/icons").

Definition buildFirefox : St Disk unit :=
  let firefoxDir := distDir +:+ "/firefox" in
  ensureDir firefoxDir ;;
  copy "manifest-firefox.json" (firefoxDir +:+ "/manifest.json") ;;
  copySourceFiles firefoxDir "firefox" ;;
  copy iconsDir (firefoxDir +:+ "/icons").

Definition build (target : string) : St Disk unit :=
  remove distDir ;;
  ensureDir distDir ;;
  (if String.eqb target "all" || String.eqb target "chrome" then buildChrome
   else mret tt) ;;
  (if String.eqb target "all" || String.eqb target "firefox" then buildFirefox
   else mret tt).

(** The target the command line asks for. *)
Definition targetOf (args : list string) : string :=
  if existsb (String.eqb "--chrome") args then "chrome"
  else if existsb (String.eqb "--firefox") args then "firefox"
  else "all".

(** The script run with [args]: a build that fails ends the process with
    status 1. *)
Definition script (args : list string) (disk : Disk) : Disk * Ended :=
  match build (targetOf args) disk with
  | (disk', Returned _) => (disk', Finished)
  | (disk', Thrown _) => (disk', Exit 1)
  | (disk', Pending) => (disk', Hangs)
  end.

End ExtensionBuilder.

(** The scripts of package.json that the packaging runs. *)
Module NpmScripts.

(** [build:chrome] and [build:firefox] *)
Definition buildChrome : Disk -> Disk * Ended := ExtensionBuilder.script ["--chrome"].
Definition buildFirefox : Disk -> Disk * Ended := ExtensionBuilder.script ["--firefox"].

(** [build:all], "npm run build:chrome && npm run build:firefox": the
    second build runs when the first one ended with status 0. *)
Definition buildAll (disk : Disk) : Disk * Ended :=
  let first := buildChrome disk in
  if succeeded first.2 then buildFirefox first.1 else first.

End NpmScripts.

Module ExtensionPackager.
Section WithSystem.
Import FsExtra.

(** [this.timestamp] *)
Variable timestamp : string.
(** The version a manifest file holds, as the name of the package shows
    it; reading or parsing the file may fail. *)
Variable manifestVersion : string -> Outcome string.
(** [createZipArchive(sourceDir, outputPath, browserName)] *)
Variable createZipArchive : string -> string -> string -> St Disk unit.
Variable generateChecksums : St Disk unit.
Variable createReleaseNotes : St Disk unit.

Definition distDir : string := "dist".
Definition packagesDir : string := "packages".

Definition ensureBuildsExist : St Disk unit :=
  fun disk =>
    let chromeBuild := distDir +:+ "/chrome" in
    let firefoxBuild := distDir +:+ "/firefox" in
    if negb (pathExists chromeBuild disk) || negb (pathExists firefoxBuild disk) then
      let built := NpmScripts.buildAll disk in
      match built.2 with
      | Hangs => (built.1, Pending)
      | ended =>
          if succeeded ended then (built.1, Returned tt)
          else (built.1,
                Thrown "Failed to create builds: Command failed: npm run build:all")
      end
    else (disk, Returned tt).

Definition setupPackagesDirectory : St Disk unit :=
  remove packagesDir ;;
  ensureDir packagesDir.

Definition readManifest (buildDir : string) : St Disk string :=
  fun disk =>
    let manifestPath := buildDir +:+ "/manifest.json" in
    if negb (pathExists manifestPath disk) then
      (disk, Thrown ("Manifest not found: " +:+ manifestPath))
    else St_lift (manifestVersion manifestPath) disk.

Definition packageChrome : St Disk string :=
  let chromeDir := distDir +:+ "/chrome" in
  version ← readManifest chromeDir ;
  let packageName :=
    "zoho-attendance-chrome-v" +:+ version +:+ "-" +:+ timestamp +:+ ".zip" in
  let packagePath := packagesDir +:+ "/" +:+ packageName in
  createZipArchive chromeDir packagePath "Chrome" ;;
  let latestPath := packagesDir +:+ "/zoho-attendance-chrome-latest.zip" in
  remove latestPath ;;
  copy packagePath latestPath ;;
  mret packagePath.

Definition packageFirefox : St Disk string :=
  let firefoxDir := distDir +:+ "/firefox" in
  version ← readManifest firefoxDir ;
  let packageName :=
    "zoho-attendance-firefox-v" +:+ version +:+ "-" +:+ timestamp +:+ ".zip" in
  let packagePath := packagesDir +:+ "/" +:+ packageName in
  createZipArchive firefoxDir packagePath "Firefox" ;;
  let latestPath := packagesDir +:+ "/zoho-attendance-firefox-latest.zip" in
  remove latestPath ;;
  copy packagePath latestPath ;;
  mret packagePath.

(** [package()]: any error ends the process with status 1. *)
Definition package (disk : Disk) : Disk * Ended :=
  match (ensureBuildsExist ;;
         setupPackagesDirectory ;;
         packageChrome ;;
         packageFirefox ;;
         generateChecksums ;;
         createReleaseNotes) disk with
  | (disk', Returned _) => (disk', Finished)
  | (disk', Thrown _) => (disk', Exit 1)
  | (disk', Pending) => (disk', Hangs)
  end.

End WithSystem.
End ExtensionPackager.

(** ** Observations on traces *)

(** The strategy a console line announces: each strategy logs its banner
    when it is entered, before anything else. *)
Definition strategyBanner (ev : Event) : option string :=
  match ev with
  | ConsoleLog level message =>
      if String.eqb level "info" then
        if String.eqb message "Strategy 1: Selector-based search" then Some "selector"
        else if String.eqb message "Strategy 2: Text-based search" then Some "text"
        else if String.eqb message "Strategy 3: ARIA-based search" then Some "aria"
        else if String.eqb message "Strategy 4: Form-based search" then Some "form"
        else if String.eqb message "Strategy 5: API-based approach" then Some "api"
        else None
      else None
  | _ => None
  end.

(** The strategies a trace consulted, in the order it entered them. *)
Definition consulted (t : list Event) : list string := omap strategyBanner t.

(** The priority order, by the [method] a strategy reports. *)
Definition priorityOrder : list string := ["selector"; "text"; "aria"; "form"; "api"].

Definition failed {A} (m : M A) : Prop := ∃ message, m.2 = Thrown message.

(** The element an event acts on, if any. *)
Definition target (ev : Event) : option Element :=
  match ev with
  | ConsoleLogElement _ element
  | ScrollIntoView element _ _
  | SetOutline element _
  | SetBackgroundColor element _
  | Focus element
  | Click element
  | DispatchMouseEvent element _
  | SetCssText element _ => Some element
  | ConsoleLog _ _ | AwaitLoad | Sleep _ | Submit _ | CallWindowFunction _ => None
  end.

(** The elements a trace selected and acted on, one entry per event. *)
Definition activated (t : list Event) : list Element := omap target t.

(** The elements a trace clicked (the argument of each [element.click()]). *)
Definition clicked (t : list Event) : list Element :=
  omap (fun ev => match ev with Click element => Some element | _ => None end) t.

Definition clickable (element : Element) : Prop :=
  ZohoAttendanceShared.isElementClickable (Some element) = true.

(** A page with nothing on it to find; [:contains] is not a CSS selector and
    makes [querySelectorAll] throw. *)
Definition emptyPage : Page := {|
  readyComplete := true;
  querySelectorAll selector :=
    if JsString.includes selector ":contains(" then
      Throw ("'" +:+ selector +:+ "' is not a valid selector")
    else Ok [];
  evaluate _ := None;
  elementQuerySelectorAll _ _ := Ok [];
  windowFunction _ := None
|}.

(** A visible control labelled "Check In", outside any form. *)
Definition checkInButton : Element := {|
  textContent := "Check In";
  value := EmptyString;
  title := EmptyString;
  computedStyle := {| display := "inline-block"; visibility := "visible"; opacity := "1" |};
  disabled := false;
  cssText := "color: white;";
  closestForm := None;
  elementClick := Ok tt;
  formSubmit := Ok tt;
  unloadsPage := false
|}.


(** The page of the first scenario: [checkInButton] carries
    [data-action] "checkin"; nothing else matches. *)
Definition checkInPage : Page := {|
  readyComplete := true;
  querySelectorAll selector :=
    if String.eqb selector ("[data-action=" +:+ quoted "checkin" +:+ "]") then Ok [checkInButton]
    else if JsString.includes selector ":contains(" then
      Throw ("'" +:+ selector +:+ "' is not a valid selector")
    else Ok [];
  evaluate _ := None;
  elementQuerySelectorAll _ _ := Ok [];
  windowFunction _ := None
|}.

(** A control whose text matches but which is not laid out. *)
Definition hiddenCheckInButton : Element := {|
  textContent := "Check In";
  value := EmptyString;
  title := EmptyString;
  computedStyle := {| display := "none"; visibility := "visible"; opacity := "1" |};
  disabled := false;
  cssText := EmptyString;
  closestForm := None;
  elementClick := Ok tt;
  formSubmit := Ok tt;
  unloadsPage := false
|}.

(** A page on which every query that can match finds [hiddenCheckInButton],
    and only it. *)
Definition hiddenPage : Page := {|
  readyComplete := true;
  querySelectorAll selector :=
    if JsString.includes selector ":contains(" then
      Throw ("'" +:+ selector +:+ "' is not a valid selector")
    else Ok [hiddenCheckInButton];
  evaluate _ := Some hiddenCheckInButton;
  elementQuerySelectorAll _ _ := Ok [hiddenCheckInButton];
  windowFunction _ := None
|}.

(** The clickability predicate, condition by condition. *)
Definition passesPredicate (element : Element) : Prop :=
  display (computedStyle element) ≠ "none" ∧
  visibility (computedStyle element) ≠ "hidden" ∧
  opacity (computedStyle element) ≠ "0" ∧
  disabled element = false.

(** Two runs end alike: with the same result, both with an error, or
    neither of them resumed. *)
Definition sameEnding (a b : Completion Result) : Prop :=
  match a, b with
  | Returned r, Returned r' => r = r'
  | Thrown _, Thrown _ => True
  | Pending, Pending => True
  | _, _ => False
  end.

(** The steps of a trace: everything but the console lines. *)
Definition steps (t : list Event) : list Event :=
  List.filter (fun ev => match ev with
                         | ConsoleLog _ _ | ConsoleLogElement _ _ => false
                         | _ => true
                         end) t.

(** The activation sequence as the specification words it; [navigated]
    tells whether the click caused a navigation. Steps (1) to (5) in order,
    the marker of step (2) being reverted 1000 ms after the last step. *)
Definition specifiedActivation (navigated : bool) (element : Element) : list Event :=
  [ ScrollIntoView element "smooth" "center"; Sleep 500;
    SetOutline element "3px solid #4ade80";
    SetBackgroundColor element "rgba(74, 222, 128, 0.2)";
    Focus element; Click element;
    DispatchMouseEvent element "mousedown";
    DispatchMouseEvent element "mouseup";
    DispatchMouseEvent element "click" ] ++
  match closestForm element with
  | Some form => if navigated then [] else [Submit form]
  | None => []
  end ++
  [ Sleep 1000; SetCssText element (cssText element) ].

(** ** Observations on the scheduler *)

(** "HH:MM", the form of the [checkinTime] and [checkoutTime] settings. *)
Definition twoDigits (n : nat) : string :=
  String (ascii_of_nat (48 + n / 10)) (String (ascii_of_nat (48 + n mod 10)) EmptyString).

Definition hhmm (hours minutes : nat) : string :=
  twoDigits hours +:+ ":" +:+ twoDigits minutes.

(** Today's occurrence of a time of day: [hours]:[minutes] local time on
    the local day the instant [t] lies in. *)
Definition todayAt (L : JsDate.Locale) (t : Z) (hours minutes : nat) : Z :=
  JsDate.UTC L
    (JsDate.MakeDate (JsDate.Day (JsDate.LocalTime L t))
       (JsDate.MakeTime (Z.of_nat hours) (Z.of_nat minutes) 0 0)).

(** The instant at which the clock shows, one calendar day later, what it
    shows at the instant [t]: 24 hours later, or 23 or 25 across a clock
    change. *)
Definition dayAfter (L : JsDate.Locale) (t : Z) : Z :=
  JsDate.UTC L (JsDate.LocalTime L t + JsDate.msPerDay).

(** The next occurrence: today's if it is still ahead of [t], otherwise
    the one a calendar day after it. *)
Definition nextOccurrence (L : JsDate.Locale) (t : Z) (hours minutes : nat) : Z :=
  let today := todayAt L t hours minutes in
  if t <? today then today else dayAfter L today.

(** A time zone whose clock changes are ordinary: a local time read back
    is never earlier than asked for (a skipped time is moved forward), and
    a local time on a later calendar date than the one the clock shows at
    an instant is read as a later instant. *)
Definition regular (L : JsDate.Locale) : Prop :=
  (∀ r, r ≤ JsDate.LocalTime L (JsDate.UTC L r)) ∧
  (∀ t r, JsDate.Day (JsDate.LocalTime L t) < JsDate.Day r → t < JsDate.UTC L r).




Definition dailyAlarm (w : Z) : Alarm :=
  {| when := Some w; periodInMinutes := 1440 |}.

(** The calls a scheduled firing makes, and only a firing: on tabs and on
    notifications. *)
Definition isFiringCall (ev : BgEvent) : bool :=
  match ev with
  | TabsQuery | TabsCreate | AwaitTabLoad _ _ | TabsSendMessage _ _
  | NotificationsCreate _ _ => true
  | _ => false
  end.

Definition firingCalls (j : list BgEvent) : list BgEvent := List.filter isFiringCall j.

(** The calls on the alarms API. *)
Definition isAlarmCall (ev : BgEvent) : bool :=
  match ev with
  | AlarmsClear _ | AlarmsCreate _ _ => true
  | _ => false
  end.

Definition alarmCalls (j : list BgEvent) : list BgEvent := List.filter isAlarmCall j.

(** What arming the schedule again does, from the state [before] on: the
    method returns, it has made no firing call, it has cleared both alarms
    and created them again, and it leaves them armed at [checkin] and
    [checkout]. *)
Definition rearmsSchedule (checkin checkout : Z) (before : Browser)
    (after : Browser * Completion unit) : Prop :=
  after.2 = Returned tt ∧
  firingCalls (journal after.1) = firingCalls (journal before) ∧
  alarmCalls (journal after.1) =
    alarmCalls (journal before) ++
    [ AlarmsClear "checkin"; AlarmsClear "checkout";
      AlarmsCreate "checkin" (dailyAlarm checkin);
      AlarmsCreate "checkout" (dailyAlarm checkout) ] ∧
  alarms after.1 !! "checkin" = Some (dailyAlarm checkin) ∧
  alarms after.1 !! "checkout" = Some (dailyAlarm checkout).

(** The day of the month of a day number, in the Gregorian calendar. *)
Definition dayOfMonth (day : Z) : Z :=
  let z := day + 719468 in
  let era := z / 146097 in
  let doe := z - era * 146097 in
  let yoe := (doe - doe / 1460 + doe / 36524 - doe / 146096) / 365 in
  let doy := doe - (365 * yoe + yoe / 4 - yoe / 100) in
  let mp := (5 * doy + 2) / 153 in
  doy - (153 * mp + 2) / 5 + 1.

(** A locale one hour ahead of UTC the whole year. *)
Definition sampleLocale : JsDate.Locale := {|
  JsDate.offsetAt _ := 3600000;
  JsDate.offsetOfLocal _ := 3600000;
  JsDate.monthStart day := day - (dayOfMonth day - 1);
  JsDate.toLocaleString t := from_option pretty "Invalid Date" t;
  JsDate.toLocaleTimeString t := from_option pretty "Invalid Date" t
|}.

(** Central European time in 2024: one hour ahead of UTC, two from
    31 March (day 19813) 01:00 UTC, when the clock goes from 02:00 to
    03:00, to 27 October (day 20023) 01:00 UTC, when it goes from 03:00
    back to 02:00. *)
Definition berlin : JsDate.Locale := {|
  JsDate.offsetAt t :=
    if (19813 * 86400000 + 3600000 <=? t) && (t <? 20023 * 86400000 + 3600000)
    then 7200000 else 3600000;
  JsDate.offsetOfLocal t :=
    if (19813 * 86400000 + 3 * 3600000 <=? t) && (t <? 20023 * 86400000 + 3 * 3600000)
    then 7200000 else 3600000;
  JsDate.monthStart day := day - (dayOfMonth day - 1);
  JsDate.toLocaleString t := from_option pretty "Invalid Date" t;
  JsDate.toLocaleTimeString t := from_option pretty "Invalid Date" t
|}.

(** 31 October 2024 (day 20027), 10:00 local time. *)
Definition tenOClock : Z := 20027 * 86400000 + 10 * 3600000 - 3600000.

(** 10:00 on 31 October 2024, no Zoho tab open, a tab that cannot be
    created. *)
Definition sampleEnv : Env := {|
  now := tenOClock;
  locale := sampleLocale;
  tabsQuery := Ok [];
  tabsCreate := Throw "Tabs cannot be created right now";
  tabLoadCompletes _ := true;
  tabsSendMessage _ _ := Thrown "Could not establish connection. Receiving end does not exist."
|}.

(** The same browser in Central European time, at the instant [t]. *)
Definition berlinEnv (t : Z) : Env := {|
  now := t;
  locale := berlin;
  tabsQuery := Ok [];
  tabsCreate := Throw "Tabs cannot be created right now";
  tabLoadCompletes _ := true;
  tabsSendMessage _ _ := Thrown "Could not establish connection. Receiving end does not exist."
|}.

(** The state a browser was closed in: the schedule is enabled, check-in
    at 09:00, and the check-in alarm is armed for 09:00 on 31 October
    2024, an hour before [tenOClock]. *)
Definition restartedBrowser : Browser := {|
  sync := {| autoSchedule := Some true;
             checkinTime := Some "09:00";
             checkoutTime := Some "17:30" |};
  alarms := {[ "checkin" := dailyAlarm (tenOClock - 3600000);
               "checkout" := dailyAlarm (tenOClock + 27000000) ]};
  logs := None;
  turnLogs := None;
  journal := []
|}.

(** Restart recovery as the specification words it, for one schedule: if
    the schedule was enabled and armed when the browser was closed, in
    state [st], and the time it was armed for has elapsed when the
    scheduler starts again, the start-up fires it. *)
Definition startupCatchesUp (env : Env) (listener : string → B unit)
    (keepsAlarms : bool) (st : Browser) (name : string) : Prop :=
  autoSchedule (sync st) = Some true →
  (∃ w, alarms st !! name = Some (dailyAlarm w) ∧ w ≤ now env) →
  firingCalls (journal (startUp env listener keepsAlarms st).1)
    ≠ firingCalls (journal st).

(** ** Observations on the logs *)

(** [this.logs] of a popup after [addLog] was called for each entry of
    [history], oldest call first, starting from the empty list the
    constructor sets. *)
Definition popupLogsAfter (history : list PopupLog.t) : list PopupLog.t :=
  foldl (fun logs entry => AttendancePopup.addLogTo entry logs) [] history.

(** A popup opened over a tab that is not Zoho People. *)
Definition otherSiteEnv : PopupEnv := {|
  popupNow := tenOClock;
  popupLocale := sampleLocale;
  activeTabs := Ok [ {| id := 3%nat; url := Some "https://example.org/inbox" |} ];
  popupSendMessage _ _ := Returned (Some (ResponseResult
    {| success := true; method := "selector"; locator := ByElement ".attendance-btn" |}))
|}.

Definition freshPopup : Popup := {| popupLogs := []; calls := [] |}.

Definition isSendMessage (ev : PopupEvent) : bool :=
  match ev with
  | PopupTabsSendMessage _ _ => true
  | _ => false
  end.

(** ** Predicates of the theorems *)

(** What every strategy loop guarantees: it announces no strategy, it
    clicks only clickable elements, and what it returns is a success
    under the strategy's own method. *)
Definition wellBehaved (name : string) (m : M (option Result)) : Prop :=
  consulted m.1 = [] ∧
  Forall clickable (activated m.1) ∧
  ∀ result, m.2 = Returned (Some result) → success result = true ∧ method result = name.

(** The same guarantee for the rest of a strategy, which returns the
    result itself or throws. *)
Definition wellBehavedTail (name : string) (m : M Result) : Prop :=
  consulted m.1 = [] ∧
  Forall clickable (activated m.1) ∧
  ∀ result, m.2 = Returned result → success result = true ∧ method result = name.

(** A whole strategy: it announces itself, once, and nothing else. *)
Definition strategySpec (name : string) (m : M Result) : Prop :=
  consulted m.1 = [name] ∧
  Forall clickable (activated m.1) ∧
  ∀ result, m.2 = Returned result → success result = true ∧ method result = name.

(** The error of a chain that found nothing. *)
Definition notFound (type : string) : string :=
  "Could not find " +:+ type +:+ " button on this page".

(** A method that makes no call on the alarms API and leaves the alarms
    as they are. *)
Definition leavesAlarms {A} (m : B A) : Prop :=
  ∀ st, alarms (m st).1 = alarms st ∧
        alarmCalls (journal (m st).1) = alarmCalls (journal st).

Definition neverThrows {A} (m : B A) : Prop :=
  ∀ st message, (m st).2 ≠ Thrown message.

(** A firing never halts the schedule: what holds of a script's
    [performScheduledAttendance] and [onAlarm] listener when the alarm
    [name], armed at [w], fires in state [st]. *)
Definition firingNeverHalts
    (perform onAlarm : string → B unit) (name : string) (w : Z) (st : Browser) : Prop :=
  (∀ type message, (perform type st).2 ≠ Thrown message) ∧
  (∀ type, alarms (perform type st).1 = alarms st ∧
           alarmCalls (journal (perform type st).1) = alarmCalls (journal st)) ∧
  (∀ message, (alarmFires onAlarm name st).2 ≠ Thrown message) ∧
  alarms (alarmFires onAlarm name st).1 = <[name := dailyAlarm (w + JsDate.msPerDay)]> (alarms st) ∧
  alarmCalls (journal (alarmFires onAlarm name st).1) = alarmCalls (journal st).

(** ** Observations for the properties beyond the claims *)

(** The forms a trace submitted. *)
Definition submitted (t : list Event) : list nat :=
  omap (fun ev => match ev with Submit form => Some form | _ => None end) t.

(** The page functions a trace called. *)
Definition called (t : list Event) : list string :=
  omap (fun ev => match ev with CallWindowFunction name => Some name | _ => None end) t.





(** An element inside form 7 with a control named [submit]: the form's
    [submit] is that control, not a method. *)
Definition shadowedSubmitButton : Element := {|
  textContent := "Check In";
  value := EmptyString;
  title := EmptyString;
  computedStyle := {| display := "block"; visibility := "visible"; opacity := "1" |};
  disabled := false;
  cssText := EmptyString;
  closestForm := Some 7%nat;
  elementClick := Ok tt;
  formSubmit := Throw "form.submit is not a function";
  unloadsPage := false
|}.

(** A page on which the first selector and the text search both find
    [shadowedSubmitButton]. *)
Definition shadowedSubmitPage : Page := {|
  readyComplete := true;
  querySelectorAll selector :=
    if String.eqb selector ("[data-action=" +:+ quoted "checkin" +:+ "]")
    then Ok [shadowedSubmitButton]
    else if JsString.includes selector ":contains(" then
      Throw ("'" +:+ selector +:+ "' is not a valid selector")
    else Ok [];
  evaluate xpath :=
    if String.eqb xpath (ZohoAttendanceBotChrome.textXPath "Check In")
    then Some shadowedSubmitButton else None;
  elementQuerySelectorAll _ _ := Ok [];
  windowFunction _ := None
|}.

(** A link whose click leaves the page. *)
Definition leavingLink : Element := {|
  textContent := "Punch Out";
  value := EmptyString;
  title := EmptyString;
  computedStyle := {| display := "inline"; visibility := "visible"; opacity := "1" |};
  disabled := false;
  cssText := "color: red;";
  closestForm := Some 7%nat;
  elementClick := Ok tt;
  formSubmit := Ok tt;
  unloadsPage := true
|}.


(** The text strategy 1 searches for keywords. *)
Definition selectorText (element : Element) : string :=
  JsString.toLowerCase
    (textContent element ||| value element ||| title element ||| EmptyString).

Definition hasKeyword (type : string) (element : Element) : bool :=
  existsb (fun keyword => JsString.includes (selectorText element) keyword)
    (ZohoAttendanceBotChrome.selectorKeywords type).



(** What strategy 1 tests an element for. *)
Definition selectorMatch (type : string) (element : Element) : bool :=
  hasKeyword type element && ZohoAttendanceShared.isElementClickable (Some element).



(** A method that adds the calls [evs] to the journal and ends with [c],
    whatever the state, and leaves the alarms and the synced settings as
    they are. *)
Definition runs {A} (m : B A) (evs : list BgEvent) (c : Completion A) : Prop :=
  ∀ st, journal (m st).1 = journal st ++ evs ∧ (m st).2 = c ∧
        alarms (m st).1 = alarms st ∧ sync (m st).1 = sync st.

(** The notifications a journal shows: title and message. *)
Definition notified (j : list BgEvent) : list (string * string) :=
  omap (fun ev => match ev with
                  | NotificationsCreate title message => Some (title, message)
                  | _ => None
                  end) j.

(** The attendance requests a journal sent: tab and request. *)
Definition requested (j : list BgEvent) : list (nat * Request) :=
  omap (fun ev => match ev with
                  | TabsSendMessage tabId request => Some (tabId, request)
                  | _ => None
                  end) j.

(** The line [log] writes to the console for [message]. *)
Definition consoleLine (env : Env) (message : string) : BgEvent :=
  BgConsoleLog ("[" +:+ JsDate.toLocaleString (locale env) (Some (now env))
                    +:+ "] " +:+ message).

Definition isTabsQuery (ev : BgEvent) : bool :=
  match ev with
  | TabsQuery => true
  | _ => false
  end.

(** What one scheduled firing adds to the journal ([evs]) and how it ends
    ([c]), [succeeded tabId] telling whether the request to that tab was
    answered with a success: one tab query, at most one request, never an
    exception, one notification with a message when it returns (its title
    starts with the check mark exactly when a request was sent and
    succeeded), none while it is pending. *)
Definition firingSummary (type : string) (succeeded : nat → Prop)
    (evs : list BgEvent) (c : Completion unit) : Prop :=
  List.filter isTabsQuery evs = [TabsQuery] ∧
  (length (requested evs) ≤ 1)%nat ∧
  Forall (fun sent => sent.2 = {| action := "performAttendance"; type := type |})
    (requested evs) ∧
  match c with
  | Returned _ =>
      ∃ title message,
        notified evs = [(title, message)] ∧ message ≠ EmptyString ∧
        (JsString.startsWith title "✅" = true ↔
         ∃ tabId, requested evs = [(tabId, AttendanceScheduler.attendanceRequest type)] ∧
                  succeeded tabId)
  | Pending => notified evs = []
  | Thrown _ => False
  end.

(** The browser answered the request to [tabId] with a success. *)
Definition answeredWithSuccess (env : Env) (type : string) (tabId : nat) : Prop :=
  ∃ response,
    tabsSendMessage env tabId (AttendanceScheduler.attendanceRequest type) = Returned response ∧
    AttendanceScheduler.responseSuccess response = true.

(** The calls on the tabs API. *)
Definition isTabCall (ev : BgEvent) : bool :=
  match ev with
  | TabsQuery | TabsCreate | AwaitTabLoad _ _ | TabsSendMessage _ _ => true
  | _ => false
  end.

(** The stored [logs] after one more [log(message)]. *)
Definition logged (env : Env) (message : string) (stored : option (list LogEntry.t))
    : option (list LogEntry.t) :=
  Some (AttendanceScheduler.storeLog
          {| LogEntry.timestamp := JsDate.toLocaleString (locale env) (Some (now env));
             LogEntry.message := message;
             LogEntry.type := AttendanceScheduler.entryType message |} stored).

(** The two alarms of the schedule, armed at [checkin] and [checkout], in
    place of whatever was armed under their names. *)
Definition rearmed (checkin checkout : Z) (m : gmap string Alarm) : gmap string Alarm :=
  <["checkout" := dailyAlarm checkout]>
    (<["checkin" := dailyAlarm checkin]> (delete "checkout" (delete "checkin" m))).

(** A Zoho People tab is open; the page answers that it found nothing. *)
Definition openTabEnv : Env := {|
  now := tenOClock;
  locale := sampleLocale;
  tabsQuery := Ok [ {| id := 7%nat; url := Some "https://people.zoho.com/home" |};
                    {| id := 9%nat; url := Some "https://people.zoho.com/leave" |} ];
  tabsCreate := Throw "Tabs cannot be created right now";
  tabLoadCompletes _ := true;
  tabsSendMessage _ _ :=
    Returned (Some (ResponseError "Could not find checkin button on this page"))
|}.

(** No tab is open, and the one created never finishes loading. *)
Definition stuckTabEnv : Env := {|
  now := tenOClock;
  locale := sampleLocale;
  tabsQuery := Ok [];
  tabsCreate := Ok {| id := 5%nat; url := Some "https://people.zoho.com" |};
  tabLoadCompletes _ := false;
  tabsSendMessage _ _ := Pending
|}.

(** A browser in which the times were never stored. *)
Definition unsetBrowser : Browser := {|
  sync := {| autoSchedule := None; checkinTime := None; checkoutTime := None |};
  alarms := {[ "checkin" := dailyAlarm (tenOClock - 3600000) ]};
  logs := None;
  turnLogs := None;
  journal := []
|}.

(** How many tab queries a journal holds: one per scheduled firing. *)
Definition tabQueries (j : list BgEvent) : nat := length (List.filter isTabsQuery j).

(** The settings [handleInstallation] stores. *)
Definition installedSettings : Settings :=
  {| autoSchedule := Some false; checkinTime := Some "09:00"; checkoutTime := Some "17:30" |}.

(** The notifications the popup asked for: message and type. *)
Definition popupNotifications (evs : list PopupEvent) : list (string * string) :=
  omap (fun ev => match ev with
                  | PopupNotification message type => Some (message, type)
                  | _ => None
                  end) evs.

(** The requests the popup sent to tabs. *)
Definition popupRequests (evs : list PopupEvent) : list (nat * Request) :=
  omap (fun ev => match ev with
                  | PopupTabsSendMessage tabId request => Some (tabId, request)
                  | _ => None
                  end) evs.

(** The button an action belongs to, the calls that lock it at the start of
    [performAttendanceAction] and the calls of its [finally] block. *)
Definition buttonOf (action : string) : string :=
  if String.eqb action "checkin" then "checkInBtn" else "checkOutBtn".

Definition locked (button : string) : list PopupEvent :=
  [ClassListAdd button "loading"; SetDisabled button true].

Definition unlocked (button : string) : list PopupEvent :=
  [ClassListRemove button "loading"; SetDisabled button false; RemoveFlashLater button 500].

(** The content script of [page] answers the request the popup sends to
    the tab: the listener calls [sendResponse] (the page is not unloaded
    under it), and [sendMessage] resolves with its argument. *)
Definition contentScriptAnswers (env : PopupEnv) (page : Page)
    (tabId : nat) (request : Request) : Prop :=
  ∃ response,
    (ZohoAttendanceBotChrome.onMessage request page).2 = Some response ∧
    popupSendMessage env tabId request = Returned (Some response).

(** A popup opened over a Zoho People tab showing [page]. *)
Definition zohoTabEnv (page : Page) : PopupEnv := {|
  popupNow := tenOClock;
  popupLocale := sampleLocale;
  activeTabs := Ok [ {| id := 4%nat; url := Some "https://people.zoho.com/home" |} ];
  popupSendMessage _ request := Returned (ZohoAttendanceBotChrome.onMessage request page).2
|}.

(** A method of the build scripts that only adds paths, all of them allowed
    by [allowed]. *)
Definition adds {A} (allowed : string → Prop) (m : St Disk A) : Prop :=
  ∀ disk p, In p (m disk).1 → In p disk ∨ allowed p.

(** A method that removes nothing. *)
Definition keeps {A} (m : St Disk A) : Prop :=
  ∀ disk p, In p disk → In p (m disk).1.

(** A method that, when it returns, has made [p] exist. *)
Definition establishes {A} (p : string) (m : St Disk A) : Prop :=
  ∀ disk a, (m disk).2 = Returned a → In p (m disk).1.

(** A method that never waits for ever. *)
Definition settles {A} (m : St Disk A) : Prop :=
  ∀ disk, (m disk).2 ≠ Pending.

(** A checkout with the sources of both extensions and no build. *)
Definition sourceTree : Disk :=
  [ "manifest-chrome.json"; "manifest-firefox.json";
    "icons"; "icons/icon48.png";
    "src"; "src/popup"; "src/popup/popup.html"; "src/popup/popup.js";
    "src/common"; "src/common/shared.js";
    "src/content"; "src/content/content-chrome.js"; "src/content/content-firefox.js";
    "src/background"; "src/background/background-chrome.js";
    "src/background/background-firefox.js" ].

(** * Theorems *)

Section MonadFacts.

Lemma consulted_app (t1 t2 : list Event) :
  consulted (t1 ++ t2) = consulted t1 ++ consulted t2.
Proof. apply omap_app. Qed.

Lemma activated_app (t1 t2 : list Event) :
  activated (t1 ++ t2) = activated t1 ++ activated t2.
Proof. apply omap_app. Qed.

Lemma bind_trace {A C} (m : M A) (f : A -> M C) :
  (m ≫= f).1 = m.1 ++ match m.2 with Returned a => (f a).1 | _ => [] end.
Proof.
  destruct m as [t [a|e|]]; simpl.
  - destruct (f a); reflexivity.
  - symmetry; apply app_nil_r.
  - symmetry; apply app_nil_r.
Qed.

Lemma bind_outcome {A C} (m : M A) (f : A -> M C) :
  (m ≫= f).2 =
    match m.2 with
    | Returned a => (f a).2
    | Thrown e => Thrown e
    | Pending => Pending
    end.
Proof.
  destruct m as [t [a|e|]]; simpl; [destruct (f a)| |]; reflexivity.
Qed.

Lemma try_catch_trace {A} (m : M A) (h : string -> M A) :
  (try_catch m h).1 = m.1 ++ match m.2 with Thrown e => (h e).1 | _ => [] end.
Proof.
  destruct m as [t [a|e|]]; simpl.
  - symmetry; apply app_nil_r.
  - destruct (h e); reflexivity.
  - symmetry; apply app_nil_r.
Qed.

Lemma try_catch_outcome {A} (m : M A) (h : string -> M A) :
  (try_catch m h).2 = match m.2 with Thrown e => (h e).2 | other => other end.
Proof.
  destruct m as [t [a|e|]]; simpl; [|destruct (h e)|]; reflexivity.
Qed.

Lemma lift_trace {A} (o : Outcome A) : (lift o).1 = [].
Proof. destruct o; reflexivity. Qed.

End MonadFacts.

Ltac case_cond E :=
  match goal with
  | |- context [if ?c then _ else _] => destruct c eqn:E
  end.

Section ContentScript.
Import ZohoAttendanceShared ZohoAttendanceBotChrome.

Lemma clickElement_trace (element : Element) :
  consulted (clickElement element).1 = [] ∧
  Forall (eq element) (activated (clickElement element).1).
Proof.
  unfold clickElement.
  destruct (elementClick element) as [[]|e], (closestForm element),
    (formSubmit element) as [[]|e'], (unloadsPage element); cbn;
    (split; [reflexivity|]); repeat constructor.
Qed.

Lemma click_then_return (name : string) (element : Element) (loc : Locator) :
  isElementClickable (Some element) = true →
  wellBehaved name
    (clickElement element ;;
     mret (Some {| success := true; method := name; locator := loc |})).
Proof.
  intros Hc. destruct (clickElement_trace element) as (H1 & H2).
  unfold wellBehaved. rewrite bind_trace, bind_outcome.
  assert (H3 : Forall clickable (activated (clickElement element).1))
    by (eapply Forall_impl; [exact H2|]; intros ? <-; exact Hc).
  destruct ((clickElement element).2) as [[]|e|]; simpl;
    rewrite app_nil_r, H1; (split; [reflexivity|]); (split; [exact H3|]);
    try discriminate.
  intros ? [= <-]. split; reflexivity.
Qed.

Lemma wellBehaved_none (name : string) : wellBehaved name (mret None).
Proof. repeat split; try constructor; discriminate. Qed.

Lemma selectorElements_wellBehaved keywords selector elements :
  wellBehaved "selector" (selectorElements keywords selector elements).
Proof.
  induction elements as [|element elements IH]; simpl.
  - apply wellBehaved_none.
  - case_cond E; [|exact IH].
    apply andb_true_iff in E as [_ E]. apply click_then_return, E.
Qed.

(** Sequencing two well-behaved loops: the second runs when the first
    found nothing. *)
Lemma wellBehaved_bind {A} name (m : M A) (k : A → M (option Result)) :
  m.1 = [] → (∀ a, wellBehaved name (k a)) → wellBehaved name (m ≫= k).
Proof.
  intros Hm Hk. unfold wellBehaved. rewrite bind_trace, bind_outcome, Hm.
  destruct (m.2) as [a|e|]; simpl.
  - apply Hk.
  - split; [|split]; try constructor; discriminate.
  - split; [|split]; try constructor; discriminate.
Qed.

Lemma wellBehaved_orElse name (m rest : M (option Result)) :
  wellBehaved name m → wellBehaved name rest →
  wellBehaved name
    (found ← m ; match found with Some result => mret (Some result) | None => rest end).
Proof.
  intros (H1 & H2 & H3) (R1 & R2 & R3). unfold wellBehaved.
  rewrite bind_trace, bind_outcome.
  destruct (m.2) as [[r|]|e|] eqn:E; simpl; rewrite ?app_nil_r.
  - split; [|split]; auto.
  - rewrite consulted_app, activated_app, H1, R1. split; [|split]; auto.
    apply Forall_app; auto.
  - split; [|split]; auto; discriminate.
  - split; [|split]; auto; discriminate.
Qed.

Lemma selectorLoop_wellBehaved page keywords selectors :
  wellBehaved "selector" (selectorLoop page keywords selectors).
Proof.
  induction selectors as [|selector selectors IH]; cbn [selectorLoop].
  - apply wellBehaved_none.
  - apply wellBehaved_bind; [apply lift_trace|]. intros elements.
    apply wellBehaved_orElse; [apply selectorElements_wellBehaved | exact IH].
Qed.

Lemma textLoop_wellBehaved page texts :
  wellBehaved "text" (textLoop page texts).
Proof.
  induction texts as [|searchText texts IH]; cbn [textLoop].
  - apply wellBehaved_none.
  - destruct (evaluate page _) as [node|]; [|exact IH].
    case_cond E; [|exact IH]. apply click_then_return, E.
Qed.

Lemma ariaLoop_wellBehaved page labels :
  wellBehaved "aria" (ariaLoop page labels).
Proof.
  induction labels as [|label labels IH]; cbn [ariaLoop].
  - apply wellBehaved_none.
  - apply wellBehaved_bind; [apply lift_trace|].
    intros [el|]; [|exact IH].
    case_cond E; [|exact IH]. apply click_then_return, E.
Qed.

Lemma formButtons_wellBehaved type buttons :
  wellBehaved "form" (formButtons type buttons).
Proof.
  induction buttons as [|button buttons IH]; cbn [formButtons].
  - apply wellBehaved_none.
  - case_cond E; [|exact IH].
    apply andb_true_iff in E as [_ E]. apply click_then_return, E.
Qed.

Lemma formLoop_wellBehaved type page forms :
  wellBehaved "form" (formLoop type page forms).
Proof.
  induction forms as [|form forms IH]; cbn [formLoop].
  - apply wellBehaved_none.
  - case_cond E; [|exact IH].
    apply wellBehaved_bind; [apply lift_trace|]. intros buttons.
    apply wellBehaved_orElse; [apply formButtons_wellBehaved | exact IH].
Qed.

Lemma attendanceElementLoop_wellBehaved elements :
  wellBehaved "api" (attendanceElementLoop elements).
Proof.
  induction elements as [|element elements IH]; cbn [attendanceElementLoop].
  - apply wellBehaved_none.
  - case_cond E; [|exact IH]. apply click_then_return, E.
Qed.

Lemma functionLoop_wellBehaved page names :
  wellBehaved "api" (functionLoop page names) ∧ activated (functionLoop page names).1 = [].
Proof.
  induction names as [|funcName names [IH IHc]]; simpl.
  - split; [apply wellBehaved_none | reflexivity].
  - destruct (windowFunction page funcName) as [[[]|e]|]; [| |auto].
    + cbn. split; [|reflexivity].
      split; [reflexivity|]. split; [constructor|].
      intros ? [= <-]; split; reflexivity.
    + destruct IH as (H1 & H2 & H3).
      destruct (functionLoop page names) as [t o]; cbn in *.
      split; [|assumption]. split; [assumption|]. split; assumption.
Qed.

Lemma tail_throw name message : wellBehavedTail name (throw message).
Proof. split; [|split]; try constructor; discriminate. Qed.

Lemma tail_bind {A} name (m : M A) (k : A → M Result) :
  m.1 = [] → (∀ a, wellBehavedTail name (k a)) → wellBehavedTail name (m ≫= k).
Proof.
  intros Hm Hk. unfold wellBehavedTail. rewrite bind_trace, bind_outcome, Hm.
  destruct (m.2) as [a|e|]; simpl.
  - apply Hk.
  - split; [|split]; try constructor; discriminate.
  - split; [|split]; try constructor; discriminate.
Qed.

Lemma tail_orElse name (m : M (option Result)) (rest : M Result) :
  wellBehaved name m → wellBehavedTail name rest →
  wellBehavedTail name
    (found ← m ; match found with Some result => mret result | None => rest end).
Proof.
  intros (H1 & H2 & H3) (R1 & R2 & R3). unfold wellBehavedTail.
  rewrite bind_trace, bind_outcome.
  destruct (m.2) as [[r|]|e|] eqn:E; simpl; rewrite ?app_nil_r.
  - split; [|split]; auto. intros ? [= <-]. apply H3; reflexivity.
  - rewrite consulted_app, activated_app, H1, R1. split; [|split]; auto.
    apply Forall_app; auto.
  - split; [|split]; auto; discriminate.
  - split; [|split]; auto; discriminate.
Qed.

Lemma strategy_banner name banner (rest : M Result) :
  strategyBanner (ConsoleLog "info" banner) = Some name →
  wellBehavedTail name rest →
  strategySpec name (log banner "info" ;; rest).
Proof.
  intros Hb (R1 & R2 & R3). unfold strategySpec.
  rewrite bind_trace, bind_outcome. cbn [log emit fst snd].
  rewrite consulted_app, activated_app, R1.
  unfold consulted at 1. cbn [omap list_omap]. rewrite Hb.
  split; [reflexivity|]. split; assumption.
Qed.

Lemma findAndClickBySelector_spec type page :
  strategySpec "selector" (findAndClickBySelector type page).
Proof.
  apply strategy_banner; [reflexivity|].
  apply tail_orElse; [apply selectorLoop_wellBehaved | apply tail_throw].
Qed.

Lemma findAndClickByText_spec type page :
  strategySpec "text" (findAndClickByText type page).
Proof.
  apply strategy_banner; [reflexivity|].
  apply tail_orElse; [apply textLoop_wellBehaved | apply tail_throw].
Qed.

Lemma findAndClickByAria_spec type page :
  strategySpec "aria" (findAndClickByAria type page).
Proof.
  apply strategy_banner; [reflexivity|].
  apply tail_orElse; [apply ariaLoop_wellBehaved | apply tail_throw].
Qed.

Lemma findAndClickByForm_spec type page :
  strategySpec "form" (findAndClickByForm type page).
Proof.
  apply strategy_banner; [reflexivity|].
  apply tail_bind; [apply lift_trace|]. intros forms.
  apply tail_orElse; [apply formLoop_wellBehaved | apply tail_throw].
Qed.

Lemma findAndClickByAPI_spec type page :
  strategySpec "api" (findAndClickByAPI type page).
Proof.
  apply strategy_banner; [reflexivity|].
  apply tail_orElse; [apply functionLoop_wellBehaved|].
  apply tail_bind; [apply lift_trace|]. intros elements.
  apply tail_orElse; [apply attendanceElementLoop_wellBehaved | apply tail_throw].
Qed.


Lemma strategyLoop_success type t result l :
  success result = true →
  strategyLoop type ((t, Returned result) :: l) =
    (t ++ [ConsoleLog "success" (type +:+ " successful via " +:+ method result)],
     Returned (Some result)).
Proof.
  intros Hs. cbn [strategyLoop].
  unfold mbind, M_bind, bind, try_catch. rewrite Hs. cbn.
  rewrite !app_nil_r. reflexivity.
Qed.

Lemma strategyLoop_throw type t message l :
  strategyLoop type ((t, Thrown message) :: l) =
    ((t ++ [ConsoleLog "error" ("Strategy failed: " +:+ message)])
       ++ (strategyLoop type l).1,
     (strategyLoop type l).2).
Proof.
  cbn [strategyLoop]. unfold mbind, M_bind, bind, try_catch. cbn.
  destruct (strategyLoop type l). reflexivity.
Qed.

(** A strategy that is left waiting by the page being unloaded ends the
    loop: no later strategy is entered. *)
Lemma strategyLoop_pending type t l :
  strategyLoop type ((t, Pending) :: l) = (t, Pending).
Proof. reflexivity. Qed.

(** The loop over any list of strategies that announce themselves under
    [names]: it enters them in order and stops at the first success. *)
Lemma strategyLoop_spec type names l :
  Forall2 strategySpec names l →
  let run := strategyLoop type l in
  ∃ k : nat,
    (k ≤ length l)%nat ∧
    consulted run.1 = take k names ∧
    (∀ j strategy, (S j < k)%nat → l !! j = Some strategy → failed strategy) ∧
    Forall clickable (activated run.1) ∧
    match run.2 with
    | Returned (Some result) =>
        ∃ j strategy, k = S j ∧ l !! j = Some strategy ∧ strategy.2 = Returned result ∧
                      names !! j = Some (method result) ∧ success result = true
    | Returned None => k = length l ∧ Forall failed l
    | Thrown _ => False
    | Pending => ∃ j strategy, k = S j ∧ l !! j = Some strategy ∧ strategy.2 = Pending
    end.
Proof.
  induction 1 as [|name strategy names l (Hc & Hk & Hr) _ IH]; intros run.
  - exists 0%nat. cbn. repeat split; try constructor; intros; lia.
  - subst run. destruct strategy as [t [result|message|]]; cbn [fst snd] in Hc, Hk.
    + destruct (Hr result eq_refl) as [Hs Hm].
      exists 1%nat. rewrite strategyLoop_success by assumption. cbn [fst snd].
      rewrite consulted_app, activated_app, Hc. cbn [length].
      split; [lia|]. split; [reflexivity|]. split; [intros; lia|].
      split; [rewrite app_nil_r; exact Hk|].
      exists 0%nat, (t, Returned result). rewrite Hm. auto.
    + destruct IH as (k & Hle & Hcons & Hfail & Hclick & Hout).
      exists (S k). rewrite strategyLoop_throw. cbn [fst snd].
      rewrite !consulted_app, !activated_app, Hc, Hcons. cbn [length].
      split; [lia|]. split; [reflexivity|].
      split.
      { intros [|j] s Hj Hs; cbn in Hs.
        - injection Hs as <-. eexists; reflexivity.
        - apply (Hfail j); [lia | assumption]. }
      split; [rewrite app_nil_r; apply Forall_app; auto|].
      destruct ((strategyLoop type l).2) as [[result|]| |]; [| |exact Hout|].
      * destruct Hout as (j & s & -> & Hl & Hs & Hn & Hsucc).
        exists (S j), s. auto.
      * destruct Hout as [-> Hall]. split; [reflexivity|].
        constructor; [eexists; reflexivity | assumption].
      * destruct Hout as (j & s & -> & Hl & Hs).
        exists (S j), s. auto.
    + exists 1%nat. rewrite strategyLoop_pending. cbn [fst snd length].
      rewrite Hc. split; [lia|]. split; [reflexivity|]. split; [intros; lia|].
      split; [exact Hk|]. exists 0%nat, (t, Pending). auto.
Qed.


Lemma performAttendance_unfold type page :
  performAttendance type page =
    ((ConsoleLog "info" ("Attempting " +:+ type +:+ "...") :: (waitForPageLoad page).1)
       ++ (strategyLoop type (strategies type page)).1,
     match (strategyLoop type (strategies type page)).2 with
     | Returned (Some result) => Returned result
     | Returned None => Thrown ("Could not find " +:+ type +:+ " button on this page")
     | Thrown message => Thrown message
     | Pending => Pending
     end).
Proof.
  unfold performAttendance, waitForPageLoad.
  destruct (strategyLoop type (strategies type page)) as [t [[r|]|e|]];
    destruct (readyComplete page); cbn; rewrite ?app_nil_r; reflexivity.
Qed.

Lemma strategies_spec type page :
  Forall2 strategySpec priorityOrder (strategies type page).
Proof.
  unfold priorityOrder, strategies.
  constructor; [apply findAndClickBySelector_spec|].
  constructor; [apply findAndClickByText_spec|].
  constructor; [apply findAndClickByAria_spec|].
  constructor; [apply findAndClickByForm_spec|].
  constructor; [apply findAndClickByAPI_spec|].
  constructor.
Qed.

Lemma preamble_quiet type page :
  consulted (ConsoleLog "info" ("Attempting " +:+ type +:+ "...") :: (waitForPageLoad page).1) = [] ∧
  activated (ConsoleLog "info" ("Attempting " +:+ type +:+ "...") :: (waitForPageLoad page).1) = [].
Proof.
  unfold waitForPageLoad. destruct (readyComplete page); split; reflexivity.
Qed.

(** C1. One run of [performAttendance] enters the strategies in the order
    selector, text, aria, form, api and stops at the first success: the
    strategies it consulted are the first [k] of the five, the ones before
    the [k]-th all failed, and when the run succeeds its result is the
    [k]-th strategy's own, under that strategy's method. A run that fails
    has consulted all five, and a run that is never resumed was left
    inside the [k]-th strategy, by the page being unloaded. *)
Theorem performAttendance_priority_order (type : string) (page : Page) :
  let run := performAttendance type page in
  ∃ k : nat,
    (k ≤ 5)%nat ∧
    consulted run.1 = take k priorityOrder ∧
    (∀ j strategy, (S j < k)%nat →
       strategies type page !! j = Some strategy → failed strategy) ∧
    match run.2 with
    | Returned result =>
        ∃ j strategy, k = S j ∧ strategies type page !! j = Some strategy ∧
                      strategy.2 = Returned result ∧
                      priorityOrder !! j = Some (method result) ∧
                      success result = true
    | Thrown _ => k = 5%nat ∧ Forall failed (strategies type page)
    | Pending =>
        ∃ j strategy, k = S j ∧ strategies type page !! j = Some strategy ∧
                      strategy.2 = Pending
    end.
Proof.
  intros run. subst run. rewrite performAttendance_unfold. cbn [fst snd].
  destruct (strategyLoop_spec type _ _ (strategies_spec type page))
    as (k & Hle & Hcons & Hfail & _ & Hout).
  destruct (preamble_quiet type page) as [Hq _].
  exists k. rewrite consulted_app, Hq, Hcons.
  split; [exact Hle|]. split; [reflexivity|]. split; [exact Hfail|].
  destruct ((strategyLoop type (strategies type page)).2) as [[result|]| |];
    [exact Hout | exact Hout | contradiction | exact Hout].
Qed.

(** C2. When every one of the five strategies fails, as when none finds
    an element, the run has consulted each of them once, in order, it
    throws "Could not find <type> button on this page", and the listener
    answers the performAttendance request with that error; for "checkout"
    the error reads "Could not find checkout button on this page". *)
Theorem performAttendance_not_found (type : string) (page : Page) :
  Forall failed (strategies type page) →
  consulted (performAttendance type page).1 = priorityOrder ∧
  (performAttendance type page).2 = Thrown (notFound type) ∧
  (onMessage {| action := "performAttendance"; type := type |} page).2
    = Some (ResponseError (notFound type)) ∧
  notFound "checkout" = "Could not find checkout button on this page".
Proof.
  intros Hall.
  destruct (strategyLoop_spec type _ _ (strategies_spec type page))
    as (k & _ & Hcons & _ & _ & Hout).
  destruct (preamble_quiet type page) as [Hq _].
  assert (Hrun : consulted (performAttendance type page).1 = priorityOrder ∧
                 (performAttendance type page).2 = Thrown (notFound type)).
  { rewrite performAttendance_unfold. cbn [fst snd].
    rewrite consulted_app, Hq, Hcons.
    destruct ((strategyLoop type (strategies type page)).2) as [[result|]| |];
      [| |contradiction|].
    - destruct Hout as (j & strategy & _ & Hl & Hs & _).
      apply list_elem_of_lookup_2 in Hl.
      rewrite Forall_forall in Hall. destruct (Hall _ Hl) as [m Hm]. congruence.
    - destruct Hout as [-> _]. split; reflexivity.
    - destruct Hout as (j & strategy & _ & Hl & Hs).
      apply list_elem_of_lookup_2 in Hl.
      rewrite Forall_forall in Hall. destruct (Hall _ Hl) as [m Hm]. congruence. }
  destruct Hrun as [H1 H2]. split; [exact H1|]. split; [exact H2|].
  split; [|reflexivity].
  unfold onMessage. simpl.
  destruct (performAttendance type page) as [t o]. cbn [snd] in H2. subst o.
  reflexivity.
Qed.


Lemma performAttendance_not_found_witness :
  Forall failed (strategies "checkout" emptyPage) ∧
  (onMessage {| action := "performAttendance"; type := "checkout" |} emptyPage).2
    = Some (ResponseError "Could not find checkout button on this page").
Proof.
  assert (H : Forall failed (strategies "checkout" emptyPage))
    by (repeat constructor; eexists; vm_compute; reflexivity).
  split; [exact H|].
  exact (proj1 (proj2 (proj2 (performAttendance_not_found "checkout" emptyPage H)))).
Defined.

(** The first scenario: a visible control with [data-action] "checkin"
    labelled "Check In" is found by strategy 1. *)
Example scenario_checkin_selector :
  (onMessage {| action := "performAttendance"; type := "checkin" |} checkInPage).2
    = Some (ResponseResult {| success := true; method := "selector";
                              locator := ByElement ("[data-action=" +:+ quoted "checkin" +:+ "]") |})
  ∧ clicked (performAttendance "checkin" checkInPage).1 = [checkInButton].
Proof. split; vm_compute; reflexivity. Qed.

(** An element that is not laid out is passed over by every strategy,
    although its text matches. *)
Example scenario_hidden_skipped :
  activated (performAttendance "checkin" hiddenPage).1 = [] ∧
  (performAttendance "checkin" hiddenPage).2 = Thrown (notFound "checkin").
Proof. split; vm_compute; reflexivity. Qed.

Lemma clickable_passesPredicate element :
  clickable element ↔ passesPredicate element.
Proof.
  unfold clickable, passesPredicate, isElementClickable.
  rewrite !andb_true_iff, !negb_true_iff, !String.eqb_neq. tauto.
Qed.

(** C5. Every element a run of the chain acts on (scrolls to, marks,
    focuses, clicks, dispatches events to) passes the clickability
    predicate: its display is not none, its visibility is not hidden, its
    opacity is not "0" and it is not disabled; the same holds of each of
    the five strategies run on its own. *)
Theorem chain_activates_only_clickable (type : string) (page : Page) :
  Forall passesPredicate (activated (performAttendance type page).1) ∧
  Forall (fun strategy : M Result => Forall passesPredicate (activated strategy.1))
    (strategies type page).
Proof.
  split.
  - rewrite performAttendance_unfold. cbn [fst].
    destruct (strategyLoop_spec type _ _ (strategies_spec type page))
      as (k & _ & _ & _ & Hclick & _).
    destruct (preamble_quiet type page) as [_ Hq].
    rewrite activated_app, Hq. cbn [app].
    eapply Forall_impl; [exact Hclick|]. intros e. apply clickable_passesPredicate.
  - pose proof (strategies_spec type page) as Hspec.
    induction Hspec as [|n s ns l (_ & Hk & _) _ IH]; constructor; [|exact IH].
    eapply Forall_impl; [exact Hk|]. intros e. apply clickable_passesPredicate.
Qed.


Lemma steps_app (t1 t2 : list Event) : steps (t1 ++ t2) = steps t1 ++ steps t2.
Proof. apply List.filter_app. Qed.

Lemma strategyLoop_unsuccessful type t result l :
  success result = false →
  strategyLoop type ((t, Returned result) :: l) =
    (t ++ (strategyLoop type l).1, (strategyLoop type l).2).
Proof.
  intros Hs. cbn [strategyLoop].
  unfold mbind, M_bind, bind, try_catch. rewrite Hs. cbn.
  destruct (strategyLoop type l). rewrite !app_nil_r. reflexivity.
Qed.

(** Apart from its console lines, the loop does not depend on [type]. *)
Lemma strategyLoop_type_irrelevant type type' l :
  steps (strategyLoop type l).1 = steps (strategyLoop type' l).1 ∧
  (strategyLoop type l).2 = (strategyLoop type' l).2.
Proof.
  induction l as [|[t [result|message|]] l [IH1 IH2]]; [split; reflexivity| | |].
  - destruct (success result) eqn:Hs.
    + rewrite !strategyLoop_success by assumption. cbn [fst snd].
      rewrite !steps_app. split; reflexivity.
    + rewrite !strategyLoop_unsuccessful by assumption. cbn [fst snd].
      rewrite !steps_app, IH1, IH2. split; reflexivity.
  - rewrite !strategyLoop_throw. cbn [fst snd].
    rewrite !steps_app, IH1, IH2. split; reflexivity.
  - rewrite !strategyLoop_pending. split; reflexivity.
Qed.

Lemma formButtons_checkout type buttons :
  type ≠ "checkin" → formButtons type buttons = formButtons "checkout" buttons.
Proof.
  intros Hne. apply String.eqb_neq in Hne.
  induction buttons as [|button buttons IH]; [reflexivity|].
  cbn [formButtons]. unfold isCorrectType. rewrite Hne, IH. reflexivity.
Qed.

Lemma formLoop_checkout type page forms :
  type ≠ "checkin" → formLoop type page forms = formLoop "checkout" page forms.
Proof.
  intros Hne. induction forms as [|form forms IH]; [reflexivity|].
  cbn [formLoop]. rewrite IH.
  destruct (elementQuerySelectorAll page form formButtonSelector); cbn;
    rewrite ?formButtons_checkout by assumption; reflexivity.
Qed.

Lemma findAndClickByForm_checkout type page :
  type ≠ "checkin" → findAndClickByForm type page = findAndClickByForm "checkout" page.
Proof.
  intros Hne. unfold findAndClickByForm.
  destruct (querySelectorAll page "form") as [forms|message]; cbn;
    rewrite ?formLoop_checkout by assumption; reflexivity.
Qed.

(** C9. A request type other than "checkin" selects the "checkout"
    keyword, label and direction sets in every strategy, so each strategy
    does and returns exactly what it does for "checkout"; the whole chain
    takes the same steps and ends alike (with the same result, with the
    not-found error, which names the type as given, or never resumed). *)
Theorem unrecognized_type_is_checkout (type : string) (page : Page) :
  type ≠ "checkin" →
  selectorKeywords type = selectorKeywords "checkout" ∧
  searchTexts type = searchTexts "checkout" ∧
  ariaLabels type = ariaLabels "checkout" ∧
  (∀ buttonText, isCorrectType type buttonText = isCorrectType "checkout" buttonText) ∧
  strategies type page = strategies "checkout" page ∧
  steps (performAttendance type page).1 = steps (performAttendance "checkout" page).1 ∧
  sameEnding (performAttendance type page).2 (performAttendance "checkout" page).2.
Proof.
  intros Hne. pose proof Hne as Hb. apply String.eqb_neq in Hb.
  assert (Hkw : selectorKeywords type = selectorKeywords "checkout")
    by (unfold selectorKeywords; rewrite Hb; reflexivity).
  assert (Htx : searchTexts type = searchTexts "checkout")
    by (unfold searchTexts; rewrite Hb; reflexivity).
  assert (Har : ariaLabels type = ariaLabels "checkout")
    by (unfold ariaLabels; rewrite Hb; reflexivity).
  assert (Hstr : strategies type page = strategies "checkout" page).
  { unfold strategies.
    rewrite findAndClickByForm_checkout by assumption.
    unfold findAndClickBySelector, findAndClickByText, findAndClickByAria.
    rewrite Hkw, Htx, Har. reflexivity. }
  split; [exact Hkw|]. split; [exact Htx|]. split; [exact Har|].
  split; [intros; unfold isCorrectType; rewrite Hb; reflexivity|].
  split; [exact Hstr|].
  rewrite !performAttendance_unfold, Hstr. cbn [fst snd].
  destruct (strategyLoop_type_irrelevant type "checkout" (strategies "checkout" page))
    as [H1 H2].
  rewrite !steps_app, H1, H2. split.
  - unfold waitForPageLoad. destruct (readyComplete page); reflexivity.
  - destruct ((strategyLoop "checkout" (strategies "checkout" page)).2) as [[r|]| |];
      cbn; auto.
Qed.

Lemma unrecognized_type_is_checkout_witness :
  "lunch" ≠ "checkin" ∧
  strategies "lunch" checkInPage = strategies "checkout" checkInPage ∧
  sameEnding (performAttendance "lunch" checkInPage).2
             (performAttendance "checkout" checkInPage).2.
Proof.
  assert (H : "lunch" ≠ "checkin") by discriminate.
  pose proof (unrecognized_type_is_checkout "lunch" checkInPage H)
    as (_ & _ & _ & _ & Hs & _ & He).
  split; [exact H|]. split; [exact Hs | exact He].
Defined.

(** C6, as amended. [clickElement] takes the steps of the activation
    sequence in order: scroll into centered view, 500 ms; outline and
    background marker; focus, click; mousedown, mouseup, click events;
    the enclosing form's submit when there is one, whether or not the
    click caused a navigation; 1000 ms; the inline style restored. It goes
    through all of them, and returns, exactly when [element.click()] and
    [form.submit()] do not throw and the page is not unloaded meanwhile.
    A call that throws ends the sequence there, with that error and the
    marker left in place: before the click when [element.click()] throws,
    before the submission when [form.submit()] throws. On a page that is
    unloaded the sequence stops after the 1000 ms wait has begun: the
    style is not restored, and the call never returns. *)
Theorem clickElement_sequence (element : Element) :
  let run := clickElement element in
  let upToFocus :=
    [ ScrollIntoView element "smooth" "center"; Sleep 500;
      SetOutline element "3px solid #4ade80";
      SetBackgroundColor element "rgba(74, 222, 128, 0.2)";
      Focus element ] in
  let clicks :=
    [ Click element;
      DispatchMouseEvent element "mousedown";
      DispatchMouseEvent element "mouseup";
      DispatchMouseEvent element "click" ] in
  let submission :=
    match closestForm element with
    | Some form => [Submit form]
    | None => []
    end in
  let submits := closestForm element = None ∨ formSubmit element = Ok tt in
  specifiedActivation false element =
    upToFocus ++ clicks ++ submission ++
    [ Sleep 1000; SetCssText element (cssText element) ] ∧
  (∃ rest, specifiedActivation false element = steps run.1 ++ rest) ∧
  (run.2 = Returned tt ↔
   elementClick element = Ok tt ∧ submits ∧ unloadsPage element = false) ∧
  (run.2 = Returned tt ↔ steps run.1 = specifiedActivation false element) ∧
  (∀ e, elementClick element = Throw e →
     run.2 = Thrown e ∧ steps run.1 = upToFocus) ∧
  (∀ e, elementClick element = Ok tt → closestForm element ≠ None →
     formSubmit element = Throw e →
     run.2 = Thrown e ∧ steps run.1 = upToFocus ++ clicks) ∧
  (elementClick element = Ok tt → submits → unloadsPage element = true →
     run.2 = Pending ∧
     steps run.1 = upToFocus ++ clicks ++ submission ++ [Sleep 1000]) ∧
  (∀ form, elementClick element = Ok tt → closestForm element = Some form →
     formSubmit element = Ok tt → In (Submit form) run.1).
Proof.
  unfold clickElement, specifiedActivation.
  destruct (elementClick element) as [[]|e1] eqn:Hc;
    destruct (closestForm element) as [form|] eqn:Hf;
    destruct (formSubmit element) as [[]|e2] eqn:Hs;
    destruct (unloadsPage element) eqn:Hu;
    cbn -[String.eqb];
    (split_and!;
     [ reflexivity
     | eexists; reflexivity
     | split; [discriminate || tauto | intros (H1 & H2 & H3);
                 first [ reflexivity | discriminate
                       | destruct H2; discriminate ] ]
     | split; [discriminate || tauto | discriminate || tauto ]
     | intros e H; first [ discriminate | injection H as <-; split; reflexivity ]
     | intros e H1 H2 H3;
       first [ discriminate | congruence
             | injection H3 as <-; split; reflexivity ]
     | intros H1 H2 H3;
       first [ discriminate | destruct H2; discriminate | split; reflexivity ]
     | intros form' H1 H2 H3;
       first [ discriminate
             | injection H2 as <-; cbn; tauto ] ]).
Qed.

(** The whole sequence on a button outside of any form. *)
Example clickElement_checkInButton :
  (clickElement checkInButton).2 = Returned tt ∧
  steps (clickElement checkInButton).1 = specifiedActivation false checkInButton.
Proof. split; reflexivity. Qed.

(** A button whose form has a control named [submit]: the click is made,
    [form.submit()] throws, and the marker stays. *)
Example clickElement_shadowed_submit :
  (clickElement shadowedSubmitButton).2 = Thrown "form.submit is not a function" ∧
  In (Click shadowedSubmitButton) (clickElement shadowedSubmitButton).1 ∧
  ¬ In (SetCssText shadowedSubmitButton (cssText shadowedSubmitButton))
       (clickElement shadowedSubmitButton).1.
Proof.
  split; [reflexivity|]. split; [vm_compute; tauto|].
  vm_compute. intros H. repeat destruct H as [H|H]; discriminate H || exact H.
Qed.

(** C6, as stated, fails for a control inside a form whose click starts a
    navigation: the form is submitted all the same, and the marker is not
    reverted, the page being unloaded first. *)
Lemma clickElement_submits_after_navigation :
  steps (clickElement leavingLink).1 ≠ specifiedActivation true leavingLink ∧
  In (Submit 7%nat) (clickElement leavingLink).1 ∧
  ¬ In (SetCssText leavingLink (cssText leavingLink)) (clickElement leavingLink).1 ∧
  (clickElement leavingLink).2 = Pending.
Proof.
  split; [discriminate|]. split; [vm_compute; tauto|].
  split; [|reflexivity].
  vm_compute. intros H. repeat destruct H as [H|H]; discriminate H || exact H.
Qed.

End ContentScript.

(** Unfolds the state monad down to the state it computes. *)
Ltac run_st :=
  unfold record, updateAlarms, updateLogs, updateSync, awaiting, nextTurn,
    St_throw, St_pending,
    St_try_catch, St_await, St_lift, mbind, mret, St_mbind, St_mret, St_bind, St_ret;
  cbn [fst snd sync alarms logs turnLogs journal].

Section Scheduler.
Import JsDate AttendanceScheduler.

Lemma hhmm_parses_all :
  forallb (fun h => forallb (fun m =>
    bool_decide ((fun s => Number (Some s)) <$> JsString.split (hhmm h m) ":"%char
                 = [Some (Z.of_nat h); Some (Z.of_nat m)]))
    (seq 0 60)) (seq 0 24) = true.
Proof. vm_compute. reflexivity. Qed.

Lemma hhmm_parses (h m : nat) :
  (h < 24)%nat → (m < 60)%nat →
  (fun s => Number (Some s)) <$> JsString.split (hhmm h m) ":"%char
    = [Some (Z.of_nat h); Some (Z.of_nat m)].
Proof.
  intros Hh Hm. pose proof hhmm_parses_all as H.
  rewrite forallb_forall in H. specialize (H h ltac:(apply in_seq; lia)).
  rewrite forallb_forall in H. specialize (H m ltac:(apply in_seq; lia)).
  apply bool_decide_eq_true in H. exact H.
Qed.

Lemma time_of_day_range (h m : nat) :
  (h < 24)%nat → (m < 60)%nat →
  0 ≤ MakeTime (Z.of_nat h) (Z.of_nat m) 0 0 < msPerDay.
Proof. unfold MakeTime, msPerDay. lia. Qed.

(** [setDate(getDate() + 1)] moves a date one calendar day ahead, whatever
    the month it lies in, and keeps the clock reading. *)
Lemma setDate_next_day (L : Locale) (t : Z) :
  setDate L (Some t) ((fun d => d + 1) <$> getDate L (Some t)) = Some (dayAfter L t).
Proof.
  cbn. f_equal. unfold dayAfter. f_equal.
  unfold MakeDate, MakeDayInMonth, TimeWithinDay, Day.
  pose proof (Z.div_mod (LocalTime L t) msPerDay ltac:(discriminate)).
  lia.
Qed.

Lemma scheduledTimeFor_next (env : Env) (h m : nat) :
  (h < 24)%nat → (m < 60)%nat →
  scheduledTimeFor env (hhmm h m) = Some (nextOccurrence (locale env) (now env) h m).
Proof.
  intros Hh Hm. unfold scheduledTimeFor. rewrite hhmm_parses by assumption.
  cbn [lookup list_lookup mjoin option_join].
  change (setHours (locale env) (Some (now env)) (Some (Z.of_nat h)) (Some (Z.of_nat m))
            (Some 0) (Some 0))
    with (Some (todayAt (locale env) (now env) h m)).
  unfold nextOccurrence, le.
  destruct (Z.leb_spec (todayAt (locale env) (now env) h m) (now env)) as [Hle|Hgt].
  - rewrite setDate_next_day.
    destruct (Z.ltb_spec (now env) (todayAt (locale env) (now env) h m)); [lia|reflexivity].
  - destruct (Z.ltb_spec (now env) (todayAt (locale env) (now env) h m)); [reflexivity|lia].
Qed.

Lemma Day_MakeDate (day time : Z) :
  0 ≤ time < msPerDay → Day (MakeDate day time) = day.
Proof.
  intros Ht. unfold Day, MakeDate. symmetry.
  apply (Z.div_unique _ _ _ time); [left; exact Ht | lia].
Qed.

Lemma Day_mono (a b : Z) : a ≤ b → Day a ≤ Day b.
Proof. intros H. apply Z.div_le_mono; [reflexivity | exact H]. Qed.

Lemma Day_next (a : Z) : Day (a + msPerDay) = Day a + 1.
Proof.
  unfold Day. replace (a + msPerDay) with (a + 1 * msPerDay) by lia.
  apply Z.div_add. discriminate.
Qed.

(** In a regular time zone the next occurrence lies ahead. *)
Lemma nextOccurrence_ahead (L : Locale) (t : Z) (h m : nat) :
  regular L → (h < 24)%nat → (m < 60)%nat →
  t < nextOccurrence L t h m.
Proof.
  intros [Hback Hlater] Hh Hm. pose proof (time_of_day_range h m Hh Hm) as Hr.
  unfold nextOccurrence.
  destruct (Z.ltb_spec t (todayAt L t h m)) as [Hlt|Hge]; [exact Hlt|].
  unfold dayAfter. apply Hlater. rewrite Day_next.
  pose proof (Hback (MakeDate (Day (LocalTime L t))
                       (MakeTime (Z.of_nat h) (Z.of_nat m) 0 0))) as Hb.
  apply Day_mono in Hb. rewrite Day_MakeDate in Hb by exact Hr.
  unfold todayAt. lia.
Qed.


Lemma berlin_offsetAt (t : Z) :
  (offsetAt berlin t = 7200000 ∧
   19813 * 86400000 + 3600000 ≤ t < 20023 * 86400000 + 3600000) ∨
  (offsetAt berlin t = 3600000 ∧
   (t < 19813 * 86400000 + 3600000 ∨ 20023 * 86400000 + 3600000 ≤ t)).
Proof.
  cbn [berlin offsetAt].
  destruct (Z.leb_spec (19813 * 86400000 + 3600000) t);
    destruct (Z.ltb_spec t (20023 * 86400000 + 3600000)); cbn [andb]; lia.
Qed.

Lemma berlin_offsetOfLocal (r : Z) :
  (offsetOfLocal berlin r = 7200000 ∧
   19813 * 86400000 + 3 * 3600000 ≤ r < 20023 * 86400000 + 3 * 3600000) ∨
  (offsetOfLocal berlin r = 3600000 ∧
   (r < 19813 * 86400000 + 3 * 3600000 ∨ 20023 * 86400000 + 3 * 3600000 ≤ r)).
Proof.
  cbn [berlin offsetOfLocal].
  destruct (Z.leb_spec (19813 * 86400000 + 3 * 3600000) r);
    destruct (Z.ltb_spec r (20023 * 86400000 + 3 * 3600000)); cbn [andb]; lia.
Qed.

(** Central European time is regular. *)
Lemma berlin_regular : regular berlin.
Proof.
  split.
  - intros r. unfold LocalTime, UTC.
    pose proof (berlin_offsetOfLocal r) as Hr.
    pose proof (berlin_offsetAt (r - offsetOfLocal berlin r)) as Ht.
    lia.
  - intros t r. unfold LocalTime, UTC, Day, msPerDay.
    pose proof (berlin_offsetOfLocal r) as Hr.
    pose proof (berlin_offsetAt t) as Ht.
    intros Hd. Z.div_mod_to_equations. lia.
Qed.

Lemma sampleLocale_regular : regular sampleLocale.
Proof.
  split.
  - intros r. unfold LocalTime, UTC, sampleLocale. cbn [offsetAt offsetOfLocal]. lia.
  - intros t r. unfold LocalTime, UTC, Day, msPerDay, sampleLocale.
    cbn [offsetAt offsetOfLocal]. intros Hd. Z.div_mod_to_equations. lia.
Qed.



(** With a fixed offset: enabled with check-in at "09:00" while it is
    10:00, the alarm is armed for 09:00 tomorrow, 23 hours ahead. *)
Example createDailyAlarm_nine_at_ten :
  alarms (createDailyAlarm sampleEnv "checkin" (Some "09:00") restartedBrowser).1
    !! "checkin" = Some (dailyAlarm (tenOClock + 23 * 3600000)).
Proof. vm_compute. reflexivity. Qed.


Lemma createDailyAlarm_eq (env : Env) (name : string) (h m : nat) :
  (h < 24)%nat → (m < 60)%nat →
  createDailyAlarm env name (Some (hhmm h m)) =
    (alarmsCreate name (dailyAlarm (nextOccurrence (locale env) (now env) h m)) ;;
     log env (name +:+ " alarm set for " +:+
              toLocaleString (locale env)
                (Some (nextOccurrence (locale env) (now env) h m)))).
Proof.
  intros Hh Hm. unfold createDailyAlarm.
  rewrite scheduledTimeFor_next by assumption. reflexivity.
Qed.

Lemma firingCalls_app (j1 j2 : list BgEvent) :
  firingCalls (j1 ++ j2) = firingCalls j1 ++ firingCalls j2.
Proof. apply List.filter_app. Qed.

Lemma alarmCalls_app (j1 j2 : list BgEvent) :
  alarmCalls (j1 ++ j2) = alarmCalls j1 ++ alarmCalls j2.
Proof. apply List.filter_app. Qed.

Lemma loadSettings_enabled (env : Env) (st : Browser) :
  autoSchedule (sync st) = Some true →
  loadSettings env st =
    setupSchedule env (Some (default "09:00" (checkinTime (sync st))))
      (Some (default "17:30" (checkoutTime (sync st)))) (nextTurn st).
Proof.
  intros H. unfold loadSettings, mbind, St_mbind, St_bind, awaiting, getSync.
  cbn [nextTurn sync]. rewrite H. reflexivity.
Qed.

Lemma bind_run {S A C} (m : St S A) (k : A → St S C) (st st' : S) (a : A) :
  m st = (st', Returned a) → (m ≫= k) st = k a st'.
Proof. intros H. unfold mbind, St_mbind, St_bind. rewrite H. reflexivity. Qed.

Lemma record_run (ev : BgEvent) (st : Browser) :
  record ev st =
    ({| sync := sync st; alarms := alarms st; logs := logs st;
        turnLogs := turnLogs st; journal := journal st ++ [ev] |}, Returned tt).
Proof. reflexivity. Qed.

Lemma alarmsClear_run (name : string) (st : Browser) :
  alarmsClear name st =
    ({| sync := sync st; alarms := delete name (alarms st); logs := logs st;
        turnLogs := turnLogs st;
        journal := journal st ++ [AlarmsClear name] |}, Returned tt).
Proof. reflexivity. Qed.

Lemma alarmsCreate_run (name : string) (alarm : Alarm) (st : Browser) :
  alarmsCreate name alarm st =
    ({| sync := sync st; alarms := <[name := alarm]> (alarms st); logs := logs st;
        turnLogs := turnLogs st;
        journal := journal st ++ [AlarmsCreate name alarm] |}, Returned tt).
Proof. reflexivity. Qed.

Lemma log_run (env : Env) (message : string) (st : Browser) :
  log env message st =
    ({| sync := sync st; alarms := alarms st;
        logs := Some (storeLog
                        {| LogEntry.timestamp := toLocaleString (locale env) (Some (now env));
                           LogEntry.message := message;
                           LogEntry.type := entryType message |} (turnLogs st));
        turnLogs := turnLogs st;
        journal := journal st ++
                   [BgConsoleLog ("[" +:+ toLocaleString (locale env) (Some (now env))
                                      +:+ "] " +:+ message)] |},
     Returned tt).
Proof. reflexivity. Qed.

(** One step of a sequence of calls whose effect on the state is known. *)
Ltac st_step :=
  erewrite bind_run by
    first [ apply alarmsClear_run | apply alarmsCreate_run | apply log_run
          | apply record_run ];
  cbn [fst snd sync alarms logs turnLogs journal].

(** The constructor on an enabled schedule: it clears both alarms, arms
    each at the next occurrence of its time of day, and makes no firing
    call. *)
Lemma init_enabled (env : Env) (st : Browser) (h1 m1 h2 m2 : nat) :
  autoSchedule (sync st) = Some true →
  default "09:00" (checkinTime (sync st)) = hhmm h1 m1 →
  default "17:30" (checkoutTime (sync st)) = hhmm h2 m2 →
  (h1 < 24)%nat → (m1 < 60)%nat → (h2 < 24)%nat → (m2 < 60)%nat →
  rearmsSchedule (nextOccurrence (locale env) (now env) h1 m1)
    (nextOccurrence (locale env) (now env) h2 m2) st (init env st).
Proof.
  intros Hauto Hin Hout Hh1 Hm1 Hh2 Hm2.
  unfold rearmsSchedule, init.
  rewrite loadSettings_enabled, Hin, Hout by assumption. unfold setupSchedule.
  rewrite !createDailyAlarm_eq by assumption.
  unfold clearSchedule.
  repeat st_step.
  rewrite log_run. cbn [fst snd sync alarms logs turnLogs journal nextTurn].
  rewrite !firingCalls_app, !alarmCalls_app.
  cbn [firingCalls alarmCalls List.filter isFiringCall isAlarmCall app].
  rewrite !app_nil_r.
  split; [reflexivity|]. split; [reflexivity|].
  split; [rewrite <- !app_assoc; reflexivity|].
  split; [rewrite lookup_insert_ne by discriminate; apply lookup_insert_eq|].
  apply lookup_insert_eq.
Qed.

(** A browser that dropped the alarms has none to fire. *)
Lemma delivered_nothing (env : Env) (listener : string → B unit) (st : Browser) :
  delivered env listener false st = restarted false st.
Proof.
  unfold delivered, deliverDue, isDue, restarted. cbn [alarms].
  rewrite !lookup_empty. reflexivity.
Qed.

Lemma deliverDue_sync (env : Env) (listener : string → B unit) (name : string)
    (st : Browser) :
  (∀ n st', sync (listener n st').1 = sync st') →
  sync (deliverDue env listener name st) = sync st.
Proof.
  intros Hl. unfold deliverDue. destruct (isDue env st name); [|reflexivity].
  unfold alarmFires. destruct (alarms st !! name) as [alarm|]; [|reflexivity].
  unfold mbind, St_mbind, St_bind, awaiting, updateAlarms. cbn [nextTurn].
  rewrite Hl. reflexivity.
Qed.

(** C3, as amended. The scheduler's own start-up fires nothing: with the
    schedule enabled, the constructor clears both alarms and arms each at
    the next occurrence of its time of day, today's if still ahead, else
    the one a calendar day later, and makes no firing call. In a browser
    that dropped its alarms at the restart (Firefox) nothing else fires
    either: the occurrence that elapsed while the browser was closed is
    skipped, the alarm armed instead being the one a day after it, ahead
    of the clock in a regular time zone. In a browser that kept them, the
    only firing calls of the start-up are those of the browser's own
    delivery of the due alarms to the [onAlarm] listener (a listener that
    leaves the settings alone, as the scripts' one does). *)
Theorem startup_rearms_without_firing
    (env : Env) (listener : string → B unit) (st : Browser) (h1 m1 h2 m2 : nat) :
  autoSchedule (sync st) = Some true →
  default "09:00" (checkinTime (sync st)) = hhmm h1 m1 →
  default "17:30" (checkoutTime (sync st)) = hhmm h2 m2 →
  (h1 < 24)%nat → (m1 < 60)%nat → (h2 < 24)%nat → (m2 < 60)%nat →
  let L := locale env in
  let checkin := nextOccurrence L (now env) h1 m1 in
  let checkout := nextOccurrence L (now env) h2 m2 in
  rearmsSchedule checkin checkout st (init env st) ∧
  rearmsSchedule checkin checkout st (startUp env listener false st) ∧
  (todayAt L (now env) h1 m1 ≤ now env →
   checkin = dayAfter L (todayAt L (now env) h1 m1)) ∧
  (todayAt L (now env) h2 m2 ≤ now env →
   checkout = dayAfter L (todayAt L (now env) h2 m2)) ∧
  (regular L → now env < checkin ∧ now env < checkout) ∧
  ((∀ name st', sync (listener name st').1 = sync st') →
   rearmsSchedule checkin checkout (delivered env listener true st)
     (startUp env listener true st)).
Proof.
  intros Hauto Hin Hout Hh1 Hm1 Hh2 Hm2 L checkin checkout.
  split; [exact (init_enabled env st h1 m1 h2 m2 Hauto Hin Hout Hh1 Hm1 Hh2 Hm2)|].
  split.
  { unfold startUp. rewrite delivered_nothing.
    exact (init_enabled env (restarted false st) h1 m1 h2 m2 Hauto Hin Hout
             Hh1 Hm1 Hh2 Hm2). }
  split.
  { intros Hle. subst checkin. unfold nextOccurrence.
    destruct (Z.ltb_spec (now env) (todayAt L (now env) h1 m1)); [lia | reflexivity]. }
  split.
  { intros Hle. subst checkout. unfold nextOccurrence.
    destruct (Z.ltb_spec (now env) (todayAt L (now env) h2 m2)); [lia | reflexivity]. }
  split.
  { intros Hreg. split; apply nextOccurrence_ahead; assumption. }
  intros Hl. unfold startUp.
  assert (Hsync : sync (delivered env listener true st) = sync st).
  { unfold delivered. rewrite !deliverDue_sync by exact Hl. reflexivity. }
  apply init_enabled; rewrite ?Hsync; assumption.
Qed.

(** The browser is closed at 08:00 with the check-in armed for 09:00 and
    started again at 10:00. Firefox has dropped the alarm: the start-up
    fires nothing and arms the check-in for 09:00 tomorrow. *)
Lemma startup_rearms_without_firing_witness :
  autoSchedule (sync restartedBrowser) = Some true ∧
  firingCalls (journal (startUp sampleEnv (AttendanceSchedulerFirefox.onAlarm sampleEnv)
                          false restartedBrowser).1) = [] ∧
  alarms (startUp sampleEnv (AttendanceSchedulerFirefox.onAlarm sampleEnv)
            false restartedBrowser).1 !! "checkin"
    = Some (dailyAlarm (tenOClock + 23 * 3600000)) ∧
  tenOClock < tenOClock + 23 * 3600000.
Proof.
  assert (Hauto : autoSchedule (sync restartedBrowser) = Some true) by reflexivity.
  pose proof (startup_rearms_without_firing sampleEnv
                (AttendanceSchedulerFirefox.onAlarm sampleEnv) restartedBrowser 9 0 17 30
                Hauto eq_refl eq_refl ltac:(lia) ltac:(lia) ltac:(lia) ltac:(lia))
    as (_ & (_ & Hf & _ & Ha & _) & _).
  split; [exact Hauto|]. split; [exact Hf|]. split; [exact Ha | reflexivity].
Defined.

(** C3, as stated, fails in a browser that drops its alarms at the restart:
    the schedule was enabled and the check-in armed for 09:00, the
    scheduler starts again at 10:00, and the start-up makes no firing
    call. *)
Lemma startup_skips_elapsed_alarm :
  ¬ startupCatchesUp sampleEnv (AttendanceSchedulerFirefox.onAlarm sampleEnv) false
      restartedBrowser "checkin".
Proof.
  intros H. apply H.
  - reflexivity.
  - exists (tenOClock - 3600000). split; [vm_compute; reflexivity | vm_compute; discriminate].
  - vm_compute. reflexivity.
Qed.

(** In a browser that kept the alarm, the same start-up does fire: the
    browser hands the due alarm to the listener, which queries the tabs. *)
Example startup_delivery_fires :
  firingCalls (journal (startUp sampleEnv (AttendanceSchedulerFirefox.onAlarm sampleEnv)
                          true restartedBrowser).1) ≠ [] ∧
  alarms (startUp sampleEnv (AttendanceSchedulerFirefox.onAlarm sampleEnv)
            true restartedBrowser).1 !! "checkin"
    = Some (dailyAlarm (tenOClock + 23 * 3600000)).
Proof. split; [vm_compute; discriminate | vm_compute; reflexivity]. Qed.

Lemma leavesAlarms_bind {A C} (m : B A) (k : A → B C) :
  leavesAlarms m → (∀ a, leavesAlarms (k a)) → leavesAlarms (m ≫= k).
Proof.
  intros Hm Hk st. specialize (Hm st). run_st.
  destruct (m st) as [st' [a|e|]]; cbn [fst snd] in *; [|exact Hm|exact Hm].
  destruct (Hk a st') as [H1 H2]. destruct Hm as [H3 H4]. split; congruence.
Qed.

Lemma leavesAlarms_try_catch {A} (m : B A) (h : string → B A) :
  leavesAlarms m → (∀ e, leavesAlarms (h e)) → leavesAlarms (St_try_catch m h).
Proof.
  intros Hm Hh st. specialize (Hm st). run_st.
  destruct (m st) as [st' [a|e|]]; cbn [fst snd] in *; [exact Hm| |exact Hm].
  destruct (Hh e st') as [H1 H2]. destruct Hm as [H3 H4]. split; congruence.
Qed.

Lemma leavesAlarms_record (ev : BgEvent) :
  isAlarmCall ev = false → leavesAlarms (record ev).
Proof.
  intros Hev st. run_st. split; [reflexivity|].
  rewrite alarmCalls_app. cbn. rewrite Hev. apply app_nil_r.
Qed.

Lemma leavesAlarms_log (env : Env) (message : string) : leavesAlarms (log env message).
Proof. intros st. unfold log. run_st. rewrite alarmCalls_app. cbn. split; [reflexivity | apply app_nil_r]. Qed.

Lemma leavesAlarms_const {A} (c : Completion A) : leavesAlarms (St_await c).
Proof. intros st. split; reflexivity. Qed.

Lemma leavesAlarms_lift {A} (o : Outcome A) : leavesAlarms (St_lift o).
Proof. intros st. destruct o; split; reflexivity. Qed.

Lemma leavesAlarms_awaiting {A} (m : B A) : leavesAlarms m → leavesAlarms (awaiting m).
Proof.
  intros Hm st. specialize (Hm st). unfold awaiting.
  destruct (m st) as [st' c]. exact Hm.
Qed.

Lemma leavesAlarms_showNotification type status error :
  leavesAlarms (showNotification type status error).
Proof. apply leavesAlarms_record. reflexivity. Qed.

Lemma leavesAlarms_waitForTabLoad env tabId : leavesAlarms (waitForTabLoad env tabId).
Proof.
  unfold waitForTabLoad. destruct (tabLoadCompletes env tabId).
  - apply leavesAlarms_record. reflexivity.
  - apply (leavesAlarms_const Pending).
Qed.

Section AnySender.
Variable env : Env.
Variable sendAttendanceMessage : nat → string → B (option Response).
Hypothesis send_leavesAlarms :
  ∀ tabId type, leavesAlarms (sendAttendanceMessage tabId type).

Lemma performScheduledAttendance_leavesAlarms type :
  leavesAlarms (performScheduledAttendance env sendAttendanceMessage type).
Proof.
  unfold performScheduledAttendance.
  apply leavesAlarms_bind; [apply leavesAlarms_log|]. intros _.
  apply leavesAlarms_try_catch.
  - apply leavesAlarms_bind; [apply leavesAlarms_record; reflexivity|]. intros _.
    apply leavesAlarms_bind; [apply leavesAlarms_awaiting, leavesAlarms_lift|].
    intros tabs.
    apply leavesAlarms_bind; [|intros; apply leavesAlarms_showNotification].
    destruct tabs as [|tab tabs].
    + apply leavesAlarms_bind; [apply leavesAlarms_record; reflexivity|]. intros _.
      apply leavesAlarms_bind; [apply leavesAlarms_awaiting, leavesAlarms_lift|].
      intros tab.
      apply leavesAlarms_bind; [apply leavesAlarms_awaiting, leavesAlarms_waitForTabLoad|].
      intros _.
      apply leavesAlarms_bind; [apply leavesAlarms_awaiting, send_leavesAlarms|].
      intros _.
      apply (leavesAlarms_const (Returned tt)).
    + apply leavesAlarms_bind; [apply leavesAlarms_awaiting, send_leavesAlarms|].
      intros _.
      apply (leavesAlarms_const (Returned tt)).
  - intros e.
    apply leavesAlarms_bind; [apply leavesAlarms_log|]. intros _.
    apply leavesAlarms_showNotification.
Qed.

Lemma performScheduledAttendance_neverThrows type :
  neverThrows (performScheduledAttendance env sendAttendanceMessage type).
Proof.
  intros st message. unfold performScheduledAttendance, log, showNotification. run_st.
  match goal with
  | |- context [match ?body with (_, _) => _ end] => destruct body as [st' [a|e|]]
  end; cbn; discriminate.
Qed.

End AnySender.


Lemma firefox_send_leavesAlarms env tabId type :
  leavesAlarms (AttendanceSchedulerFirefox.sendAttendanceMessage env tabId type).
Proof.
  unfold AttendanceSchedulerFirefox.sendAttendanceMessage.
  apply leavesAlarms_try_catch.
  - apply leavesAlarms_bind; [apply leavesAlarms_record; reflexivity|]. intros _.
    apply leavesAlarms_bind; [apply leavesAlarms_const|]. intros response.
    destruct (responseSuccess response).
    + apply (leavesAlarms_const (Returned response)).
    + apply (leavesAlarms_const (Thrown _)).
  - intros e. apply (leavesAlarms_const (Thrown _)).
Qed.

Lemma chrome_send_leavesAlarms env tabId type :
  leavesAlarms (AttendanceSchedulerChrome.sendAttendanceMessage env tabId type).
Proof.
  unfold AttendanceSchedulerChrome.sendAttendanceMessage.
  apply leavesAlarms_bind; [apply leavesAlarms_record; reflexivity|]. intros _.
  destruct (tabsSendMessage env tabId _) as [response|e|].
  - destruct (responseSuccess response).
    + apply (leavesAlarms_const (Returned response)).
    + apply (leavesAlarms_const (Thrown _)).
  - apply (leavesAlarms_const (Thrown e)).
  - apply (leavesAlarms_const Pending).
Qed.

Lemma firingNeverHalts_any env send name w st :
  (∀ tabId type, leavesAlarms (send tabId type)) →
  alarms st !! name = Some (dailyAlarm w) →
  firingNeverHalts (performScheduledAttendance env send) (onAlarm env send) name w st.
Proof.
  intros Hsend Hlook.
  pose proof (performScheduledAttendance_leavesAlarms env send Hsend) as Hleave.
  pose proof (performScheduledAttendance_neverThrows env send) as Hthrow.
  split; [intros; apply Hthrow|]. split; [intros; apply Hleave|].
  unfold alarmFires. rewrite Hlook. run_st. cbn [when periodInMinutes dailyAlarm fmap option_fmap option_map].
  set (st' := {| sync := sync st;
                 alarms := <[name := {| when := Some (w + 1440 * 60000); periodInMinutes := 1440 |}]> (alarms st);
                 logs := logs st; journal := journal st |}).
  assert (Hon : leavesAlarms (onAlarm env send name) ∧ neverThrows (onAlarm env send name)).
  { unfold onAlarm. destruct (String.eqb name "checkin"); [split; [apply Hleave | apply Hthrow]|].
    destruct (String.eqb name "checkout"); [split; [apply Hleave | apply Hthrow]|].
    split; [apply (leavesAlarms_const (Returned tt)) | intros ? ?; discriminate]. }
  destruct Hon as [Hl Hn]. destruct (Hl st') as [H1 H2].
  split; [apply Hn|]. split; [rewrite H1; reflexivity | rewrite H2; reflexivity].
Qed.

(** C7. Whatever the browser answers (no tab, a tab that cannot be
    created or never loads, a message that is rejected, not answered or
    answered with a failure, or a success), [performScheduledAttendance]
    does not throw, makes no call on the alarms API and leaves every
    alarm as it is; so when the daily alarm of a schedule fires, it is
    armed for the same time the next day once the listener is done. This
    holds of both background scripts. *)
Theorem scheduled_firing_never_halts
    (env : Env) (name : string) (w : Z) (st : Browser) :
  alarms st !! name = Some (dailyAlarm w) →
  firingNeverHalts (AttendanceSchedulerFirefox.performScheduledAttendance env)
    (AttendanceSchedulerFirefox.onAlarm env) name w st ∧
  firingNeverHalts (AttendanceSchedulerChrome.performScheduledAttendance env)
    (AttendanceSchedulerChrome.onAlarm env) name w st.
Proof.
  intros Hlook. split.
  - apply firingNeverHalts_any; [apply firefox_send_leavesAlarms | exact Hlook].
  - apply firingNeverHalts_any; [apply chrome_send_leavesAlarms | exact Hlook].
Qed.


Lemma scheduled_firing_never_halts_witness :
  alarms restartedBrowser !! "checkin" = Some (dailyAlarm (tenOClock - 3600000)) ∧
  firingNeverHalts (AttendanceSchedulerFirefox.performScheduledAttendance sampleEnv)
    (AttendanceSchedulerFirefox.onAlarm sampleEnv) "checkin" (tenOClock - 3600000)
    restartedBrowser.
Proof.
  assert (H : alarms restartedBrowser !! "checkin" = Some (dailyAlarm (tenOClock - 3600000)))
    by (vm_compute; reflexivity).
  split; [exact H|].
  exact (proj1 (scheduled_firing_never_halts sampleEnv "checkin" _ restartedBrowser H)).
Defined.

(** No tab is open and none can be created: the firing is logged as
    failed, the user is notified, and nothing is thrown. *)
Example scenario_tab_creation_fails :
  let fired := AttendanceSchedulerFirefox.performScheduledAttendance sampleEnv "checkin"
                 restartedBrowser in
  fired.2 = Returned tt ∧
  firingCalls (journal fired.1) =
    [ TabsQuery; TabsCreate;
      NotificationsCreate "❌ Check-in Failed" "Tabs cannot be created right now" ].
Proof. split; vm_compute; reflexivity. Qed.

End Scheduler.

Section Logs.
Import AttendanceScheduler AttendancePopup.

Lemma storeLog_take (entry : LogEntry.t) (stored : option (list LogEntry.t)) :
  storeLog entry stored = take 50 (entry :: default [] stored).
Proof.
  unfold storeLog.
  destruct (Nat.ltb_spec 50 (length (entry :: default [] stored))) as [H|H];
    [reflexivity|].
  symmetry. apply take_ge. exact H.
Qed.

Lemma addLogTo_take (entry : PopupLog.t) (logs : list PopupLog.t) :
  (length logs ≤ 10)%nat → addLogTo entry logs = take 10 (entry :: logs).
Proof.
  intros Hlen. unfold addLogTo.
  destruct (Nat.ltb_spec 10 (length (entry :: logs))) as [H|H].
  - rewrite removelast_firstn_len. cbn [length] in *.
    replace (Nat.pred (S (length logs))) with 10%nat by lia. reflexivity.
  - symmetry. apply take_ge. exact H.
Qed.

Lemma popupLogsAfter_snoc history entry :
  popupLogsAfter (history ++ [entry]) = addLogTo entry (popupLogsAfter history).
Proof. unfold popupLogsAfter. rewrite foldl_app. reflexivity. Qed.

Lemma popupLogsAfter_recent (history : list PopupLog.t) :
  popupLogsAfter history = take 10 (reverse history).
Proof.
  induction history as [|entry history IH] using rev_ind; [reflexivity|].
  rewrite popupLogsAfter_snoc, reverse_snoc, IH.
  rewrite addLogTo_take by (rewrite length_take; lia).
  cbn [take]. rewrite take_take. reflexivity.
Qed.

(** C8. The background log stores the new entry in front of the list its
    storage callback reads, cut to its first 50 entries; for a call made
    once the callbacks of the earlier calls have run, that is the stored
    list. The popup's list, which starts empty and changes only through
    [addLog], gets the new entry in front and is cut to its first 10
    entries, so it always holds the 10 most recent entries, newest first;
    after eleven entries the first one is gone. *)
Theorem logs_prepend_and_truncate :
  (∀ (entry : LogEntry.t) (stored : option (list LogEntry.t)),
     storeLog entry stored = take 50 (entry :: default [] stored)) ∧
  (∀ (env : Env) (message : string) (st : Browser),
     ∃ entry, LogEntry.message entry = message ∧
              logs (log env message st).1
                = Some (take 50 (entry :: default [] (turnLogs st))) ∧
              logs (log env message (nextTurn st)).1
                = Some (take 50 (entry :: default [] (logs st)))) ∧
  (∀ (env : PopupEnv) (message type : string) (st : Popup),
     ∃ entry, PopupLog.type entry = type ∧
              popupLogs (addLog env message type st).1 = addLogTo entry (popupLogs st)) ∧
  (∀ (history : list PopupLog.t) (entry : PopupLog.t),
     addLogTo entry (popupLogsAfter history) = take 10 (entry :: popupLogsAfter history)) ∧
  (∀ history : list PopupLog.t, popupLogsAfter history = take 10 (reverse history)) ∧
  (∀ e1 e2 e3 e4 e5 e6 e7 e8 e9 e10 e11 : PopupLog.t,
     popupLogsAfter [e1; e2; e3; e4; e5; e6; e7; e8; e9; e10; e11]
     = [e11; e10; e9; e8; e7; e6; e5; e4; e3; e2]).
Proof.
  split; [exact storeLog_take|].
  split.
  { intros env message st.
    exists {| LogEntry.timestamp := JsDate.toLocaleString (locale env) (Some (now env));
              LogEntry.message := message;
              LogEntry.type := entryType message |}.
    split; [reflexivity|]. unfold log. run_st. rewrite !storeLog_take.
    split; reflexivity. }
  split.
  { intros env message type st.
    exists {| PopupLog.message :=
                "[" +:+ JsDate.toLocaleTimeString (popupLocale env) (Some (popupNow env))
                    +:+ "] " +:+ message;
              PopupLog.type := type |}.
    split; reflexivity. }
  split; [|split; [exact popupLogsAfter_recent | reflexivity]].
  intros history entry. apply addLogTo_take.
  rewrite popupLogsAfter_recent, length_take. lia.
Qed.

(** Of two [log] calls in one turn, the entry of the second stays stored
    and that of the first is lost: both callbacks read the same list. *)
Lemma log_twice_in_one_turn (env : Env) (first second : string) (st : Browser) :
  logs ((log env first ;; log env second) st).1 = logs (log env second st).1 ∧
  journal ((log env first ;; log env second) st).1 =
    journal (log env second (log env first st).1).1.
Proof. split; reflexivity. Qed.

End Logs.

(** Unfolds the popup's methods down to the state they compute. *)
Ltac run_popup :=
  unfold AttendancePopup.performAttendanceAction, AttendancePopup.try_finally,
    AttendancePopup.addLog, AttendancePopup.showNotification, AttendancePopup.call,
    St_throw, St_pending, St_try_catch, St_await, St_lift,
    mbind, mret, St_mbind, St_mret, St_bind, St_ret.

Section Popup.
Import AttendancePopup.

Lemma head_addLogTo (entry : PopupLog.t) (logs : list PopupLog.t) :
  head (addLogTo entry logs) = Some entry.
Proof.
  unfold addLogTo.
  destruct (Nat.ltb_spec 10 (length (entry :: logs))) as [H|H]; [|reflexivity].
  destruct logs as [|e logs]; [cbn in H; lia | reflexivity].
Qed.

(** C10. When the active tab's URL does not contain "people.zoho.com",
    the manual trigger ends with the error "Please navigate to Zoho
    People first": that error is logged and notified, and the popup makes
    no [sendMessage] call; the calls it makes are exactly the ones
    listed. *)
Theorem manual_trigger_requires_zoho_tab
    (env : PopupEnv) (action : string) (st : Popup)
    (tab : Tab) (others : list Tab) (tabUrl : string) :
  activeTabs env = Ok (tab :: others) →
  url tab = Some tabUrl →
  JsString.includes tabUrl "people.zoho.com" = false →
  let run := performAttendanceAction env action st in
  let button := if String.eqb action "checkin" then "checkInBtn" else "checkOutBtn" in
  let failure := action +:+ " failed: Please navigate to Zoho People first" in
  run.2 = Returned tt ∧
  calls run.1 =
    calls st ++
    [ ClassListAdd button "loading"; SetDisabled button true; UpdateLogs;
      PopupTabsQuery;
      UpdateLogs; ClassListAdd button "error-flash";
      PopupNotification failure "error";
      ClassListRemove button "loading"; SetDisabled button false;
      RemoveFlashLater button 500 ] ∧
  List.filter isSendMessage (calls run.1) = List.filter isSendMessage (calls st) ∧
  head (popupLogs run.1) =
    Some {| PopupLog.message :=
              "[" +:+ JsDate.toLocaleTimeString (popupLocale env) (Some (popupNow env))
                  +:+ "] " +:+ failure;
            PopupLog.type := "error" |}.
Proof.
  intros Htabs Hurl Hinc run button failure. subst run.
  run_popup. rewrite Htabs. cbn. rewrite Hurl. cbn. rewrite Hinc. cbn.
  split; [reflexivity|]. rewrite <- !app_assoc. cbn [app].
  split; [reflexivity|]. split; [|apply head_addLogTo].
  rewrite List.filter_app. cbn. apply app_nil_r.
Qed.

Lemma manual_trigger_requires_zoho_tab_witness :
  JsString.includes "https://example.org/inbox" "people.zoho.com" = false ∧
  List.filter isSendMessage (calls (performAttendanceAction otherSiteEnv "checkin" freshPopup).1)
    = [] ∧
  (performAttendanceAction otherSiteEnv "checkin" freshPopup).2 = Returned tt.
Proof.
  assert (H : JsString.includes "https://example.org/inbox" "people.zoho.com" = false)
    by reflexivity.
  pose proof (manual_trigger_requires_zoho_tab otherSiteEnv "checkin" freshPopup
                _ _ _ eq_refl eq_refl H) as (Hr & _ & Hs & _).
  split; [exact H|]. split; [exact Hs | exact Hr].
Defined.

(** On a Zoho People tab the request is sent. *)
Example scenario_zoho_tab_sends :
  List.filter isSendMessage
    (calls (performAttendanceAction
              {| popupNow := tenOClock; popupLocale := sampleLocale;
                 activeTabs := Ok [ {| id := 4%nat;
                                       url := Some "https://people.zoho.com/home" |} ];
                 popupSendMessage := popupSendMessage otherSiteEnv |}
              "checkin" freshPopup).1)
  = [ PopupTabsSendMessage 4 {| action := "performAttendance"; type := "checkin" |} ].
Proof. vm_compute. reflexivity. Qed.

End Popup.

(** * Further properties of the scripts *)

Section TimeDisplayFacts.
Import TimeDisplay.

Lemma formatTime_all :
  forallb (fun h => forallb (fun m =>
    bool_decide
      (formatTime (hhmm h m) =
         pretty (Z.of_nat (if (h mod 12 =? 0)%nat then 12 else h mod 12))
           +:+ ":" +:+ twoDigits m +:+ " " +:+ (if (h <? 12)%nat then "AM" else "PM")))
    (seq 0 60)) (seq 0 24) = true.
Proof. vm_compute. reflexivity. Qed.

Lemma readBack_all :
  forallb (fun h => forallb (fun m =>
    bool_decide (readBack (formatTime (hhmm h m)) = Some (h, m)))
    (seq 0 60)) (seq 0 24) = true.
Proof. vm_compute. reflexivity. Qed.

Lemma hour12_all :
  forallb (fun h =>
    let hour12 := if (h mod 12 =? 0)%nat then 12%nat else (h mod 12)%nat in
    (1 <=? hour12)%nat && (hour12 <=? 12)%nat
      && (hourOf hour12 (negb (h <? 12)%nat) =? h)%nat)
    (seq 0 24) = true.
Proof. vm_compute. reflexivity. Qed.

(** X1. [formatTime] turns a 24-hour "HH:MM" into the 12-hour display:
    the hour is [h mod 12], with 0 shown as 12 and without a leading zero,
    the minutes are kept as written, and the suffix is AM before noon and
    PM from noon on; the hour shown lies between 1 and 12 and, together
    with the suffix, determines [h]; the display reads back to the time
    it was made from, so two different times are never shown alike. *)
Theorem formatTime_twelve_hour (h m : nat) :
  (h < 24)%nat → (m < 60)%nat →
  let hour12 := if (h mod 12 =? 0)%nat then 12%nat else (h mod 12)%nat in
  formatTime (hhmm h m) =
    pretty (Z.of_nat hour12) +:+ ":" +:+ twoDigits m +:+ " "
      +:+ (if (h <? 12)%nat then "AM" else "PM") ∧
  (1 ≤ hour12 ≤ 12)%nat ∧
  hourOf hour12 (negb (h <? 12)%nat) = h ∧
  readBack (formatTime (hhmm h m)) = Some (h, m).
Proof.
  intros Hh Hm hour12.
  assert (Hrange : (1 ≤ hour12 ≤ 12)%nat ∧ hourOf hour12 (negb (h <? 12)%nat) = h).
  { subst hour12. pose proof hour12_all as H.
    rewrite forallb_forall in H. specialize (H h ltac:(apply in_seq; lia)).
    rewrite !andb_true_iff, !Nat.leb_le, Nat.eqb_eq in H. lia. }
  split; [|split; [apply Hrange | split; [apply Hrange|]]].
  - pose proof formatTime_all as H.
    rewrite forallb_forall in H. specialize (H h ltac:(apply in_seq; lia)).
    rewrite forallb_forall in H. specialize (H m ltac:(apply in_seq; lia)).
    apply bool_decide_eq_true in H. exact H.
  - pose proof readBack_all as H.
    rewrite forallb_forall in H. specialize (H h ltac:(apply in_seq; lia)).
    rewrite forallb_forall in H. specialize (H m ltac:(apply in_seq; lia)).
    apply bool_decide_eq_true in H. exact H.
Qed.

(** "17:30" is shown as "5:30 PM", midnight as "12:00 AM". *)
Lemma formatTime_twelve_hour_witness :
  (17 < 24)%nat ∧ (30 < 60)%nat ∧
  formatTime "17:30" = "5:30 PM" ∧ readBack (formatTime "17:30") = Some (17%nat, 30%nat).
Proof.
  assert (Hh : (17 < 24)%nat) by lia.
  assert (Hm : (30 < 60)%nat) by lia.
  pose proof (formatTime_twelve_hour 17 30 Hh Hm) as (Hf & _ & _ & Hr).
  split; [exact Hh|]. split; [exact Hm|]. split; [exact Hf | exact Hr].
Defined.

End TimeDisplayFacts.

Section PageScanFacts.
Import PageScan.

Lemma scanButton_cases (button : Scanned) :
  let '(after, lines) := scanButton button in
  scannedElement after = scannedElement button ∧
  scanButton after = (after, []) ∧
  activated lines = [] ∧
  (looksLikeAttendance (scanText after) = true → unmarked after = false) ∧
  (unmarked button = false → after = button ∧ lines = []).
Proof.
  unfold scanButton.
  destruct (looksLikeAttendance (scanText button)) eqn:Hlooks.
  - destruct (unmarked button) eqn:Hun.
    + unfold scanText in *. cbn [scannedElement attendanceBot]. rewrite Hlooks.
      cbn. repeat split; auto; discriminate.
    + rewrite Hlooks, Hun. repeat split; auto.
  - rewrite Hlooks. repeat split; auto; discriminate.
Qed.

(** X2. [scanForAttendanceButtons] only marks and logs: it leaves every
    element as it is and acts on none; after it every control whose text
    mentions check, punch or attendance carries the mark; a control already
    marked is neither marked nor logged again, so a second scan changes
    nothing and writes nothing. *)
Theorem scan_marks_once (buttons : list Scanned) :
  let once := scanForAttendanceButtons buttons in
  scanForAttendanceButtons once.1 = (once.1, []) ∧
  scannedElement <$> once.1 = scannedElement <$> buttons ∧
  activated once.2 = [] ∧
  Forall (fun button => looksLikeAttendance (scanText button) = true →
                        unmarked button = false) once.1 ∧
  (Forall (fun button => unmarked button = false) buttons → once = (buttons, [])).
Proof.
  induction buttons as [|button buttons IH]; cbn [scanForAttendanceButtons].
  - cbn. repeat split; auto.
  - pose proof (scanButton_cases button) as Hb.
    destruct (scanButton button) as [after lines].
    destruct Hb as (He & Hidem & Hact & Hmark & Hkeep).
    destruct (scanForAttendanceButtons buttons) as [rest lines'].
    cbn [fst snd] in *. destruct IH as (IH1 & IH2 & IH3 & IH4 & IH5).
    cbn [scanForAttendanceButtons]. rewrite Hidem, IH1.
    split; [reflexivity|]. split; [cbn; congruence|].
    split; [rewrite activated_app, Hact, IH3; reflexivity|].
    split; [constructor; assumption|].
    intros Hall. inversion Hall as [|? ? Hun Hrest]; subst.
    destruct (Hkeep Hun) as [-> ->]. specialize (IH5 Hrest).
    injection IH5 as -> ->. reflexivity.
Qed.

End PageScanFacts.

Section OneShot.
Import ZohoAttendanceShared ZohoAttendanceBotChrome.


































(** Without the proviso the bound fails. On a page whose form has a control
    named [submit], strategy 1 clicks the button and its [form.submit()]
    throws; the loop catches the error, strategy 2 finds the same button
    and clicks it again, and the run ends in the not-found error. *)
Example chain_clicks_twice_when_submit_throws :
  clicked (performAttendance "checkin" shadowedSubmitPage).1
    = [shadowedSubmitButton; shadowedSubmitButton] ∧
  submitted (performAttendance "checkin" shadowedSubmitPage).1 = [] ∧
  (performAttendance "checkin" shadowedSubmitPage).2
    = Thrown "Could not find checkin button on this page".
Proof. split_and!; vm_compute; reflexivity. Qed.

End OneShot.

Section Strategies.
Import ZohoAttendanceShared ZohoAttendanceBotChrome.

Lemma selectorElements_find type selector elements :
  selectorElements (selectorKeywords type) selector elements =
    match List.find (selectorMatch type) elements with
    | Some element =>
        clickElement element ;;
        mret (Some {| success := true; method := "selector";
                      locator := ByElement selector |})
    | None => mret None
    end.
Proof.
  induction elements as [|element elements IH]; [reflexivity|].
  cbn [selectorElements List.find].
  change (existsb _ (selectorKeywords type) && isElementClickable (Some element))
    with (selectorMatch type element).
  destruct (selectorMatch type element); [reflexivity | exact IH].
Qed.

(** A call of [clickElement] that returns has clicked its element once. *)
Lemma clickElement_returned_clicked (element : Element) :
  (clickElement element).2 = Returned tt →
  clicked (clickElement element).1 = [element].
Proof.
  unfold clickElement.
  destruct (elementClick element) as [[]|e1];
    destruct (closestForm element) as [form|];
    destruct (formSubmit element) as [[]|e2];
    destruct (unloadsPage element);
    cbn -[String.eqb]; intros H; first [discriminate H | reflexivity].
Qed.




(** Where a successful run of the selector loop found its element. *)
Lemma selectorLoop_found type page selectors result :
  (selectorLoop page (selectorKeywords type) selectors).2 = Returned (Some result) →
  ∃ before selector after elements element,
    selectors = before ++ selector :: after ∧
    Forall (fun s => ∃ els, querySelectorAll page s = Ok els ∧
                            List.find (selectorMatch type) els = None) before ∧
    querySelectorAll page selector = Ok elements ∧
    List.find (selectorMatch type) elements = Some element ∧
    result = {| success := true; method := "selector"; locator := ByElement selector |} ∧
    clicked (selectorLoop page (selectorKeywords type) selectors).1 = [element].
Proof.
  induction selectors as [|selector selectors IH]; [discriminate|].
  cbn [selectorLoop]. rewrite !bind_trace, !bind_outcome.
  destruct (querySelectorAll page selector) as [elements|e] eqn:Hq;
    cbn [lift ret throw fst snd]; [|discriminate].
  rewrite !bind_trace, !bind_outcome, selectorElements_find.
  destruct (List.find (selectorMatch type) elements) as [element|] eqn:Hfind.
  - rewrite !bind_trace, !bind_outcome.
    destruct ((clickElement element).2) as [[]|e'|] eqn:Hclick;
      cbn [fst snd mret M_ret ret]; try discriminate.
    rewrite !app_nil_r. intros [= <-].
    exists [], selector, selectors, elements, element.
    pose proof (clickElement_returned_clicked element Hclick) as Hc.
    repeat split; auto.
  - cbn [fst snd mret M_ret ret app]. intros Ho.
    destruct (IH Ho) as (before & sel & after & els & el & -> & Hb & Hq' & Hf & Hr & Hc).
    exists (selector :: before), sel, after, els, el.
    repeat split; auto. constructor; [eauto | assumption].
Qed.

Lemma findAndClickBySelector_unfold type page :
  findAndClickBySelector type page =
    (ConsoleLog "info" "Strategy 1: Selector-based search"
       :: (selectorLoop page (selectorKeywords type) attendanceSelectors).1,
     match (selectorLoop page (selectorKeywords type) attendanceSelectors).2 with
     | Returned (Some result) => Returned result
     | Returned None => Thrown "No matching selectors found"
     | Thrown message => Thrown message
     | Pending => Pending
     end).
Proof.
  unfold findAndClickBySelector.
  destruct (selectorLoop page (selectorKeywords type) attendanceSelectors)
    as [t [[r|]|e|]];
    cbn; rewrite ?app_nil_r; reflexivity.
Qed.

(** X4. When strategy 1 succeeds, the element it clicked is the first
    element, in document order, of the first selector of the list that
    matches one whose text, value or title contains a keyword of the
    request type and which passes the clickability predicate; every
    selector before it was queried without error and matched no such
    element; the result names that selector. *)
Theorem findAndClickBySelector_first_match (type : string) (page : Page) (result : Result) :
  (findAndClickBySelector type page).2 = Returned result →
  ∃ before selector after elements element,
    attendanceSelectors = before ++ selector :: after ∧
    Forall (fun s => ∃ els, querySelectorAll page s = Ok els ∧
                            List.find (selectorMatch type) els = None) before ∧
    querySelectorAll page selector = Ok elements ∧
    List.find (selectorMatch type) elements = Some element ∧
    hasKeyword type element = true ∧ clickable element ∧
    result = {| success := true; method := "selector"; locator := ByElement selector |} ∧
    clicked (findAndClickBySelector type page).1 = [element].
Proof.
  rewrite findAndClickBySelector_unfold. cbn [fst snd]. intros Hok.
  destruct ((selectorLoop page (selectorKeywords type) attendanceSelectors).2)
    as [[r|]|e|] eqn:Hloop; try discriminate.
  injection Hok as ->.
  destruct (selectorLoop_found type page _ _ Hloop)
    as (before & sel & after & els & el & Hsplit & Hb & Hq & Hf & Hr & Hc).
  exists before, sel, after, els, el.
  pose proof (List.find_some _ _ Hf) as [_ Hm].
  unfold selectorMatch in Hm. apply andb_true_iff in Hm as [Hk Hcl].
  repeat split; auto.
Qed.

Lemma findAndClickBySelector_first_match_witness :
  (findAndClickBySelector "checkin" checkInPage).2
    = Returned {| success := true; method := "selector";
            locator := ByElement ("[data-action=" +:+ quoted "checkin" +:+ "]") |} ∧
  ∃ before selector after elements element,
    attendanceSelectors = before ++ selector :: after ∧
    Forall (fun s => ∃ els, querySelectorAll checkInPage s = Ok els ∧
                            List.find (selectorMatch "checkin") els = None) before ∧
    querySelectorAll checkInPage selector = Ok elements ∧
    List.find (selectorMatch "checkin") elements = Some element ∧
    hasKeyword "checkin" element = true ∧ clickable element ∧
    {| success := true; method := "selector";
       locator := ByElement ("[data-action=" +:+ quoted "checkin" +:+ "]") |}
      = {| success := true; method := "selector"; locator := ByElement selector |} ∧
    clicked (findAndClickBySelector "checkin" checkInPage).1 = [element].
Proof.
  assert (H : (findAndClickBySelector "checkin" checkInPage).2
            = Returned {| success := true; method := "selector";
                    locator := ByElement ("[data-action=" +:+ quoted "checkin" +:+ "]") |})
    by (vm_compute; reflexivity).
  split; [exact H|].
  exact (findAndClickBySelector_first_match "checkin" checkInPage _ H).
Defined.











End Strategies.

Section Runs.
Import AttendanceScheduler.

Lemma runs_ret {A} (a : A) : runs (mret a) [] (Returned a).
Proof. intros st. cbn. rewrite app_nil_r. auto. Qed.

Lemma runs_throw {A} message : runs (St_throw message : B A) [] (Thrown message).
Proof. intros st. cbn. rewrite app_nil_r. auto. Qed.

Lemma runs_pending {A} : runs (St_pending : B A) [] Pending.
Proof. intros st. cbn. rewrite app_nil_r. auto. Qed.

Lemma runs_await {A} (c : Completion A) : runs (St_await c) [] c.
Proof. intros st. cbn. rewrite app_nil_r. auto. Qed.

Lemma runs_awaiting {A} (m : B A) e c : runs m e c → runs (awaiting m) e c.
Proof.
  intros Hm st. specialize (Hm st). unfold awaiting.
  destruct (m st) as [st' c']. exact Hm.
Qed.

Lemma runs_lift_ok {A} (a : A) : runs (St_lift (Ok a)) [] (Returned a).
Proof. apply runs_ret. Qed.

Lemma runs_lift_throw {A} message : runs (St_lift (Throw message) : B A) [] (Thrown message).
Proof. apply runs_throw. Qed.

Lemma runs_record (ev : BgEvent) : runs (record ev) [ev] (Returned tt).
Proof. intros st. cbn. auto. Qed.

Lemma runs_log (env : Env) (message : string) :
  runs (log env message) [consoleLine env message] (Returned tt).
Proof. intros st. cbn. auto. Qed.

Lemma runs_bind_returned {A C} (m : B A) (k : A → B C) e1 a e2 c :
  runs m e1 (Returned a) → runs (k a) e2 c → runs (m ≫= k) (e1 ++ e2) c.
Proof.
  intros Hm Hk st. destruct (Hm st) as (J & C1 & A1 & S1).
  unfold mbind, St_mbind, St_bind. destruct (m st) as [st' c']. cbn [fst snd] in *.
  subst c'. destruct (Hk st') as (J2 & C2 & A2 & S2).
  rewrite J2, J, A2, A1, S2, S1, app_assoc. auto.
Qed.

Lemma runs_bind_thrown {A C} (m : B A) (k : A → B C) e message :
  runs m e (Thrown message) → runs (m ≫= k) e (Thrown message).
Proof.
  intros Hm st. destruct (Hm st) as (J & C1 & A1 & S1).
  unfold mbind, St_mbind, St_bind. destruct (m st) as [st' c']. cbn [fst snd] in *.
  subst c'. auto.
Qed.

Lemma runs_bind_pending {A C} (m : B A) (k : A → B C) e :
  runs m e Pending → runs (m ≫= k) e Pending.
Proof.
  intros Hm st. destruct (Hm st) as (J & C1 & A1 & S1).
  unfold mbind, St_mbind, St_bind. destruct (m st) as [st' c']. cbn [fst snd] in *.
  subst c'. auto.
Qed.

Lemma runs_catch_thrown {A} (m : B A) (h : string → B A) e1 message e2 c :
  runs m e1 (Thrown message) → runs (h message) e2 c →
  runs (St_try_catch m h) (e1 ++ e2) c.
Proof.
  intros Hm Hh st. destruct (Hm st) as (J & C1 & A1 & S1).
  unfold St_try_catch. destruct (m st) as [st' c']. cbn [fst snd] in *.
  subst c'. destruct (Hh st') as (J2 & C2 & A2 & S2).
  rewrite J2, J, A2, A1, S2, S1, app_assoc. auto.
Qed.

Lemma runs_catch_returned {A} (m : B A) (h : string → B A) e a :
  runs m e (Returned a) → runs (St_try_catch m h) e (Returned a).
Proof.
  intros Hm st. destruct (Hm st) as (J & C1 & A1 & S1).
  unfold St_try_catch. destruct (m st) as [st' c']. cbn [fst snd] in *.
  subst c'. auto.
Qed.

Lemma runs_catch_pending {A} (m : B A) (h : string → B A) e :
  runs m e Pending → runs (St_try_catch m h) e Pending.
Proof.
  intros Hm st. destruct (Hm st) as (J & C1 & A1 & S1).
  unfold St_try_catch. destruct (m st) as [st' c']. cbn [fst snd] in *.
  subst c'. auto.
Qed.

End Runs.

(** Runs a sequence of calls whose answers are known, collecting what it
    adds to the journal. *)
Ltac runs_go :=
  cbv beta iota;
  lazymatch goal with
  | |- runs (St_try_catch _ _) _ _ =>
      first [ eapply runs_catch_returned; runs_go
            | eapply runs_catch_pending; runs_go
            | eapply runs_catch_thrown; [runs_go | runs_go] ]
  | |- runs (mbind _ _) _ _ =>
      first [ eapply runs_bind_returned; [runs_go | runs_go]
            | eapply runs_bind_thrown; runs_go
            | eapply runs_bind_pending; runs_go ]
  | |- runs (record _) _ _ => apply runs_record
  | |- runs (AttendanceScheduler.log _ _) _ _ => apply runs_log
  | |- runs (AttendanceScheduler.showNotification _ _ _) _ _ =>
      unfold AttendanceScheduler.showNotification; apply runs_record
  | |- runs (mret _) _ _ => apply runs_ret
  | |- runs (St_throw _) _ _ => apply runs_throw
  | |- runs St_pending _ _ => apply runs_pending
  | |- runs (St_await _) _ _ => apply runs_await
  | |- runs (awaiting _) _ _ => apply runs_awaiting; runs_go
  | |- runs (St_lift (Ok _)) _ _ => apply runs_lift_ok
  | |- runs (St_lift (Throw _)) _ _ => apply runs_lift_throw
  | |- runs (AttendanceScheduler.waitForTabLoad _ _) _ _ =>
      unfold AttendanceScheduler.waitForTabLoad; runs_go
  | |- runs (if ?b then _ else _) _ _ =>
      match goal with H : b = _ |- _ => rewrite H end; runs_go
  | |- runs _ _ _ => eassumption
  end.

Section Senders.
Import AttendanceScheduler.

Lemma firefox_send_runs env tabId type :
  runs (AttendanceSchedulerFirefox.sendAttendanceMessage env tabId type)
    [TabsSendMessage tabId (attendanceRequest type)]
    match tabsSendMessage env tabId (attendanceRequest type) with
    | Returned response =>
        if responseSuccess response then Returned response
        else Thrown ("Failed to send message: " +:+ responseError response "Unknown error")
    | Thrown message => Thrown ("Failed to send message: " +:+ message)
    | Pending => Pending
    end.
Proof.
  unfold AttendanceSchedulerFirefox.sendAttendanceMessage. cbv zeta.
  destruct (tabsSendMessage env tabId (attendanceRequest type)) as [response|message|].
  - destruct (responseSuccess response) eqn:Hs.
    + eapply runs_catch_returned.
      change [TabsSendMessage tabId (attendanceRequest type)]
        with ([TabsSendMessage tabId (attendanceRequest type)] ++ [] ++ []).
      eapply runs_bind_returned; [apply runs_record|].
      eapply runs_bind_returned; [apply runs_await|]. rewrite Hs. apply runs_ret.
    + change [TabsSendMessage tabId (attendanceRequest type)]
        with (([TabsSendMessage tabId (attendanceRequest type)] ++ [] ++ []) ++ []).
      eapply runs_catch_thrown; [|apply runs_throw].
      eapply runs_bind_returned; [apply runs_record|].
      eapply runs_bind_returned; [apply runs_await|]. rewrite Hs. apply runs_throw.
  - change [TabsSendMessage tabId (attendanceRequest type)]
      with (([TabsSendMessage tabId (attendanceRequest type)] ++ []) ++ []).
    eapply runs_catch_thrown; [|apply runs_throw].
    eapply runs_bind_returned; [apply runs_record|].
    eapply runs_bind_thrown. apply runs_await.
  - change [TabsSendMessage tabId (attendanceRequest type)]
      with ([TabsSendMessage tabId (attendanceRequest type)] ++ []).
    eapply runs_catch_pending.
    eapply runs_bind_returned; [apply runs_record|].
    eapply runs_bind_pending. apply runs_await.
Qed.

Lemma chrome_send_runs env tabId type :
  runs (AttendanceSchedulerChrome.sendAttendanceMessage env tabId type)
    [TabsSendMessage tabId (attendanceRequest type)]
    match tabsSendMessage env tabId (attendanceRequest type) with
    | Returned response =>
        if responseSuccess response then Returned response
        else Thrown (responseError response "Unknown error")
    | Thrown message => Thrown message
    | Pending => Pending
    end.
Proof.
  unfold AttendanceSchedulerChrome.sendAttendanceMessage. cbv zeta.
  change [TabsSendMessage tabId (attendanceRequest type)]
    with ([TabsSendMessage tabId (attendanceRequest type)] ++ []).
  eapply runs_bind_returned; [apply runs_record|].
  destruct (tabsSendMessage env tabId (attendanceRequest type)) as [response|message|].
  - destruct (responseSuccess response); [apply runs_ret | apply runs_throw].
  - apply runs_throw.
  - apply runs_pending.
Qed.

End Senders.

Section Firing.
Import AttendanceScheduler.

Variable env : Env.
Variable sendAttendanceMessage : nat → string → B (option Response).
Variable outcome : nat → string → Completion (option Response).
Hypothesis send_runs :
  ∀ tabId type,
    runs (sendAttendanceMessage tabId type)
      [TabsSendMessage tabId (attendanceRequest type)] (outcome tabId type).

Lemma title_not_success type :
  JsString.startsWith
    ("❌ " +:+ (if String.eqb type "checkin" then "Check-in" else "Check-out") +:+ " Failed")
    "✅" = false.
Proof. reflexivity. Qed.

Lemma title_success type :
  JsString.startsWith
    ("✅ " +:+ (if String.eqb type "checkin" then "Checked In" else "Checked Out")) "✅" = true.
Proof. reflexivity. Qed.

Ltac firing_case :=
  eexists; eexists; split;
  [ unfold performScheduledAttendance;
    repeat match goal with
           | H : tabsQuery env = _ |- _ => rewrite H
           | H : tabsCreate env = _ |- _ => rewrite H
           end;
    runs_go
  | ].

Ltac summary_start :=
  unfold firingSummary, consoleLine, requested, notified, showNotification;
  cbn [app List.filter isTabsQuery omap list_omap length fst snd];
  split; [reflexivity|]; split; [cbn; lia|]; split; [repeat constructor|].

Ltac failure_note message :=
  eexists; eexists; split; [reflexivity|]; split;
  [ cbn; destruct message; discriminate
  | cbn [String.eqb Ascii.eqb Bool.eqb andb]; rewrite title_not_success;
    split; [discriminate|] ].

Lemma performScheduledAttendance_summary (type : string) :
  ∃ evs c,
    runs (performScheduledAttendance env sendAttendanceMessage type) evs c ∧
    firingSummary type (fun tabId => ∃ response, outcome tabId type = Returned response)
      evs c.
Proof.
  destruct (tabsQuery env) as [[|tab others]|message] eqn:Hq.
  - destruct (tabsCreate env) as [tab|message] eqn:Hc.
    + destruct (tabLoadCompletes env (id tab)) eqn:Hl.
      * pose proof (send_runs (id tab) type) as Hs.
        destruct (outcome (id tab) type) as [response|message|] eqn:Ho.
        -- firing_case. summary_start.
           eexists; eexists; split; [reflexivity|]. split; [discriminate|].
           cbn [String.eqb Ascii.eqb Bool.eqb andb]. rewrite title_success.
           split; [|reflexivity]. intros _. exists (id tab). eauto.
        -- firing_case. summary_start. failure_note message.
           intros (tabId & [= <-] & r & Hr). congruence.
        -- firing_case. summary_start. reflexivity.
      * firing_case. summary_start. reflexivity.
    + firing_case. summary_start. failure_note message.
      intros (tabId & Hreq & _). discriminate.
  - pose proof (send_runs (id tab) type) as Hs.
    destruct (outcome (id tab) type) as [response|message|] eqn:Ho.
    + firing_case. summary_start.
      eexists; eexists; split; [reflexivity|]. split; [discriminate|].
      cbn [String.eqb Ascii.eqb Bool.eqb andb]. rewrite title_success.
      split; [|reflexivity]. intros _. exists (id tab). eauto.
    + firing_case. summary_start. failure_note message.
      intros (tabId & [= <-] & r & Hr). congruence.
    + firing_case. summary_start. reflexivity.
  - firing_case. summary_start. failure_note message.
    intros (tabId & Hreq & _). discriminate.
Qed.

(** With a Zoho tab open, the firing goes to the first tab returned, as it
    is: the only calls on tabs are the query and the request. *)
Lemma performScheduledAttendance_open_tab (type : string) (tab : Tab) (others : list Tab) :
  tabsQuery env = Ok (tab :: others) →
  ∃ evs c,
    runs (performScheduledAttendance env sendAttendanceMessage type) evs c ∧
    List.filter isTabCall evs = [TabsQuery; TabsSendMessage (id tab) (attendanceRequest type)].
Proof.
  intros Hq. pose proof (send_runs (id tab) type) as Hs.
  destruct (outcome (id tab) type) as [response|message|] eqn:Ho;
    (eexists; eexists; split;
     [unfold performScheduledAttendance; rewrite Hq; runs_go | reflexivity]).
Qed.

(** A tab that was created and never reports complete: the firing waits
    for ever, before any request, log of failure or notification. *)
Lemma performScheduledAttendance_never_loaded (type : string) (tab : Tab) :
  tabsQuery env = Ok [] → tabsCreate env = Ok tab →
  tabLoadCompletes env (id tab) = false →
  runs (performScheduledAttendance env sendAttendanceMessage type)
    [consoleLine env ("🔔 Scheduled " +:+ type +:+ " triggered"); TabsQuery; TabsCreate]
    Pending.
Proof.
  intros Hq Hc Hl.
  eassert (H : runs (performScheduledAttendance env sendAttendanceMessage type) _ _)
    by (unfold performScheduledAttendance; rewrite Hq, Hc; runs_go).
  exact H.
Qed.

End Firing.

Section FiringTheorems.
Import AttendanceScheduler.

Lemma firingSummary_iff type (P Q : nat → Prop) evs c :
  (∀ tabId, P tabId ↔ Q tabId) → firingSummary type P evs c → firingSummary type Q evs c.
Proof.
  intros Hiff (H1 & H2 & H3 & H4). split; [exact H1|]. split; [exact H2|].
  split; [exact H3|]. destruct c as [[]|message|]; [|exact H4|exact H4].
  destruct H4 as (title & message & Hn & Hm & Ht).
  exists title, message. split; [exact Hn|]. split; [exact Hm|].
  rewrite Ht. split; intros (tabId & Hr & Hp); exists tabId; (split; [exact Hr|]);
    apply Hiff; exact Hp.
Qed.

Lemma startsWith_prefix (prefix rest : string) :
  JsString.startsWith (prefix +:+ rest) prefix = true.
Proof.
  induction prefix as [|c prefix IH]; simpl.
  - destruct rest; reflexivity.
  - rewrite Ascii.eqb_refl. exact IH.
Qed.

(** X7. [sendAttendanceMessage] records one request, with action
    "performAttendance" and the given type, and touches neither alarms nor
    settings. In both scripts it returns the response exactly when the
    browser delivered one whose [success] is true, and it waits for ever
    exactly when the browser never answers. A failure is thrown: by the
    Firefox script always with the prefix "Failed to send message: ", by the
    Chrome script as the browser or the receiver worded it. When the
    browser rejects the call, the Chrome script throws the browser's
    message and the Firefox script that message behind the prefix; when
    the receiver answers without success, the Chrome script throws the
    error of the response, or "Unknown error" when the response is
    undefined or carries no error text, and the Firefox script the same
    behind the prefix. *)
Theorem sendAttendanceMessage_outcomes (env : Env) (tabId : nat) (type : string) (st : Browser) :
  let answer := tabsSendMessage env tabId (attendanceRequest type) in
  let firefox := AttendanceSchedulerFirefox.sendAttendanceMessage env tabId type st in
  let chrome := AttendanceSchedulerChrome.sendAttendanceMessage env tabId type st in
  journal firefox.1 =
    journal st ++ [TabsSendMessage tabId {| action := "performAttendance"; type := type |}] ∧
  journal chrome.1 = journal firefox.1 ∧
  alarms firefox.1 = alarms st ∧ alarms chrome.1 = alarms st ∧
  sync firefox.1 = sync st ∧ sync chrome.1 = sync st ∧
  (∀ response, firefox.2 = Returned response ↔
               answer = Returned response ∧ responseSuccess response = true) ∧
  (∀ response, chrome.2 = Returned response ↔ firefox.2 = Returned response) ∧
  (firefox.2 = Pending ↔ answer = Pending) ∧
  (chrome.2 = Pending ↔ answer = Pending) ∧
  (∀ message, firefox.2 = Thrown message →
              JsString.startsWith message "Failed to send message: " = true) ∧
  (∀ message, answer = Thrown message →
              chrome.2 = Thrown message ∧
              firefox.2 = Thrown ("Failed to send message: " +:+ message)) ∧
  (∀ response, answer = Returned response → responseSuccess response = false →
               chrome.2 = Thrown (responseError response "Unknown error") ∧
               firefox.2 = Thrown ("Failed to send message: " +:+
                                   responseError response "Unknown error")) ∧
  responseError None "Unknown error" = "Unknown error" ∧
  (∀ result, responseError (Some (ResponseResult result)) "Unknown error"
             = "Unknown error") ∧
  responseError (Some (ResponseError EmptyString)) "Unknown error" = "Unknown error" ∧
  (∀ c error, responseError (Some (ResponseError (String c error))) "Unknown error"
              = String c error).
Proof.
  intros answer firefox chrome.
  destruct (firefox_send_runs env tabId type st) as (Jf & Cf & Af & Sf).
  destruct (chrome_send_runs env tabId type st) as (Jc & Cc & Ac & Sc).
  fold firefox in Jf, Cf, Af, Sf. fold chrome in Jc, Cc, Ac, Sc. fold answer in Cf, Cc.
  rewrite Jf, Jc, Af, Ac, Sf, Sc, Cf, Cc.
  repeat (split; [reflexivity|]).
  destruct answer as [response|message|]; [destruct (responseSuccess response) eqn:Hs| |];
    repeat split; intros;
    repeat match goal with
           | H : _ ∧ _ |- _ => destruct H
           | H : Returned _ = Returned _ |- _ => injection H as H; subst
           | H : Thrown _ = Thrown _ |- _ => injection H as H; subst
           end;
    try discriminate; try congruence; try reflexivity; auto.
  all: apply startsWith_prefix.
Qed.

Lemma firefox_succeeded env type tabId :
  (∃ response,
     match tabsSendMessage env tabId (attendanceRequest type) with
     | Returned response =>
         if responseSuccess response then Returned response
         else Thrown ("Failed to send message: " +:+ responseError response "Unknown error")
     | Thrown message => Thrown ("Failed to send message: " +:+ message)
     | Pending => Pending
     end = Returned response) ↔ answeredWithSuccess env type tabId.
Proof.
  unfold answeredWithSuccess.
  destruct (tabsSendMessage env tabId (attendanceRequest type)) as [r|m|].
  - destruct (responseSuccess r) eqn:Hs.
    + split; intros _; exists r; auto.
    + split; [intros [? ?]; discriminate | intros (? & [= <-] & ?); congruence].
  - split; [intros [? ?]; discriminate | intros (? & ? & ?); discriminate].
  - split; [intros [? ?]; discriminate | intros (? & ? & ?); discriminate].
Qed.

Lemma chrome_succeeded env type tabId :
  (∃ response,
     match tabsSendMessage env tabId (attendanceRequest type) with
     | Returned response =>
         if responseSuccess response then Returned response
         else Thrown (responseError response "Unknown error")
     | Thrown message => Thrown message
     | Pending => Pending
     end = Returned response) ↔ answeredWithSuccess env type tabId.
Proof.
  unfold answeredWithSuccess.
  destruct (tabsSendMessage env tabId (attendanceRequest type)) as [r|m|].
  - destruct (responseSuccess r) eqn:Hs.
    + split; intros _; exists r; auto.
    + split; [intros [? ?]; discriminate | intros (? & [= <-] & ?); congruence].
  - split; [intros [? ?]; discriminate | intros (? & ? & ?); discriminate].
  - split; [intros [? ?]; discriminate | intros (? & ? & ?); discriminate].
Qed.

(** The [onAlarm] listener of either script leaves the synced settings as
    they are, whatever the alarm and whatever the browser answers. *)
Lemma onAlarm_keeps_settings (env : Env) (name : string) (st : Browser) :
  sync (AttendanceSchedulerFirefox.onAlarm env name st).1 = sync st ∧
  sync (AttendanceSchedulerChrome.onAlarm env name st).1 = sync st.
Proof.
  unfold AttendanceSchedulerFirefox.onAlarm, AttendanceSchedulerChrome.onAlarm, onAlarm.
  split.
  - destruct (String.eqb name "checkin"); [|destruct (String.eqb name "checkout")];
      [| |reflexivity];
      match goal with
      | |- context [performScheduledAttendance env _ ?type] =>
          destruct (performScheduledAttendance_summary env _ _ (firefox_send_runs env) type)
            as (evs & c & Hruns & _);
          destruct (Hruns st) as (_ & _ & _ & S); exact S
      end.
  - destruct (String.eqb name "checkin"); [|destruct (String.eqb name "checkout")];
      [| |reflexivity];
      match goal with
      | |- context [performScheduledAttendance env _ ?type] =>
          destruct (performScheduledAttendance_summary env _ _ (chrome_send_runs env) type)
            as (evs & c & Hruns & _);
          destruct (Hruns st) as (_ & _ & _ & S); exact S
      end.
Qed.

(** After a restart in a browser that kept the alarms, the start-up of
    either script arms both alarms at the next occurrences, whatever the
    browser delivered and whatever the firings did. *)
Lemma startUp_after_delivery (env : Env) (st : Browser) (h1 m1 h2 m2 : nat) :
  autoSchedule (sync st) = Some true →
  default "09:00" (checkinTime (sync st)) = hhmm h1 m1 →
  default "17:30" (checkoutTime (sync st)) = hhmm h2 m2 →
  (h1 < 24)%nat → (m1 < 60)%nat → (h2 < 24)%nat → (m2 < 60)%nat →
  rearmsSchedule (nextOccurrence (locale env) (now env) h1 m1)
    (nextOccurrence (locale env) (now env) h2 m2)
    (delivered env (AttendanceSchedulerFirefox.onAlarm env) true st)
    (startUp env (AttendanceSchedulerFirefox.onAlarm env) true st) ∧
  rearmsSchedule (nextOccurrence (locale env) (now env) h1 m1)
    (nextOccurrence (locale env) (now env) h2 m2)
    (delivered env (AttendanceSchedulerChrome.onAlarm env) true st)
    (startUp env (AttendanceSchedulerChrome.onAlarm env) true st).
Proof.
  intros Hauto Hin Hout Hh1 Hm1 Hh2 Hm2. unfold startUp.
  split; apply init_enabled; try assumption;
    unfold delivered; rewrite !deliverDue_sync; try assumption;
    intros n st'; apply onAlarm_keeps_settings.
Qed.

(** X8. One scheduled firing, in either script and whatever the browser
    answers, makes exactly one tab query, sends at most one request (for
    the type that fired) and never throws. When it returns it has shown
    exactly one notification, with a non-empty message, and the
    notification is the success one exactly when a request was sent and
    answered with [success] true; while it waits it has shown none. *)
Theorem scheduled_firing_summary (env : Env) (type : string) (st : Browser) :
  (∃ evs,
     journal (AttendanceSchedulerFirefox.performScheduledAttendance env type st).1
       = journal st ++ evs ∧
     firingSummary type (answeredWithSuccess env type) evs
       (AttendanceSchedulerFirefox.performScheduledAttendance env type st).2) ∧
  (∃ evs,
     journal (AttendanceSchedulerChrome.performScheduledAttendance env type st).1
       = journal st ++ evs ∧
     firingSummary type (answeredWithSuccess env type) evs
       (AttendanceSchedulerChrome.performScheduledAttendance env type st).2).
Proof.
  split.
  - destruct (performScheduledAttendance_summary env _ _ (firefox_send_runs env) type)
      as (evs & c & Hruns & Hsum).
    destruct (Hruns st) as (J & C & _ & _). exists evs.
    unfold AttendanceSchedulerFirefox.performScheduledAttendance. rewrite C.
    split; [exact J|].
    eapply firingSummary_iff; [|exact Hsum]. intros tabId. apply firefox_succeeded.
  - destruct (performScheduledAttendance_summary env _ _ (chrome_send_runs env) type)
      as (evs & c & Hruns & Hsum).
    destruct (Hruns st) as (J & C & _ & _). exists evs.
    unfold AttendanceSchedulerChrome.performScheduledAttendance. rewrite C.
    split; [exact J|].
    eapply firingSummary_iff; [|exact Hsum]. intros tabId. apply chrome_succeeded.
Qed.

(** X9. When a Zoho People tab is open, a scheduled firing uses the first
    tab the query returns, as it is: it creates no tab and awaits no load,
    and its only calls on tabs are the query and one request to that tab. *)
Theorem scheduled_firing_uses_open_tab
    (env : Env) (type : string) (st : Browser) (tab : Tab) (others : list Tab) :
  tabsQuery env = Ok (tab :: others) →
  (∃ evs,
     journal (AttendanceSchedulerFirefox.performScheduledAttendance env type st).1
       = journal st ++ evs ∧
     List.filter isTabCall evs =
       [TabsQuery; TabsSendMessage (id tab) {| action := "performAttendance"; type := type |}]) ∧
  (∃ evs,
     journal (AttendanceSchedulerChrome.performScheduledAttendance env type st).1
       = journal st ++ evs ∧
     List.filter isTabCall evs =
       [TabsQuery; TabsSendMessage (id tab) {| action := "performAttendance"; type := type |}]).
Proof.
  intros Hq. split.
  - destruct (performScheduledAttendance_open_tab env _ _ (firefox_send_runs env)
                type tab others Hq) as (evs & c & Hruns & Hf).
    destruct (Hruns st) as (J & _). exists evs. split; [exact J | exact Hf].
  - destruct (performScheduledAttendance_open_tab env _ _ (chrome_send_runs env)
                type tab others Hq) as (evs & c & Hruns & Hf).
    destruct (Hruns st) as (J & _). exists evs. split; [exact J | exact Hf].
Qed.

(** X10. When no Zoho tab is open and the tab the firing creates never
    reports [complete], the firing waits for ever: after the trigger line,
    the query and the creation it sends no request, logs no failure and
    shows no notification; this holds whatever [sendAttendanceMessage]
    would do. *)
Theorem scheduled_firing_waits_for_load
    (env : Env) (send : nat → string → B (option Response))
    (type : string) (st : Browser) (tab : Tab) :
  tabsQuery env = Ok [] → tabsCreate env = Ok tab →
  tabLoadCompletes env (id tab) = false →
  let fired := performScheduledAttendance env send type st in
  fired.2 = Pending ∧
  journal fired.1 =
    journal st ++
    [consoleLine env ("🔔 Scheduled " +:+ type +:+ " triggered"); TabsQuery; TabsCreate] ∧
  alarms fired.1 = alarms st.
Proof.
  intros Hq Hc Hl fired.
  destruct (performScheduledAttendance_never_loaded env send type tab Hq Hc Hl st)
    as (J & C & A & _).
  auto.
Qed.

Lemma scheduled_firing_uses_open_tab_witness :
  tabsQuery openTabEnv
    = Ok [ {| id := 7%nat; url := Some "https://people.zoho.com/home" |};
           {| id := 9%nat; url := Some "https://people.zoho.com/leave" |} ] ∧
  ∃ evs,
    journal (AttendanceSchedulerFirefox.performScheduledAttendance openTabEnv "checkin"
               restartedBrowser).1 = journal restartedBrowser ++ evs ∧
    List.filter isTabCall evs =
      [TabsQuery; TabsSendMessage 7 {| action := "performAttendance"; type := "checkin" |}].
Proof.
  split; [reflexivity|].
  exact (proj1 (scheduled_firing_uses_open_tab openTabEnv "checkin" restartedBrowser
                  _ _ eq_refl)).
Defined.

Lemma scheduled_firing_waits_for_load_witness :
  tabLoadCompletes stuckTabEnv 5 = false ∧
  (AttendanceSchedulerFirefox.performScheduledAttendance stuckTabEnv "checkout"
     restartedBrowser).2 = Pending ∧
  notified (journal (AttendanceSchedulerFirefox.performScheduledAttendance stuckTabEnv
                       "checkout" restartedBrowser).1) = [].
Proof.
  split; [reflexivity|].
  pose proof (scheduled_firing_waits_for_load stuckTabEnv
                (AttendanceSchedulerFirefox.sendAttendanceMessage stuckTabEnv)
                "checkout" restartedBrowser _ eq_refl eq_refl eq_refl) as (Hp & Hj & _).
  split; [exact Hp|].
  unfold AttendanceSchedulerFirefox.performScheduledAttendance. rewrite Hj. reflexivity.
Defined.

(** The answer "found nothing" of the page reaches the user as the failure
    notification, with the Firefox prefix. *)
Example scenario_not_found_notified :
  notified (journal (AttendanceSchedulerFirefox.performScheduledAttendance openTabEnv
                       "checkin" restartedBrowser).1)
  = [("❌ Check-in Failed",
      "Failed to send message: Could not find checkin button on this page")].
Proof. vm_compute. reflexivity. Qed.

End FiringTheorems.

(** One step of a sequence of calls on the browser state. *)
Ltac st_next :=
  erewrite bind_run by
    first [ apply alarmsClear_run | apply alarmsCreate_run | apply log_run
          | apply record_run ];
  cbn [fst snd sync alarms logs turnLogs journal].

Section Schedule.
Import JsDate AttendanceScheduler.

Lemma updateSync_run (f : Settings → Settings) (st : Browser) :
  updateSync f st =
    ({| sync := f (sync st); alarms := alarms st; logs := logs st;
        turnLogs := turnLogs st; journal := journal st |},
     Returned tt).
Proof. reflexivity. Qed.

Lemma getSync_run (st : Browser) : getSync st = (st, Returned (sync st)).
Proof. reflexivity. Qed.

Lemma bind_stops {S A C} (m : St S A) (k : A → St S C) (st st' : S) message :
  m st = (st', Thrown message) → (m ≫= k) st = (st', Thrown message).
Proof. intros H. unfold mbind, St_mbind, St_bind. rewrite H. reflexivity. Qed.

Lemma clearSchedule_run (env : Env) (st : Browser) :
  clearSchedule env st =
    ({| sync := sync st;
        alarms := delete "checkout" (delete "checkin" (alarms st));
        logs := logged env "Schedule cleared" (turnLogs st);
        turnLogs := turnLogs st;
        journal := journal st ++
                   [AlarmsClear "checkin"; AlarmsClear "checkout";
                    consoleLine env "Schedule cleared"] |},
     Returned tt).
Proof.
  unfold clearSchedule. repeat st_next. rewrite log_run.
  cbn [fst snd sync alarms logs turnLogs journal]. rewrite <- !app_assoc. reflexivity.
Qed.

(** [setupSchedule] with two well-formed times. *)
Lemma setupSchedule_run (env : Env) (st : Browser) (h1 m1 h2 m2 : nat) :
  (h1 < 24)%nat → (m1 < 60)%nat → (h2 < 24)%nat → (m2 < 60)%nat →
  ∃ logs' lines,
    setupSchedule env (Some (hhmm h1 m1)) (Some (hhmm h2 m2)) st =
      ({| sync := sync st;
          alarms := rearmed (nextOccurrence (locale env) (now env) h1 m1)
                      (nextOccurrence (locale env) (now env) h2 m2) (alarms st);
          logs := logs';
          turnLogs := turnLogs st;
          journal := journal st ++ lines |}, Returned tt) ∧
    alarmCalls lines =
      [ AlarmsClear "checkin"; AlarmsClear "checkout";
        AlarmsCreate "checkin" (dailyAlarm (nextOccurrence (locale env) (now env) h1 m1));
        AlarmsCreate "checkout" (dailyAlarm (nextOccurrence (locale env) (now env) h2 m2)) ] ∧
    firingCalls lines = [].
Proof.
  intros Hh1 Hm1 Hh2 Hm2. unfold setupSchedule.
  rewrite !createDailyAlarm_eq by assumption.
  erewrite bind_run by apply clearSchedule_run.
  repeat st_next. rewrite log_run. cbn [fst snd sync alarms logs turnLogs journal].
  rewrite <- !app_assoc. cbn [app].
  eexists; eexists. split; [reflexivity|]. split; reflexivity.
Qed.

(** [setupSchedule] when the check-in time is undefined: the schedule is
    cleared, then [split] throws. *)
Lemma setupSchedule_unset_checkin (env : Env) (st : Browser) (checkoutTime : option string) :
  setupSchedule env None checkoutTime st =
    ((clearSchedule env st).1, Thrown "time is undefined").
Proof.
  unfold setupSchedule. erewrite bind_run by apply clearSchedule_run.
  rewrite clearSchedule_run. reflexivity.
Qed.

Lemma toggle_prefix_run (enabled : bool) (st : Browser) {C} (k : B C) :
  (awaiting
     (record (StorageSyncSet "autoSchedule") ;;
      updateSync (fun s => {| autoSchedule := Some enabled;
                              checkinTime := checkinTime s;
                              checkoutTime := checkoutTime s |})) ;; k) st =
  k {| sync := {| autoSchedule := Some enabled;
                  checkinTime := checkinTime (sync st);
                  checkoutTime := checkoutTime (sync st) |};
       alarms := alarms st; logs := logs st; turnLogs := logs st;
       journal := journal st ++ [StorageSyncSet "autoSchedule"] |}.
Proof. reflexivity. Qed.


Lemma rearmed_lookups (a b : Z) (m : gmap string Alarm) :
  rearmed a b m !! "checkin" = Some (dailyAlarm a) ∧
  rearmed a b m !! "checkout" = Some (dailyAlarm b) ∧
  ∀ name, name ≠ "checkin" → name ≠ "checkout" → rearmed a b m !! name = m !! name.
Proof.
  unfold rearmed. split; [|split].
  - rewrite lookup_insert_ne by discriminate. apply lookup_insert_eq.
  - apply lookup_insert_eq.
  - intros name H1 H2.
    rewrite !lookup_insert_ne, !lookup_delete_ne by congruence. reflexivity.
Qed.

Lemma rearmed_again (a b : Z) (m : gmap string Alarm) :
  rearmed a b (rearmed a b m) = rearmed a b m.
Proof.
  apply map_eq. intros name.
  destruct (rearmed_lookups a b m) as (H1 & H2 & H3).
  destruct (rearmed_lookups a b (rearmed a b m)) as (G1 & G2 & G3).
  destruct (decide (name = "checkin")) as [->|N1]; [congruence|].
  destruct (decide (name = "checkout")) as [->|N2]; [congruence|].
  rewrite G3 by assumption. reflexivity.
Qed.

Lemma cleared_lookups (m : gmap string Alarm) :
  delete "checkout" (delete "checkin" m) !! "checkin" = None ∧
  delete "checkout" (delete "checkin" m) !! "checkout" = None ∧
  ∀ name, name ≠ "checkin" → name ≠ "checkout" →
          delete "checkout" (delete "checkin" m) !! name = m !! name.
Proof.
  split; [|split].
  - rewrite lookup_delete_ne by discriminate. apply lookup_delete_eq.
  - apply lookup_delete_eq.
  - intros name H1 H2. rewrite !lookup_delete_ne by congruence. reflexivity.
Qed.

Lemma toggle_off_run (env : Env) (st : Browser) :
  ∃ logs',
    toggleAutoSchedule env false st =
      ({| sync := {| autoSchedule := Some false;
                     checkinTime := checkinTime (sync st);
                     checkoutTime := checkoutTime (sync st) |};
          alarms := delete "checkout" (delete "checkin" (alarms st));
          logs := logs';
          turnLogs := logs st;
          journal := journal st ++
                     [StorageSyncSet "autoSchedule";
                      AlarmsClear "checkin"; AlarmsClear "checkout";
                      consoleLine env "Schedule cleared";
                      consoleLine env "Auto-schedule disabled"] |},
       Returned tt).
Proof.
  unfold toggleAutoSchedule. rewrite toggle_prefix_run.
  erewrite bind_run by apply (clearSchedule_run env).
  rewrite (log_run env). cbn [fst snd sync alarms logs turnLogs journal].
  rewrite <- !app_assoc. cbn [app]. eexists. reflexivity.
Qed.

Lemma toggle_on_run (env : Env) (st : Browser) (h1 m1 h2 m2 : nat) :
  checkinTime (sync st) = Some (hhmm h1 m1) →
  checkoutTime (sync st) = Some (hhmm h2 m2) →
  (h1 < 24)%nat → (m1 < 60)%nat → (h2 < 24)%nat → (m2 < 60)%nat →
  ∃ logs' lines,
    toggleAutoSchedule env true st =
      ({| sync := {| autoSchedule := Some true;
                     checkinTime := Some (hhmm h1 m1);
                     checkoutTime := Some (hhmm h2 m2) |};
          alarms := rearmed (nextOccurrence (locale env) (now env) h1 m1)
                      (nextOccurrence (locale env) (now env) h2 m2) (alarms st);
          logs := logs';
          turnLogs := logs st;
          journal := journal st ++ lines |}, Returned tt) ∧
    firingCalls lines = [].
Proof.
  intros Hin Hout Hh1 Hm1 Hh2 Hm2.
  unfold toggleAutoSchedule. rewrite toggle_prefix_run.
  set (st1 := {| sync := _; alarms := alarms st; logs := logs st; turnLogs := _;
                 journal := _ |}).
  destruct (setupSchedule_run env st1 h1 m1 h2 m2 Hh1 Hm1 Hh2 Hm2)
    as (logs1 & lines & Hrun & _ & Hf).
  assert (Hget : (settings ← awaiting getSync ;
                  setupSchedule env (checkinTime settings) (checkoutTime settings)) st1
               = setupSchedule env (Some (hhmm h1 m1)) (Some (hhmm h2 m2)) st1).
  { erewrite bind_run by reflexivity. subst st1.
    cbn [sync checkinTime checkoutTime nextTurn alarms logs turnLogs journal].
    rewrite Hin, Hout. reflexivity. }
  erewrite bind_run by (rewrite Hget; exact Hrun).
  rewrite log_run. subst st1. cbn [fst snd sync alarms logs turnLogs journal].
  rewrite Hin, Hout, <- !app_assoc.
  eexists; eexists. split; [reflexivity|].
  rewrite !firingCalls_app, Hf. reflexivity.
Qed.

End Schedule.

Section ScheduleTheorems.
Import JsDate AttendanceScheduler.

(** X11. Switching the schedule off stores [autoSchedule] false and keeps
    the stored times, removes the check-in and the check-out alarm and no
    other, fires nothing, and a start-up afterwards does not touch the
    browser. *)
Theorem toggleAutoSchedule_disable (env : Env) (st : Browser) :
  let off := toggleAutoSchedule env false st in
  off.2 = Returned tt ∧
  sync off.1 = {| autoSchedule := Some false;
                  checkinTime := checkinTime (sync st);
                  checkoutTime := checkoutTime (sync st) |} ∧
  alarms off.1 !! "checkin" = None ∧
  alarms off.1 !! "checkout" = None ∧
  (∀ name, name ≠ "checkin" → name ≠ "checkout" →
           alarms off.1 !! name = alarms st !! name) ∧
  alarmCalls (journal off.1) =
    alarmCalls (journal st) ++ [AlarmsClear "checkin"; AlarmsClear "checkout"] ∧
  firingCalls (journal off.1) = firingCalls (journal st) ∧
  init env off.1 = (nextTurn off.1, Returned tt).
Proof.
  destruct (toggle_off_run env st) as (logs' & Hrun). cbv zeta. rewrite Hrun.
  cbn [fst snd sync alarms journal].
  destruct (cleared_lookups (alarms st)) as (H1 & H2 & H3).
  split_and!; try assumption; try reflexivity.
  - rewrite alarmCalls_app. reflexivity.
  - rewrite firingCalls_app. apply app_nil_r.
Qed.

(** X12. Switching the schedule on while no check-in time is stored ends
    in an exception, after [autoSchedule] true was stored and the old
    alarms were removed: the schedule is enabled in the settings with no
    alarm armed, and the enabling is not logged. When no check-out time is
    stored either, the next start-up arms both alarms, at the default
    times. *)
Theorem toggleAutoSchedule_without_times (env : Env) (st : Browser) :
  checkinTime (sync st) = None →
  let on := toggleAutoSchedule env true st in
  (∃ message, on.2 = Thrown message) ∧
  autoSchedule (sync on.1) = Some true ∧
  alarms on.1 !! "checkin" = None ∧
  alarms on.1 !! "checkout" = None ∧
  logs on.1 = logged env "Schedule cleared" (logs st) ∧
  firingCalls (journal on.1) = firingCalls (journal st) ∧
  (checkoutTime (sync st) = None →
   alarms (init env on.1).1 =
     rearmed (nextOccurrence (locale env) (now env) 9 0)
       (nextOccurrence (locale env) (now env) 17 30) (alarms st)).
Proof.
  intros Hin. cbv zeta. unfold toggleAutoSchedule. rewrite toggle_prefix_run.
  set (st1 := {| sync := _; alarms := alarms st; logs := logs st; turnLogs := _;
                 journal := _ |}).
  assert (Hget : (settings ← awaiting getSync ;
                  setupSchedule env (checkinTime settings) (checkoutTime settings)) st1
               = ((clearSchedule env st1).1, Thrown "time is undefined")).
  { erewrite bind_run by reflexivity. subst st1.
    cbn [sync checkinTime checkoutTime nextTurn alarms logs turnLogs journal].
    rewrite Hin. apply setupSchedule_unset_checkin. }
  erewrite bind_stops by exact Hget.
  rewrite (clearSchedule_run env st1). subst st1.
  cbn [fst snd sync alarms logs turnLogs journal autoSchedule].
  destruct (cleared_lookups (alarms st)) as (H1 & H2 & _).
  split; [eauto|]. split_and!; try assumption; try reflexivity.
  - rewrite <- app_assoc, firingCalls_app. apply app_nil_r.
  - intros Hout.
    set (st2 := {| sync := _; alarms := _; logs := _; turnLogs := _; journal := _ |}).
    unfold init. rewrite loadSettings_enabled by reflexivity.
    subst st2. cbn [sync checkinTime checkoutTime]. rewrite Hin, Hout.
    cbn [default].
    set (st2 := nextTurn _).
    destruct (setupSchedule_run env st2 9 0 17 30) as (logs' & lines & Hrun & _);
      [lia..|].
    change (hhmm 9 0) with "09:00" in Hrun. change (hhmm 17 30) with "17:30" in Hrun.
    rewrite Hrun. subst st2. cbn [fst alarms nextTurn].
    apply map_eq. intros name.
    destruct (rearmed_lookups (nextOccurrence (locale env) (now env) 9 0)
                (nextOccurrence (locale env) (now env) 17 30) (alarms st))
      as (G1 & G2 & G3).
    destruct (rearmed_lookups (nextOccurrence (locale env) (now env) 9 0)
                (nextOccurrence (locale env) (now env) 17 30)
                (delete "checkout" (delete "checkin" (alarms st))))
      as (K1 & K2 & K3).
    destruct (cleared_lookups (alarms st)) as (_ & _ & D3).
    destruct (decide (name = "checkin")) as [->|N1]; [congruence|].
    destruct (decide (name = "checkout")) as [->|N2]; [congruence|].
    rewrite K3, G3, D3 by assumption. reflexivity.
Qed.

Lemma toggleAutoSchedule_without_times_witness :
  alarms (toggleAutoSchedule sampleEnv true unsetBrowser).1 !! "checkin" = None.
Proof.
  apply (toggleAutoSchedule_without_times sampleEnv unsetBrowser). reflexivity.
Defined.


(** In Central European time on 26 October 2024 at 10:00, the day before
    the clock goes back, with check-in at 09:00 and check-out at 17:30:
    the check-out is armed for today, the check-in for 09:00 tomorrow,
    25 hours after today's. *)
Example toggleAutoSchedule_enable_across_clock_change :
  let on := toggleAutoSchedule (berlinEnv 1729929600000) true restartedBrowser in
  alarms on.1 !! "checkin" = Some (dailyAlarm 1730016000000) ∧
  alarms on.1 !! "checkout" = Some (dailyAlarm 1729956600000) ∧
  1730016000000 = 1729929600000 + 24 * 3600000.
Proof. split_and!; vm_compute; reflexivity. Qed.


End ScheduleTheorems.

Section Instances.
Import JsDate AttendanceScheduler BackgroundScript.

Lemma handleInstallation_run (env : Env) (st : Browser) :
  handleInstallation env st =
    ({| sync := installedSettings; alarms := alarms st;
        logs := logged env "🚀 Zoho Attendance Helper installed" (logs st);
        turnLogs := logs st;
        journal := journal st ++
                   [StorageSyncSet "autoSchedule,checkinTime,checkoutTime,timezone";
                    consoleLine env "🚀 Zoho Attendance Helper installed";
                    NotificationsCreate "🕐 Zoho Attendance Helper"
                      "Extension installed! Click the icon to get started."] |},
     Returned tt).
Proof.
  unfold handleInstallation.
  change (handleInstallation env st) with
    ((awaiting
        (record (StorageSyncSet "autoSchedule,checkinTime,checkoutTime,timezone") ;;
         updateSync (fun _ => installedSettings)) ;;
      log env "🚀 Zoho Attendance Helper installed" ;;
      record (NotificationsCreate "🕐 Zoho Attendance Helper"
                "Extension installed! Click the icon to get started.")) st).
  erewrite bind_run by reflexivity.
  erewrite bind_run by apply (log_run env).
  rewrite record_run. cbn [fst snd sync alarms logs turnLogs journal nextTurn].
  rewrite <- !app_assoc. reflexivity.
Qed.

Lemma notified_app (j1 j2 : list BgEvent) :
  notified (j1 ++ j2) = notified j1 ++ notified j2.
Proof. apply omap_app. Qed.

Lemma requested_app (j1 j2 : list BgEvent) :
  requested (j1 ++ j2) = requested j1 ++ requested j2.
Proof. apply omap_app. Qed.

Lemma requested_tab_calls (evs : list BgEvent) :
  requested (List.filter isTabCall evs) = requested evs.
Proof.
  induction evs as [|ev evs IH]; [reflexivity|].
  destruct ev; cbn [List.filter isTabCall]; unfold requested in *;
    cbn [omap list_omap]; rewrite ?IH; reflexivity.
Qed.

(** X14. Installation stores the schedule as disabled with the times
    09:00 and 17:30 whatever was stored before, shows one notification,
    and touches no alarm. A start-up afterwards changes nothing, and
    switching the schedule on arms the two alarms at the next 09:00 and the
    next 17:30. *)
Theorem handleInstallation_defaults (env : Env) (st : Browser) :
  let installed := handleInstallation env st in
  installed.2 = Returned tt ∧
  sync installed.1 = installedSettings ∧
  alarms installed.1 = alarms st ∧
  notified (journal installed.1) =
    notified (journal st) ++
    [("🕐 Zoho Attendance Helper", "Extension installed! Click the icon to get started.")] ∧
  init env installed.1 = (nextTurn installed.1, Returned tt) ∧
  (toggleAutoSchedule env true installed.1).2 = Returned tt ∧
  alarms (toggleAutoSchedule env true installed.1).1 =
    rearmed (nextOccurrence (locale env) (now env) 9 0)
      (nextOccurrence (locale env) (now env) 17 30) (alarms st).
Proof.
  cbv zeta. rewrite handleInstallation_run. cbn [fst snd sync alarms journal].
  set (st1 := {| sync := installedSettings; alarms := _; logs := _; turnLogs := _;
                 journal := _ |}).
  destruct (toggle_on_run env st1 9 0 17 30) as (logs' & lines & Hrun & _);
    [reflexivity | reflexivity | lia.. |].
  rewrite Hrun. subst st1. cbn [fst snd alarms].
  split_and!; try reflexivity.
  rewrite notified_app. reflexivity.
Qed.

Lemma construct_enabled (env : Env) (bg : Background) (h1 m1 h2 m2 : nat) :
  autoSchedule (sync (browser bg)) = Some true →
  checkinTime (sync (browser bg)) = Some (hhmm h1 m1) →
  checkoutTime (sync (browser bg)) = Some (hhmm h2 m2) →
  (h1 < 24)%nat → (m1 < 60)%nat → (h2 < 24)%nat → (m2 < 60)%nat →
  schedulers (construct env bg) = S (schedulers bg) ∧
  sync (browser (construct env bg)) = sync (browser bg) ∧
  alarms (browser (construct env bg)) =
    rearmed (nextOccurrence (locale env) (now env) h1 m1)
      (nextOccurrence (locale env) (now env) h2 m2) (alarms (browser bg)).
Proof.
  intros Hon Hin Hout Hh1 Hm1 Hh2 Hm2. unfold construct, init.
  cbn [schedulers browser].
  rewrite loadSettings_enabled by assumption. rewrite Hin, Hout.
  unfold default. cbn [from_option]. unfold Datatypes.id.
  destruct (setupSchedule_run env (nextTurn (browser bg)) h1 m1 h2 m2 Hh1 Hm1 Hh2 Hm2)
    as (logs' & lines & Hrun & _).
  rewrite Hrun. split_and!; reflexivity.
Qed.

(** X15. Installing while the synced settings already hold an enabled
    schedule: the scheduler constructed by the [onInstalled] listener reads
    the stored settings and arms both alarms at the stored times, then the
    installation overwrites the settings. The schedule ends up stored as
    disabled, with the default times, while both alarms stay armed at the
    old times. *)
Theorem onInstalled_keeps_armed_alarms
    (env : Env) (bg : Background) (h1 m1 h2 m2 : nat) :
  autoSchedule (sync (browser bg)) = Some true →
  checkinTime (sync (browser bg)) = Some (hhmm h1 m1) →
  checkoutTime (sync (browser bg)) = Some (hhmm h2 m2) →
  (h1 < 24)%nat → (m1 < 60)%nat → (h2 < 24)%nat → (m2 < 60)%nat →
  let installed := browser (onInstalled env "install" bg) in
  sync installed = installedSettings ∧
  alarms installed !! "checkin" =
    Some (dailyAlarm (nextOccurrence (locale env) (now env) h1 m1)) ∧
  alarms installed !! "checkout" =
    Some (dailyAlarm (nextOccurrence (locale env) (now env) h2 m2)) ∧
  schedulers (onInstalled env "install" bg) = S (schedulers bg).
Proof.
  intros Hon Hin Hout Hh1 Hm1 Hh2 Hm2.
  destruct (construct_enabled env bg h1 m1 h2 m2 Hon Hin Hout Hh1 Hm1 Hh2 Hm2)
    as (Hn & _ & Ha).
  cbv zeta. unfold onInstalled. cbn [String.eqb Ascii.eqb Bool.eqb].
  cbn [schedulers browser]. rewrite handleInstallation_run. cbn [fst sync alarms].
  rewrite Ha.
  destruct (rearmed_lookups (nextOccurrence (locale env) (now env) h1 m1)
              (nextOccurrence (locale env) (now env) h2 m2) (alarms (browser bg)))
    as (G1 & G2 & _).
  split_and!; try assumption; reflexivity.
Qed.

Lemma onInstalled_keeps_armed_alarms_witness :
  sync (browser (onInstalled sampleEnv "install"
                   {| schedulers := 1; browser := restartedBrowser |}))
    = installedSettings.
Proof.
  apply (onInstalled_keeps_armed_alarms sampleEnv
           {| schedulers := 1; browser := restartedBrowser |} 9 0 17 30);
    first [reflexivity | lia].
Defined.

Section Listeners.

Variable env : Env.
Variable sendAttendanceMessage : nat → string → B (option Response).
Variable outcome : nat → string → Completion (option Response).
Hypothesis send_runs :
  ∀ tabId type,
    runs (sendAttendanceMessage tabId type)
      [TabsSendMessage tabId (attendanceRequest type)] (outcome tabId type).

Lemma onAlarm_open_tab (name : string) (tab : Tab) (others : list Tab) (st : Browser) :
  name = "checkin" ∨ name = "checkout" →
  tabsQuery env = Ok (tab :: others) →
  requested (journal (onAlarm env sendAttendanceMessage name st).1) =
    requested (journal st) ++ [(id tab, attendanceRequest name)] ∧
  alarms (onAlarm env sendAttendanceMessage name st).1 = alarms st.
Proof.
  intros Hname Hq.
  assert (Hon : onAlarm env sendAttendanceMessage name =
                performScheduledAttendance env sendAttendanceMessage name).
  { destruct Hname as [-> | ->]; reflexivity. }
  rewrite Hon.
  destruct (performScheduledAttendance_open_tab env _ _ send_runs name tab others Hq)
    as (evs & c & Hruns & Hf).
  destruct (Hruns st) as (J & _ & A & _). rewrite J, A. split; [|reflexivity].
  rewrite requested_app, <- (requested_tab_calls evs), Hf. reflexivity.
Qed.

Lemma listeners_open_tab (name : string) (tab : Tab) (others : list Tab) (n : nat)
    (st : Browser) :
  name = "checkin" ∨ name = "checkout" →
  tabsQuery env = Ok (tab :: others) →
  requested (journal (Nat.iter n
                        (fun st => (onAlarm env sendAttendanceMessage name st).1) st)) =
    requested (journal st) ++ repeat (id tab, attendanceRequest name) n.
Proof.
  intros Hname Hq. induction n as [|n IH].
  - cbn [Nat.iter nat_rect repeat]. symmetry. apply app_nil_r.
  - rewrite Nat.iter_succ.
    destruct (onAlarm_open_tab name tab others
                (Nat.iter n (fun st => (onAlarm env sendAttendanceMessage name st).1) st)
                Hname Hq) as (Hr & _).
    rewrite Hr, IH, <- app_assoc. f_equal.
    change (repeat (id tab, attendanceRequest name) (S n)) with
      ([(id tab, attendanceRequest name)] ++ repeat (id tab, attendanceRequest name) n).
    symmetry. apply repeat_cons.
Qed.

End Listeners.

(** X16. Every scheduler constructed in the background context registers
    its own alarm listener, and the script constructs one when it is loaded
    and one more in each [onStartup] and [onInstalled] listener: after a
    browser start there are two. When an alarm of the schedule fires while
    a Zoho People tab is open, each of them sends the attendance request to
    that tab: the page receives it once per scheduler. *)
Theorem alarm_reaches_every_scheduler
    (env : Env) (send : nat → string → B (option Response))
    (name : string) (alarm : Alarm) (bg : Background) (tab : Tab) (others : list Tab) :
  send = AttendanceSchedulerFirefox.sendAttendanceMessage env ∨
  send = AttendanceSchedulerChrome.sendAttendanceMessage env →
  name = "checkin" ∨ name = "checkout" →
  alarms (browser bg) !! name = Some alarm →
  tabsQuery env = Ok (tab :: others) →
  requested (journal (browser (alarmDispatched env send name bg))) =
    requested (journal (browser bg)) ++
    repeat (id tab, {| action := "performAttendance"; type := name |}) (schedulers bg) ∧
  (∀ st, schedulers (onStartup env (scriptLoaded env st)) = 2%nat) ∧
  (∀ st reason, schedulers (onInstalled env reason (scriptLoaded env st)) = 2%nat).
Proof.
  intros Hsend Hname Halarm Hq. split; [|split].
  - unfold alarmDispatched. rewrite Halarm. cbn [browser].
    destruct Hsend as [-> | ->].
    + rewrite (listeners_open_tab env _ _ (firefox_send_runs env) name tab others
                 _ _ Hname Hq).
      reflexivity.
    + rewrite (listeners_open_tab env _ _ (chrome_send_runs env) name tab others
                 _ _ Hname Hq).
      reflexivity.
  - reflexivity.
  - intros st reason. unfold onInstalled.
    destruct (String.eqb reason "install"); reflexivity.
Qed.

Lemma alarm_reaches_every_scheduler_witness :
  requested (journal (browser
    (alarmDispatched openTabEnv (AttendanceSchedulerFirefox.sendAttendanceMessage openTabEnv)
       "checkin" {| schedulers := 2; browser := restartedBrowser |}))) =
  [(7%nat, {| action := "performAttendance"; type := "checkin" |});
   (7%nat, {| action := "performAttendance"; type := "checkin" |})].
Proof.
  apply (alarm_reaches_every_scheduler openTabEnv _ "checkin"
           (dailyAlarm (tenOClock - 3600000))
           {| schedulers := 2; browser := restartedBrowser |}
           {| id := 7%nat; url := Some "https://people.zoho.com/home" |}
           [ {| id := 9%nat; url := Some "https://people.zoho.com/leave" |} ]).
  - left. reflexivity.
  - left. reflexivity.
  - vm_compute. reflexivity.
  - reflexivity.
Defined.

End Instances.

Section ManualTrigger.
Import AttendancePopup.

Lemma popupNotifications_app (l1 l2 : list PopupEvent) :
  popupNotifications (l1 ++ l2) = popupNotifications l1 ++ popupNotifications l2.
Proof. apply omap_app. Qed.

Lemma popupRequests_app (l1 l2 : list PopupEvent) :
  popupRequests (l1 ++ l2) = popupRequests l1 ++ popupRequests l2.
Proof. apply omap_app. Qed.

(** The run of the trigger once the request was sent to the first tab and
    answered. *)
Lemma performAttendanceAction_answered
    (env : PopupEnv) (action : string) (st : Popup)
    (tab : Tab) (others : list Tab) (tabUrl : string) (response : option Response) :
  activeTabs env = Ok (tab :: others) →
  url tab = Some tabUrl →
  JsString.includes tabUrl "people.zoho.com" = true →
  popupSendMessage env (id tab) {| action := "performAttendance"; type := action |}
    = Returned response →
  let run := performAttendanceAction env action st in
  let button := buttonOf action in
  run.2 = Returned tt ∧
  calls run.1 =
    calls st ++ locked button ++
    [UpdateLogs; PopupTabsQuery;
     PopupTabsSendMessage (id tab) {| action := "performAttendance"; type := action |};
     UpdateLogs] ++
    (if AttendanceScheduler.responseSuccess response then
       [UpdateStatus "success"; ClassListAdd button "success-flash";
        PopupNotification (action +:+ " completed successfully") "success"]
     else
       [ClassListAdd button "error-flash";
        PopupNotification
          (action +:+ " failed: " +:+
           AttendanceScheduler.responseError response "Unknown error occurred") "error"])
    ++ unlocked button.
Proof.
  intros Htabs Hurl Hinc Hsend run button. subst run button. unfold buttonOf.
  run_popup. rewrite Htabs. cbn. rewrite Hurl. cbn. rewrite Hinc. cbn.
  rewrite Hsend. cbn.
  destruct (AttendanceScheduler.responseSuccess response); cbn;
    (split; [reflexivity|]); rewrite <- !app_assoc; reflexivity.
Qed.

(** X17. The manual trigger never throws. Whenever it completes, it has
    locked the button first and unlocked it last, shown exactly one
    notification and sent at most one request. It stays pending, with the
    button still disabled, only when the request was sent to the first
    active tab and is never answered. *)
Theorem manual_trigger_settles (env : PopupEnv) (action : string) (st : Popup) :
  let run := performAttendanceAction env action st in
  let button := buttonOf action in
  match run.2 with
  | Returned _ =>
      ∃ evs note,
        calls run.1 = calls st ++ locked button ++ evs ++ unlocked button ∧
        popupNotifications evs = [note] ∧
        (length (popupRequests evs) ≤ 1)%nat
  | Pending =>
      ∃ tab others,
        activeTabs env = Ok (tab :: others) ∧
        popupSendMessage env (id tab) {| action := "performAttendance"; type := action |}
          = Pending ∧
        calls run.1 =
          calls st ++ locked button ++
          [UpdateLogs; PopupTabsQuery;
           PopupTabsSendMessage (id tab) {| action := "performAttendance"; type := action |}]
  | Thrown _ => False
  end.
Proof.
  cbv zeta. unfold buttonOf.
  destruct (activeTabs env) as [[|tab others]|message] eqn:Htabs.
  - run_popup. rewrite Htabs. cbn.
    eexists [_; _; _; _; _], _. rewrite <- !app_assoc.
    split; [reflexivity|]. split; [reflexivity | cbn; lia].
  - destruct (url tab) as [tabUrl|] eqn:Hurl.
    + destruct (JsString.includes tabUrl "people.zoho.com") eqn:Hinc.
      * destruct (popupSendMessage env (id tab)
                    {| action := "performAttendance"; type := action |})
          as [response|message|] eqn:Hsend.
        -- destruct (performAttendanceAction_answered env action st tab others tabUrl
                       response Htabs Hurl Hinc Hsend) as (Hr & Hc).
           unfold buttonOf in Hc. rewrite Hr, Hc.
           destruct (AttendanceScheduler.responseSuccess response).
           ++ eexists [_; _; _; _; _; _; _], _.
              split; [reflexivity|]. split; [reflexivity | cbn; lia].
           ++ eexists [_; _; _; _; _; _], _.
              split; [reflexivity|]. split; [reflexivity | cbn; lia].
        -- run_popup. rewrite Htabs. cbn. rewrite Hurl. cbn. rewrite Hinc. cbn.
           rewrite Hsend. cbn.
           eexists [_; _; _; _; _; _], _. rewrite <- !app_assoc.
           split; [reflexivity|]. split; [reflexivity | cbn; lia].
        -- run_popup. rewrite Htabs. cbn. rewrite Hurl. cbn. rewrite Hinc. cbn.
           rewrite Hsend. cbn.
           exists tab, others. rewrite <- !app_assoc. auto.
      * run_popup. rewrite Htabs. cbn. rewrite Hurl. cbn. rewrite Hinc. cbn.
        eexists [_; _; _; _; _], _. rewrite <- !app_assoc.
        split; [reflexivity|]. split; [reflexivity | cbn; lia].
    + run_popup. rewrite Htabs. cbn. rewrite Hurl. cbn.
      eexists [_; _; _; _; _], _. rewrite <- !app_assoc.
      split; [reflexivity|]. split; [reflexivity | cbn; lia].
  - run_popup. rewrite Htabs. cbn.
    eexists [_; _; _; _; _], _. rewrite <- !app_assoc.
    split; [reflexivity|]. split; [reflexivity | cbn; lia].
Qed.

(** X18. The status line and the manual trigger agree on the active tab:
    the popup shows "Connected to Zoho People" exactly when the trigger
    would send the request to the first active tab; in every other case,
    an undefined tab or URL and a failing query included, the trigger sends
    nothing. *)
Theorem status_agrees_with_trigger (env : PopupEnv) (action : string) (st : Popup) :
  let run := performAttendanceAction env action st in
  let sent := popupRequests (calls run.1) in
  if String.eqb (indicatorClass (AttendancePopupUi.updateStatus env)) "status-indicator online"
  then
    statusText (AttendancePopupUi.updateStatus env) = "Connected to Zoho People" ∧
    ∃ tab others,
      activeTabs env = Ok (tab :: others) ∧
      sent = popupRequests (calls st) ++
             [(id tab, {| action := "performAttendance"; type := action |})]
  else
    statusText (AttendancePopupUi.updateStatus env) ≠ "Connected to Zoho People" ∧
    sent = popupRequests (calls st).
Proof.
  cbv zeta. unfold AttendancePopupUi.updateStatus.
  destruct (activeTabs env) as [[|tab others]|message] eqn:Htabs.
  - cbn. split; [discriminate|].
    run_popup. rewrite Htabs. cbn. rewrite <- !app_assoc, popupRequests_app.
    apply app_nil_r.
  - cbn [lookup list_lookup]. destruct (url tab) as [tabUrl|] eqn:Hurl.
    + destruct (JsString.includes tabUrl "people.zoho.com") eqn:Hinc.
      * assert (Hne : String.eqb tabUrl EmptyString = false).
        { destruct tabUrl; [discriminate Hinc | reflexivity]. }
        rewrite Hne. cbn. split; [reflexivity|]. exists tab, others.
        split; [reflexivity|].
        destruct (popupSendMessage env (id tab)
                    {| action := "performAttendance"; type := action |})
          as [response|message|] eqn:Hsend.
        -- destruct (performAttendanceAction_answered env action st tab others tabUrl
                       response Htabs Hurl Hinc Hsend) as (_ & Hc).
           rewrite Hc, popupRequests_app. f_equal.
           destruct (AttendanceScheduler.responseSuccess response); reflexivity.
        -- run_popup. rewrite Htabs. cbn. rewrite Hurl. cbn. rewrite Hinc. cbn.
           rewrite Hsend. cbn. rewrite <- !app_assoc, popupRequests_app. reflexivity.
        -- run_popup. rewrite Htabs. cbn. rewrite Hurl. cbn. rewrite Hinc. cbn.
           rewrite Hsend. cbn. rewrite <- !app_assoc, popupRequests_app. reflexivity.
      * rewrite andb_false_r. cbn. split; [discriminate|].
        run_popup. rewrite Htabs. cbn. rewrite Hurl. cbn. rewrite Hinc. cbn.
        rewrite <- !app_assoc, popupRequests_app. apply app_nil_r.
    + cbn. split; [discriminate|].
      run_popup. rewrite Htabs. cbn. rewrite Hurl. cbn.
      rewrite <- !app_assoc, popupRequests_app. apply app_nil_r.
  - cbn. split; [discriminate|].
    run_popup. rewrite Htabs. cbn. rewrite <- !app_assoc, popupRequests_app.
    apply app_nil_r.
Qed.

(** What the content script answers to an attendance request: a result
    with [success] true, or the error that no button was found; nothing
    when the page is unloaded under it. *)
Lemma onMessage_answers (ty : string) (page : Page) :
  match (ZohoAttendanceBotChrome.performAttendance ty page).2 with
  | Returned result =>
      (ZohoAttendanceBotChrome.onMessage
         {| action := "performAttendance"; type := ty |} page).2
        = Some (ResponseResult result) ∧ success result = true
  | Thrown message =>
      (ZohoAttendanceBotChrome.onMessage
         {| action := "performAttendance"; type := ty |} page).2
        = Some (ResponseError message) ∧ message = notFound ty
  | Pending =>
      (ZohoAttendanceBotChrome.onMessage
         {| action := "performAttendance"; type := ty |} page).2 = None
  end.
Proof.
  unfold ZohoAttendanceBotChrome.onMessage.
  cbn [action type String.eqb Ascii.eqb Bool.eqb].
  pose proof (f_equal snd (performAttendance_unfold ty page)) as Ho.
  cbn [snd] in Ho.
  destruct (strategyLoop_spec ty _ _ (strategies_spec ty page))
    as (k & _ & _ & _ & _ & Hout).
  destruct ((ZohoAttendanceBotChrome.strategyLoop ty
               (ZohoAttendanceBotChrome.strategies ty page)).2) as [[result|]| |];
    [| |contradiction|];
    destruct (ZohoAttendanceBotChrome.performAttendance ty page) as [t o];
    cbn [snd] in Ho |- *; subst o.
  - destruct Hout as (j & strategy & _ & _ & _ & _ & Hs). auto.
  - auto.
  - reflexivity.
Qed.

(** X19. The popup and the content script together: on a Zoho People tab
    whose content script answers, the manual trigger returns and shows one
    notification. It is the success notification exactly when the chain
    returned a result, one of the five strategies having found a button
    and activated it; when the chain threw, it reads "<action> failed:
    Could not find <action> button on this page", and the fallback
    "Unknown error occurred" is never shown. A page that is unloaded under
    the run does not answer. *)
Theorem manual_trigger_end_to_end
    (env : PopupEnv) (page : Page) (action : string) (st : Popup)
    (tab : Tab) (others : list Tab) (tabUrl : string) :
  activeTabs env = Ok (tab :: others) →
  url tab = Some tabUrl →
  JsString.includes tabUrl "people.zoho.com" = true →
  contentScriptAnswers env page (id tab)
    {| action := "performAttendance"; type := action |} →
  let run := performAttendanceAction env action st in
  run.2 = Returned tt ∧
  popupRequests (calls run.1) =
    popupRequests (calls st) ++ [(id tab, {| action := "performAttendance"; type := action |})] ∧
  popupNotifications (calls run.1) =
    popupNotifications (calls st) ++
    match (ZohoAttendanceBotChrome.performAttendance action page).2 with
    | Returned _ => [(action +:+ " completed successfully", "success")]
    | Thrown _ =>
        [(action +:+ " failed: Could not find " +:+ action +:+ " button on this page",
          "error")]
    | Pending => []
    end ∧
  (ZohoAttendanceBotChrome.performAttendance action page).2 ≠ Pending.
Proof.
  intros Htabs Hurl Hinc (response & Hon & Hsend). cbv zeta.
  destruct (performAttendanceAction_answered env action st tab others tabUrl
              _ Htabs Hurl Hinc Hsend) as (Hr & Hc).
  rewrite Hr, Hc, popupRequests_app, popupNotifications_app.
  pose proof (onMessage_answers action page) as Ha.
  destruct ((ZohoAttendanceBotChrome.performAttendance action page).2)
    as [result|message|].
  - destruct Ha as (Ha & Hs). rewrite Ha in Hon. injection Hon as <-.
    cbn [AttendanceScheduler.responseSuccess]. rewrite Hs.
    split_and!; reflexivity || discriminate.
  - destruct Ha as (Ha & ->). rewrite Ha in Hon. injection Hon as <-.
    cbn [AttendanceScheduler.responseSuccess].
    split_and!; reflexivity || discriminate.
  - rewrite Ha in Hon. discriminate Hon.
Qed.

Lemma manual_trigger_end_to_end_witness :
  popupNotifications (calls (performAttendanceAction (zohoTabEnv emptyPage) "checkout"
                               freshPopup).1) =
  [("checkout failed: Could not find checkout button on this page", "error")].
Proof.
  refine (eq_trans
            (proj1 (proj2 (proj2
               (manual_trigger_end_to_end (zohoTabEnv emptyPage) emptyPage "checkout"
                  freshPopup {| id := 4%nat; url := Some "https://people.zoho.com/home" |}
                  [] "https://people.zoho.com/home" eq_refl eq_refl _ _)))) _).
  - reflexivity.
  - exists (ResponseError "Could not find checkout button on this page").
    split; vm_compute; reflexivity.
  - vm_compute. reflexivity.
Defined.

End ManualTrigger.

Section ToggleMessage.
Import JsDate AttendanceScheduler BackgroundScript.

Lemma cleared_again (m : gmap string Alarm) :
  delete "checkout" (delete "checkin" (delete "checkout" (delete "checkin" m))) =
  delete "checkout" (delete "checkin" m).
Proof.
  apply map_eq. intros name.
  destruct (cleared_lookups m) as (H1 & H2 & H3).
  destruct (cleared_lookups (delete "checkout" (delete "checkin" m))) as (G1 & G2 & G3).
  destruct (decide (name = "checkin")) as [->|N1]; [congruence|].
  destruct (decide (name = "checkout")) as [->|N2]; [congruence|].
  rewrite G3 by assumption. reflexivity.
Qed.

Lemma toggle_off_iter (env : Env) (n : nat) (st : Browser) :
  let after := Nat.iter (S n) (fun st => (toggleAutoSchedule env false st).1) st in
  sync after = {| autoSchedule := Some false;
                  checkinTime := checkinTime (sync st);
                  checkoutTime := checkoutTime (sync st) |} ∧
  alarms after = delete "checkout" (delete "checkin" (alarms st)).
Proof.
  cbv zeta. induction n as [|n [IHs IHa]].
  - rewrite Nat.iter_succ. cbn [Nat.iter nat_rect].
    destruct (toggle_off_run env st) as (logs' & ->). auto.
  - rewrite Nat.iter_succ.
    destruct (toggle_off_run env
                (Nat.iter (S n) (fun st => (toggleAutoSchedule env false st).1) st))
      as (logs' & ->).
    cbn [fst sync alarms]. rewrite IHs, IHa, cleared_again. auto.
Qed.

Lemma toggle_on_iter (env : Env) (n : nat) (st : Browser) (h1 m1 h2 m2 : nat) :
  checkinTime (sync st) = Some (hhmm h1 m1) →
  checkoutTime (sync st) = Some (hhmm h2 m2) →
  (h1 < 24)%nat → (m1 < 60)%nat → (h2 < 24)%nat → (m2 < 60)%nat →
  let after := Nat.iter (S n) (fun st => (toggleAutoSchedule env true st).1) st in
  sync after = {| autoSchedule := Some true;
                  checkinTime := Some (hhmm h1 m1);
                  checkoutTime := Some (hhmm h2 m2) |} ∧
  alarms after =
    rearmed (nextOccurrence (locale env) (now env) h1 m1)
      (nextOccurrence (locale env) (now env) h2 m2) (alarms st).
Proof.
  intros Hin Hout Hh1 Hm1 Hh2 Hm2. cbv zeta. induction n as [|n [IHs IHa]].
  - rewrite Nat.iter_succ. cbn [Nat.iter nat_rect].
    destruct (toggle_on_run env st h1 m1 h2 m2 Hin Hout Hh1 Hm1 Hh2 Hm2)
      as (logs' & lines & -> & _). auto.
  - rewrite Nat.iter_succ.
    destruct (toggle_on_run env
                (Nat.iter (S n) (fun st => (toggleAutoSchedule env true st).1) st)
                h1 m1 h2 m2) as (logs' & lines & -> & _);
      try assumption; try (rewrite IHs; reflexivity).
    cbn [fst sync alarms]. rewrite IHa, rearmed_again. auto.
Qed.

(** X20. The popup's toggle and the background script together. The
    toggle stores the new state, shows it, and sends one
    [toggleAutoSchedule] message carrying it. Every scheduler registered in
    the background context handles that message, and however many there
    are the outcome is that of a single one: the stored state is the one
    the popup shows, and the alarms are the two of the schedule when it was
    switched on and none of the two when it was switched off. *)
Theorem toggle_message_reaches_schedulers
    (penv : PopupEnv) (env : Env) (w : PopupWorld) (bg : Background)
    (h1 m1 h2 m2 : nat) :
  checkinTime (sync (browser bg)) = Some (hhmm h1 m1) →
  checkoutTime (sync (browser bg)) = Some (hhmm h2 m2) →
  (h1 < 24)%nat → (m1 < 60)%nat → (h2 < 24)%nat → (m2 < 60)%nat →
  (0 < schedulers bg)%nat →
  let shown := toggleActive (AttendancePopupUi.toggleAutoSchedule penv w) in
  let message := {| messageAction := "toggleAutoSchedule"; enabled := shown |} in
  let after := browser (messageDispatched env message bg) in
  shown = negb (toggleActive w) ∧
  sentToBackground (AttendancePopupUi.toggleAutoSchedule penv w) =
    sentToBackground w ++ [message] ∧
  autoSchedule (popupSync (AttendancePopupUi.toggleAutoSchedule penv w)) = Some shown ∧
  autoSchedule (sync after) = Some shown ∧
  alarms after =
    if shown then
      rearmed (nextOccurrence (locale env) (now env) h1 m1)
        (nextOccurrence (locale env) (now env) h2 m2) (alarms (browser bg))
    else delete "checkout" (delete "checkin" (alarms (browser bg))).
Proof.
  intros Hin Hout Hh1 Hm1 Hh2 Hm2 Hn. cbv zeta.
  split; [reflexivity|]. split; [reflexivity|]. split; [reflexivity|].
  unfold messageDispatched, onMessage.
  cbn [messageAction enabled browser AttendancePopupUi.toggleAutoSchedule toggleActive
       String.eqb Ascii.eqb Bool.eqb].
  destruct (schedulers bg) as [|n]; [lia|].
  destruct (toggleActive w); cbn [negb].
  - destruct (toggle_off_iter env n (browser bg)) as (-> & ->). auto.
  - destruct (toggle_on_iter env n (browser bg) h1 m1 h2 m2 Hin Hout Hh1 Hm1 Hh2 Hm2)
      as (-> & ->). auto.
Qed.

Lemma toggle_message_reaches_schedulers_witness :
  autoSchedule
    (sync (browser
       (messageDispatched sampleEnv
          {| messageAction := "toggleAutoSchedule"; enabled := false |}
          {| schedulers := 2; browser := restartedBrowser |}))) = Some false.
Proof.
  exact (proj1 (proj2 (proj2 (proj2
    (toggle_message_reaches_schedulers otherSiteEnv sampleEnv
       {| toggleActive := true; popupSync := sync restartedBrowser;
          sentToBackground := []; popup := freshPopup |}
       {| schedulers := 2; browser := restartedBrowser |} 9 0 17 30
       eq_refl eq_refl ltac:(lia) ltac:(lia) ltac:(lia) ltac:(lia) ltac:(cbn; lia)))))).
Defined.

End ToggleMessage.

Section Domains.
Import AttendancePopup.

Lemma performAttendanceAction_refused
    (env : PopupEnv) (action : string) (st : Popup)
    (tab : Tab) (others : list Tab) (tabUrl : string) :
  activeTabs env = Ok (tab :: others) →
  url tab = Some tabUrl →
  JsString.includes tabUrl "people.zoho.com" = false →
  calls (performAttendanceAction env action st).1 =
    calls st ++ locked (buttonOf action) ++
    [UpdateLogs; PopupTabsQuery; UpdateLogs;
     ClassListAdd (buttonOf action) "error-flash";
     PopupNotification (action +:+ " failed: Please navigate to Zoho People first") "error"]
    ++ unlocked (buttonOf action).
Proof.
  intros Htabs Hurl Hinc. unfold buttonOf.
  run_popup. rewrite Htabs. cbn. rewrite Hurl. cbn. rewrite Hinc. cbn.
  rewrite <- !app_assoc. reflexivity.
Qed.

Lemma includes_other_domain (origin rest : string) :
  origin = "https://people.zoho.eu/" ∨ origin = "https://people.zoho.in/" →
  JsString.includes (origin +:+ rest) "people.zoho.com"
    = JsString.includes rest "people.zoho.com".
Proof. intros [-> | ->]; vm_compute; reflexivity. Qed.

(** X21. The manifest injects the content script into the pages of
    people.zoho.eu and people.zoho.in as well, but the popup only accepts
    URLs that contain "people.zoho.com": on a tab of one of the two other
    domains (whose path does not happen to contain that text) the status
    line asks to navigate to Zoho People, and the manual trigger sends no
    request and reports "Please navigate to Zoho People first". *)
Theorem other_zoho_domains_refused
    (env : PopupEnv) (action : string) (st : Popup)
    (tab : Tab) (others : list Tab) (origin rest : string) :
  origin = "https://people.zoho.eu/" ∨ origin = "https://people.zoho.in/" →
  JsString.includes rest "people.zoho.com" = false →
  activeTabs env = Ok (tab :: others) →
  url tab = Some (origin +:+ rest) →
  let run := performAttendanceAction env action st in
  Manifest.contentScriptInjected (origin +:+ rest) = true ∧
  statusText (AttendancePopupUi.updateStatus env) = "Navigate to Zoho People" ∧
  popupRequests (calls run.1) = popupRequests (calls st) ∧
  popupNotifications (calls run.1) =
    popupNotifications (calls st) ++
    [(action +:+ " failed: Please navigate to Zoho People first", "error")].
Proof.
  intros Horigin Hrest Htabs Hurl. cbv zeta.
  pose proof (includes_other_domain origin rest Horigin) as Hinc.
  rewrite Hrest in Hinc.
  rewrite (performAttendanceAction_refused env action st tab others _ Htabs Hurl Hinc).
  rewrite popupRequests_app, popupNotifications_app.
  split_and!.
  - unfold Manifest.contentScriptInjected, Manifest.matches. cbn [existsb].
    destruct Horigin as [-> | ->].
    + assert (E : Manifest.patternMatches "https://people.zoho.eu/*"
                    ("https://people.zoho.eu/" +:+ rest) = true)
        by exact (startsWith_prefix "https://people.zoho.eu/" rest).
      rewrite E, !orb_true_r. reflexivity.
    + assert (E : Manifest.patternMatches "https://people.zoho.in/*"
                    ("https://people.zoho.in/" +:+ rest) = true)
        by exact (startsWith_prefix "https://people.zoho.in/" rest).
      rewrite E, !orb_true_r. reflexivity.
  - unfold AttendancePopupUi.updateStatus. rewrite Htabs. cbn [lookup list_lookup].
    rewrite Hurl, Hinc, andb_false_r. reflexivity.
  - unfold buttonOf. destruct (String.eqb action "checkin"); cbn; apply app_nil_r.
  - unfold buttonOf. destruct (String.eqb action "checkin"); reflexivity.
Qed.

Lemma other_zoho_domains_refused_witness :
  Manifest.contentScriptInjected "https://people.zoho.eu/home" = true ∧
  popupRequests
    (calls (performAttendanceAction
              {| popupNow := tenOClock; popupLocale := sampleLocale;
                 activeTabs := Ok [ {| id := 6%nat;
                                       url := Some "https://people.zoho.eu/home" |} ];
                 popupSendMessage := popupSendMessage otherSiteEnv |}
              "checkin" freshPopup).1) = [].
Proof.
  pose proof (other_zoho_domains_refused
                {| popupNow := tenOClock; popupLocale := sampleLocale;
                   activeTabs := Ok [ {| id := 6%nat;
                                         url := Some "https://people.zoho.eu/home" |} ];
                   popupSendMessage := popupSendMessage otherSiteEnv |}
                "checkin" freshPopup {| id := 6%nat; url := Some "https://people.zoho.eu/home" |}
                [] "https://people.zoho.eu/" "home"
                (or_introl eq_refl) eq_refl eq_refl eq_refl) as (Hi & _ & Hr & _).
  split; [exact Hi | exact Hr].
Defined.

End Domains.

Section BuildScripts.
Import FsExtra.

Lemma pathExists_In (p : string) (disk : Disk) : pathExists p disk = true ↔ In p disk.
Proof.
  unfold pathExists. rewrite existsb_exists. split.
  - intros (q & Hq & Heq). apply String.eqb_eq in Heq. congruence.
  - intros H. exists p. split; [exact H | apply String.eqb_refl].
Qed.

Lemma pathExists_absent (p : string) (disk : Disk) :
  ¬ In p disk → pathExists p disk = false.
Proof.
  intros H. destruct (pathExists p disk) eqn:E; [|reflexivity].
  apply pathExists_In in E. contradiction.
Qed.

Lemma addPath_In (q p : string) (disk : Disk) :
  In p (addPath q disk) ↔ p = q ∨ In p disk.
Proof.
  unfold addPath. destruct (pathExists q disk) eqn:E.
  - apply pathExists_In in E. split; [auto | intros [-> | H]; assumption].
  - rewrite in_app_iff. cbn [In]. split.
    + intros [H | [<- | []]]; auto.
    + intros [-> | H]; auto.
Qed.

Lemma fold_addPath_In (l : list string) (disk : Disk) (p : string) :
  In p (List.fold_left (fun d q => addPath q d) l disk) ↔ In p disk ∨ In p l.
Proof.
  revert disk. induction l as [|q l IH]; intros disk; cbn [List.fold_left In].
  - tauto.
  - rewrite IH, addPath_In. split.
    + intros [[-> | H] | H]; auto.
    + intros [H | [<- | H]]; auto.
Qed.

Lemma startsWith_nil (s : string) : JsString.startsWith s EmptyString = true.
Proof. destruct s; reflexivity. Qed.

Lemma startsWith_inv (s prefix : string) :
  JsString.startsWith s prefix = true → ∃ rest, s = prefix +:+ rest.
Proof.
  revert s. induction prefix as [|c prefix IH]; intros s H.
  - exists s. reflexivity.
  - destruct s as [|c' s]; [discriminate H|]. cbn [JsString.startsWith] in H.
    apply andb_true_iff in H as [Hc Hs]. apply Ascii.eqb_eq in Hc. subst c'.
    destruct (IH s Hs) as [rest ->]. exists rest. reflexivity.
Qed.

Lemma append_cons (x : ascii) (a b : string) : String x a +:+ b = String x (a +:+ b).
Proof. reflexivity. Qed.

Lemma append_assoc (a b c : string) : (a +:+ b) +:+ c = a +:+ b +:+ c.
Proof.
  induction a as [|x a IH]; [reflexivity|]. rewrite !append_cons, IH. reflexivity.
Qed.

Lemma startsWith_longer (s prefix more : string) :
  JsString.startsWith s prefix = true → JsString.startsWith (s +:+ more) prefix = true.
Proof.
  intros H. destruct (startsWith_inv s prefix H) as [rest ->].
  rewrite append_assoc. apply startsWith_prefix.
Qed.

Lemma dropChars_append (a b : string) : dropChars (String.length a) (a +:+ b) = b.
Proof.
  induction a as [|c a IH].
  - destruct b; reflexivity.
  - rewrite append_cons. exact IH.
Qed.

Lemma append_nil_r (a : string) : a +:+ EmptyString = a.
Proof.
  induction a as [|c a IH]; [reflexivity|]. rewrite append_cons, IH. reflexivity.
Qed.

(** A path at or below [src] lands at or below [dest]. *)
Lemma rebase_shape (src dest q : string) :
  under src q = true →
  rebase src dest q = dest ∨ ∃ rest, rebase src dest q = dest +:+ "/" +:+ rest.
Proof.
  unfold under, rebase. intros H. apply orb_true_iff in H as [H | H].
  - apply String.eqb_eq in H. subst q. left.
    pose proof (dropChars_append src EmptyString) as Hd.
    rewrite append_nil_r in Hd. rewrite Hd. apply append_nil_r.
  - destruct (startsWith_inv _ _ H) as [rest ->]. right. exists rest.
    rewrite append_assoc, dropChars_append. reflexivity.
Qed.

Lemma under_below (dir dest rest : string) :
  under dir dest = true → under dir (dest +:+ "/" +:+ rest) = true.
Proof.
  unfold under. intros H. apply orb_true_iff in H as [H | H]; apply orb_true_iff; right.
  - apply String.eqb_eq in H. subst dest.
    rewrite <- append_assoc. apply startsWith_prefix.
  - apply startsWith_longer. exact H.
Qed.

Lemma rebase_under (dir src dest q : string) :
  under dir dest = true → under src q = true → under dir (rebase src dest q) = true.
Proof.
  intros Hd Hq. destruct (rebase_shape src dest q Hq) as [-> | [rest ->]].
  - exact Hd.
  - apply under_below. exact Hd.
Qed.

Lemma remove_In (dir p : string) (disk : Disk) :
  In p (remove dir disk).1 ↔ In p disk ∧ under dir p = false.
Proof.
  unfold remove. cbn [fst]. rewrite filter_In, negb_true_iff. reflexivity.
Qed.

Lemma copy_In (src dest p : string) (disk : Disk) :
  In p (copy src dest disk).1 →
  In p disk ∨ ∃ q, In q disk ∧ under src q = true ∧ p = rebase src dest q.
Proof.
  unfold copy. destruct (pathExists src disk); cbn [fst]; [|auto].
  rewrite fold_addPath_In, in_map_iff. intros [H | (q & <- & Hq)]; [auto|].
  apply filter_In in Hq as [Hq Hu]. right. exists q. auto.
Qed.

Lemma adds_ret {A} (allowed : string → Prop) (a : A) : adds allowed (mret a).
Proof. intros disk p H. left. exact H. Qed.

Lemma adds_bind {A C} (allowed : string → Prop) (m : St Disk A) (k : A → St Disk C) :
  adds allowed m → (∀ a, adds allowed (k a)) → adds allowed (m ≫= k).
Proof.
  intros Hm Hk disk p. specialize (Hm disk p).
  unfold mbind, St_mbind, St_bind. destruct (m disk) as [disk' [a| |]]; cbn [fst] in *;
    [|exact Hm..].
  intros H. destruct (Hk a disk' p H) as [H' | H']; auto.
Qed.

Lemma adds_ensureDir (allowed : string → Prop) (p : string) :
  allowed p → adds allowed (ensureDir p).
Proof.
  intros Hp disk q H. unfold ensureDir in H. cbn [fst] in H.
  apply addPath_In in H as [-> | H]; auto.
Qed.

Lemma adds_copy (dir src dest : string) :
  under dir dest = true → adds (fun p => under dir p = true) (copy src dest).
Proof.
  intros Hd disk p H. apply copy_In in H as [H | (q & _ & Hq & ->)]; [auto|].
  right. apply rebase_under; assumption.
Qed.

Lemma adds_weaken {A} (P Q : string → Prop) (m : St Disk A) :
  (∀ p, P p → Q p) → adds P m → adds Q m.
Proof. intros HPQ Hm disk p H. destruct (Hm disk p H); auto. Qed.

Lemma keeps_ret {A} (a : A) : keeps (mret a : St Disk A).
Proof. intros disk p H. exact H. Qed.

Lemma keeps_bind {A C} (m : St Disk A) (k : A → St Disk C) :
  keeps m → (∀ a, keeps (k a)) → keeps (m ≫= k).
Proof.
  intros Hm Hk disk p H. specialize (Hm disk p H).
  unfold mbind, St_mbind, St_bind. destruct (m disk) as [disk' [a| |]]; cbn [fst] in *;
    [|exact Hm..].
  apply Hk. exact Hm.
Qed.

Lemma keeps_ensureDir (p : string) : keeps (ensureDir p).
Proof. intros disk q H. unfold ensureDir. cbn [fst]. apply addPath_In. auto. Qed.

Lemma keeps_copy (src dest : string) : keeps (copy src dest).
Proof.
  intros disk q H. unfold copy. destruct (pathExists src disk); cbn [fst]; [|exact H].
  apply fold_addPath_In. auto.
Qed.

Lemma establishes_copy (src dest : string) : establishes dest (copy src dest).
Proof.
  intros disk a. unfold copy. destruct (pathExists src disk) eqn:E; cbn [fst snd];
    [|discriminate].
  intros _. apply fold_addPath_In. right. apply in_map_iff. exists src.
  apply pathExists_In in E. split.
  - unfold rebase. pose proof (dropChars_append src EmptyString) as Hd.
    rewrite append_nil_r in Hd. rewrite Hd. apply append_nil_r.
  - apply filter_In. split; [exact E|]. unfold under.
    rewrite String.eqb_refl. reflexivity.
Qed.

Lemma establishes_ensureDir (p : string) : establishes p (ensureDir p).
Proof. intros disk a _. unfold ensureDir. cbn [fst]. apply addPath_In. auto. Qed.

Lemma establishes_first {A C} (p : string) (m : St Disk A) (k : A → St Disk C) :
  establishes p m → (∀ a, keeps (k a)) → establishes p (m ≫= k).
Proof.
  intros Hm Hk disk c. specialize (Hm disk).
  unfold mbind, St_mbind, St_bind. destruct (m disk) as [disk' [a| |]]; cbn [fst snd] in *;
    [|discriminate..].
  intros _. apply Hk. apply (Hm a). reflexivity.
Qed.

Lemma establishes_later {A C} (p : string) (m : St Disk A) (k : A → St Disk C) :
  (∀ a, establishes p (k a)) → establishes p (m ≫= k).
Proof.
  intros Hk disk c.
  unfold mbind, St_mbind, St_bind. destruct (m disk) as [disk' [a| |]]; cbn [fst snd] in *;
    [|discriminate..].
  apply Hk.
Qed.

Lemma settles_bind {A C} (m : St Disk A) (k : A → St Disk C) :
  settles m → (∀ a, settles (k a)) → settles (m ≫= k).
Proof.
  intros Hm Hk disk. specialize (Hm disk).
  unfold mbind, St_mbind, St_bind. destruct (m disk) as [disk' [a| |]]; cbn [snd] in *.
  - apply Hk.
  - discriminate.
  - contradiction.
Qed.

Lemma settles_ret {A} (a : A) : settles (mret a : St Disk A).
Proof. intros disk. discriminate. Qed.

Lemma settles_ensureDir (p : string) : settles (ensureDir p).
Proof. intros disk. discriminate. Qed.

Lemma settles_remove (p : string) : settles (remove p).
Proof. intros disk. discriminate. Qed.

Lemma settles_copy (src dest : string) : settles (copy src dest).
Proof. intros disk. unfold copy. destruct (pathExists src disk); discriminate. Qed.

End BuildScripts.

Ltac disk_go :=
  repeat first
    [ apply adds_bind; [|intros _]
    | apply keeps_bind; [|intros _]
    | apply settles_bind; [|intros _]
    | apply adds_ret | apply keeps_ret | apply settles_ret
    | apply keeps_ensureDir | apply keeps_copy
    | apply settles_ensureDir | apply settles_copy | apply settles_remove
    | apply adds_ensureDir; cbv beta; vm_compute; reflexivity
    | apply adds_copy; vm_compute; reflexivity ].

Section Builds.
Import FsExtra ExtensionBuilder.

Lemma copySourceFiles_adds (targetDir browser : string) :
  adds (fun p => under targetDir p = true) (copySourceFiles targetDir browser).
Proof.
  assert (Hu : ∀ rest, under targetDir (targetDir +:+ "/" +:+ rest) = true).
  { intros rest. apply under_below. unfold under. rewrite String.eqb_refl. reflexivity. }
  unfold copySourceFiles.
  repeat first
    [ apply adds_bind; [|intros _]
    | apply adds_ensureDir; cbv beta; apply Hu
    | apply adds_copy; apply Hu ].
Qed.

Lemma copySourceFiles_keeps (targetDir browser : string) :
  keeps (copySourceFiles targetDir browser).
Proof. unfold copySourceFiles. disk_go. Qed.

Lemma copySourceFiles_settles (targetDir browser : string) :
  settles (copySourceFiles targetDir browser).
Proof. unfold copySourceFiles. disk_go. Qed.

Lemma buildChrome_adds : adds (fun p => under "dist/chrome" p = true) buildChrome.
Proof.
  unfold buildChrome. cbv zeta.
  apply adds_bind; [disk_go | intros _].
  apply adds_bind; [disk_go | intros _].
  apply adds_bind; [apply copySourceFiles_adds | intros _].
  disk_go.
Qed.

Lemma buildFirefox_adds : adds (fun p => under "dist/firefox" p = true) buildFirefox.
Proof.
  unfold buildFirefox. cbv zeta.
  apply adds_bind; [disk_go | intros _].
  apply adds_bind; [disk_go | intros _].
  apply adds_bind; [apply copySourceFiles_adds | intros _].
  disk_go.
Qed.

Lemma buildChrome_keeps : keeps buildChrome.
Proof.
  unfold buildChrome. cbv zeta.
  repeat first [ apply keeps_bind; [|intros _] | apply copySourceFiles_keeps
               | apply keeps_ensureDir | apply keeps_copy ].
Qed.

Lemma buildFirefox_keeps : keeps buildFirefox.
Proof.
  unfold buildFirefox. cbv zeta.
  repeat first [ apply keeps_bind; [|intros _] | apply copySourceFiles_keeps
               | apply keeps_ensureDir | apply keeps_copy ].
Qed.

Lemma buildChrome_settles : settles buildChrome.
Proof.
  unfold buildChrome. cbv zeta.
  repeat first [ apply settles_bind; [|intros _] | apply copySourceFiles_settles
               | apply settles_ensureDir | apply settles_copy ].
Qed.

Lemma buildFirefox_settles : settles buildFirefox.
Proof.
  unfold buildFirefox. cbv zeta.
  repeat first [ apply settles_bind; [|intros _] | apply copySourceFiles_settles
               | apply settles_ensureDir | apply settles_copy ].
Qed.

Lemma buildChrome_manifest : establishes "dist/chrome/manifest.json" buildChrome.
Proof.
  unfold buildChrome. cbv zeta. apply establishes_later. intros _.
  apply establishes_first; [apply establishes_copy | intros _].
  apply keeps_bind; [apply copySourceFiles_keeps | intros _; apply keeps_copy].
Qed.

Lemma buildFirefox_manifest : establishes "dist/firefox/manifest.json" buildFirefox.
Proof.
  unfold buildFirefox. cbv zeta. apply establishes_later. intros _.
  apply establishes_first; [apply establishes_copy | intros _].
  apply keeps_bind; [apply copySourceFiles_keeps | intros _; apply keeps_copy].
Qed.

Lemma build_settles (target : string) : settles (build target).
Proof.
  unfold build.
  apply settles_bind; [apply settles_remove | intros _].
  apply settles_bind; [apply settles_ensureDir | intros _].
  apply settles_bind; [|intros _].
  - destruct (String.eqb target "all" || String.eqb target "chrome");
      [apply buildChrome_settles | apply settles_ret].
  - destruct (String.eqb target "all" || String.eqb target "firefox");
      [apply buildFirefox_settles | apply settles_ret].
Qed.

(** What a build leaves below [dist]: only what it was asked to build. *)
Lemma build_contents (target p : string) (disk : Disk) :
  In p (build target disk).1 →
  under "dist" p = true →
  p = "dist" ∨
  (under "dist/chrome" p = true ∧
   (String.eqb target "all" || String.eqb target "chrome") = true) ∨
  (under "dist/firefox" p = true ∧
   (String.eqb target "all" || String.eqb target "firefox") = true).
Proof.
  intros Hin Hunder.
  set (allowed := fun p : string =>
         p = "dist" ∨
         (under "dist/chrome" p = true ∧
          (String.eqb target "all" || String.eqb target "chrome") = true) ∨
         (under "dist/firefox" p = true ∧
          (String.eqb target "all" || String.eqb target "firefox") = true)).
  assert (Hrest : adds allowed
            (ensureDir distDir ;;
             (if String.eqb target "all" || String.eqb target "chrome" then buildChrome
              else mret tt) ;;
             (if String.eqb target "all" || String.eqb target "firefox" then buildFirefox
              else mret tt))).
  { apply adds_bind; [apply adds_ensureDir; left; reflexivity | intros _].
    apply adds_bind; [|intros _].
    - destruct (String.eqb target "all" || String.eqb target "chrome") eqn:E;
        [|apply adds_ret].
      eapply adds_weaken; [|apply buildChrome_adds].
      intros q Hq. right. left. auto.
    - destruct (String.eqb target "all" || String.eqb target "firefox") eqn:E;
        [|apply adds_ret].
      eapply adds_weaken; [|apply buildFirefox_adds].
      intros q Hq. right. right. auto. }
  unfold build in Hin.
  change ((remove distDir ;;
           ensureDir distDir ;;
           (if String.eqb target "all" || String.eqb target "chrome" then buildChrome
            else mret tt) ;;
           (if String.eqb target "all" || String.eqb target "firefox" then buildFirefox
            else mret tt)) disk)
    with ((ensureDir distDir ;;
           (if String.eqb target "all" || String.eqb target "chrome" then buildChrome
            else mret tt) ;;
           (if String.eqb target "all" || String.eqb target "firefox" then buildFirefox
            else mret tt)) (remove distDir disk).1) in Hin.
  destruct (Hrest _ _ Hin) as [H | H]; [|exact H].
  apply remove_In in H as [_ H]. unfold distDir in H. congruence.
Qed.

Lemma under_chrome_not_firefox (p : string) :
  under "dist/chrome" p = true → under "dist/firefox" p = false ∧ p ≠ "dist" ∧
                                   under "dist" p = true.
Proof.
  unfold under at 1. intros H. apply orb_true_iff in H as [H | H].
  - apply String.eqb_eq in H. subst p. split_and!; [reflexivity | discriminate | reflexivity].
  - destruct (startsWith_inv _ _ H) as [rest ->].
    split_and!; [vm_compute; reflexivity | discriminate |].
    unfold under. apply orb_true_iff. right.
    apply (startsWith_longer "dist/chrome/" "dist/" rest). reflexivity.
Qed.

Lemma script_finished (args : list string) (disk : Disk) :
  (script args disk).2 = Finished →
  (script args disk).1 = (build (targetOf args) disk).1 ∧
  (build (targetOf args) disk).2 = Returned tt.
Proof.
  unfold script. destruct (build (targetOf args) disk) as [disk' [[]| |]];
    cbn [fst snd]; intros H; try discriminate H. auto.
Qed.

Lemma script_never_hangs (args : list string) (disk : Disk) :
  (script args disk).2 = Finished ∨ (script args disk).2 = Exit 1.
Proof.
  unfold script. pose proof (build_settles (targetOf args) disk) as H.
  destruct (build (targetOf args) disk) as [disk' [[]| |]]; cbn [snd] in *; auto.
  contradiction.
Qed.

Lemma build_firefox_manifest (target : string) (disk : Disk) :
  (String.eqb target "all" || String.eqb target "firefox") = true →
  (build target disk).2 = Returned tt →
  In "dist/firefox/manifest.json" (build target disk).1.
Proof.
  intros Ht. unfold build. rewrite Ht.
  apply (establishes_later "dist/firefox/manifest.json"). intros _.
  apply establishes_later. intros _.
  apply establishes_later. intros _.
  apply buildFirefox_manifest.
Qed.

Lemma build_chrome_manifest (target : string) (disk : Disk) :
  (String.eqb target "all" || String.eqb target "chrome") = true →
  (build target disk).2 = Returned tt →
  In "dist/chrome/manifest.json" (build target disk).1.
Proof.
  intros Ht. unfold build. rewrite Ht.
  apply (establishes_later "dist/chrome/manifest.json"). intros _.
  apply establishes_later. intros _.
  apply establishes_first; [apply buildChrome_manifest | intros _].
  destruct (String.eqb target "all" || String.eqb target "firefox");
    [apply buildFirefox_keeps | apply keeps_ret].
Qed.

(** After [build:all] has succeeded nothing of the Chrome build exists. *)
Lemma buildAll_no_chrome (disk : Disk) (p : string) :
  succeeded (NpmScripts.buildAll disk).2 = true →
  under "dist/chrome" p = true →
  ¬ In p (NpmScripts.buildAll disk).1.
Proof.
  unfold NpmScripts.buildAll. cbv zeta.
  destruct (succeeded (NpmScripts.buildChrome disk).2) eqn:E1; [|congruence].
  intros E2 Hp Hin. unfold NpmScripts.buildFirefox in *.
  destruct (script_never_hangs ["--firefox"] (NpmScripts.buildChrome disk).1) as [H | H];
    [|rewrite H in E2; discriminate E2].
  destruct (script_finished _ _ H) as [Hd _]. rewrite Hd in Hin.
  destruct (under_chrome_not_firefox p Hp) as (Hf & Hne & Hdist).
  destruct (build_contents _ _ _ Hin Hdist) as [-> | [[_ Hc] | [Hc _]]];
    [congruence | discriminate Hc | congruence].
Qed.

(** X22. Every build starts by removing [dist], so a build for one browser
    leaves nothing of the other: when the [build:all] script (the Chrome
    build, then the Firefox build) succeeds, no file of the Chrome build
    exists and the Firefox manifest does; only the build without a target
    option, when it succeeds, leaves both manifests. *)
Theorem build_all_leaves_firefox_only (disk : Disk) :
  succeeded (NpmScripts.buildAll disk).2 = true →
  (∀ p, under "dist/chrome" p = true → pathExists p (NpmScripts.buildAll disk).1 = false) ∧
  pathExists "dist/firefox/manifest.json" (NpmScripts.buildAll disk).1 = true ∧
  ((script [] disk).2 = Finished →
   pathExists "dist/chrome/manifest.json" (script [] disk).1 = true ∧
   pathExists "dist/firefox/manifest.json" (script [] disk).1 = true).
Proof.
  intros Hok. split_and!.
  - intros p Hp. apply pathExists_absent. apply buildAll_no_chrome; assumption.
  - revert Hok. unfold NpmScripts.buildAll. cbv zeta.
    destruct (succeeded (NpmScripts.buildChrome disk).2) eqn:E1; [|intros; congruence].
    intros Hok. unfold NpmScripts.buildFirefox in *.
    destruct (script_never_hangs ["--firefox"] (NpmScripts.buildChrome disk).1) as [H | H];
      [|rewrite H in Hok; discriminate Hok].
    destruct (script_finished _ _ H) as [Hd Hr]. rewrite Hd.
    apply pathExists_In. apply build_firefox_manifest; [reflexivity | exact Hr].
  - intros H. destruct (script_finished _ _ H) as [Hd Hr]. rewrite Hd.
    split; apply pathExists_In;
      [apply build_chrome_manifest | apply build_firefox_manifest];
      first [reflexivity | exact Hr].
Qed.

Lemma build_all_leaves_firefox_only_witness :
  pathExists "dist/chrome/manifest.json" (NpmScripts.buildAll sourceTree).1 = false ∧
  pathExists "dist/firefox/manifest.json" (NpmScripts.buildAll sourceTree).1 = true.
Proof.
  assert (H : succeeded (NpmScripts.buildAll sourceTree).2 = true)
    by (vm_compute; reflexivity).
  destruct (build_all_leaves_firefox_only sourceTree H) as (Hc & Hf & _).
  split; [apply Hc; reflexivity | exact Hf].
Defined.

End Builds.

Section Packaging.
Import FsExtra ExtensionPackager.

Variable timestamp : string.
Variable manifestVersion : string → Outcome string.
Variable createZipArchive : string → string → string → St Disk unit.
Variable generateChecksums : St Disk unit.
Variable createReleaseNotes : St Disk unit.

Lemma setupPackagesDirectory_chrome (disk : Disk) :
  ¬ In "dist/chrome/manifest.json" disk →
  setupPackagesDirectory disk = ((setupPackagesDirectory disk).1, Returned tt) ∧
  ¬ In "dist/chrome/manifest.json" (setupPackagesDirectory disk).1.
Proof.
  intros Habsent. split; [reflexivity|].
  unfold setupPackagesDirectory, mbind, St_mbind, St_bind, remove, ensureDir.
  cbn [fst]. intros H. apply addPath_In in H as [H | H]; [discriminate H|].
  apply filter_In in H as [H _]. contradiction.
Qed.

Lemma packageChrome_without_manifest (disk : Disk) :
  ¬ In "dist/chrome/manifest.json" disk →
  packageChrome timestamp manifestVersion createZipArchive disk =
    (disk, Thrown "Manifest not found: dist/chrome/manifest.json").
Proof.
  intros Habsent. unfold packageChrome, readManifest, mbind, St_mbind, St_bind.
  cbv zeta.
  change ((distDir +:+ "/chrome") +:+ "/manifest.json") with "dist/chrome/manifest.json".
  rewrite (pathExists_absent _ _ Habsent). reflexivity.
Qed.

(** X23. Packaging needs both builds and cannot make them itself: when
    the Chrome or the Firefox build is missing, it runs [build:all], whose
    Firefox build removes the Chrome build again, so reading the Chrome
    manifest fails and the process ends with status 1, whatever the
    archiver and the later steps would do. *)
Theorem package_fails_without_both_builds (disk : Disk) :
  pathExists "dist/chrome" disk = false ∨ pathExists "dist/firefox" disk = false →
  (package timestamp manifestVersion createZipArchive generateChecksums
     createReleaseNotes disk).2 = Exit 1.
Proof.
  intros Hmissing.
  assert (Hcond : negb (pathExists "dist/chrome" disk)
                  || negb (pathExists "dist/firefox" disk) = true).
  { destruct Hmissing as [-> | ->]; [reflexivity | apply orb_true_r]. }
  unfold package.
  set (rest := packageFirefox timestamp manifestVersion createZipArchive ;;
               generateChecksums ;; createReleaseNotes).
  assert (Hensure :
    (∃ message, ensureBuildsExist disk = ((NpmScripts.buildAll disk).1, Thrown message)) ∨
    (ensureBuildsExist disk = ((NpmScripts.buildAll disk).1, Returned tt) ∧
     succeeded (NpmScripts.buildAll disk).2 = true)).
  { unfold ensureBuildsExist. cbv zeta.
    change (distDir +:+ "/chrome") with "dist/chrome".
    change (distDir +:+ "/firefox") with "dist/firefox".
    rewrite Hcond.
    assert (Hh : (NpmScripts.buildAll disk).2 ≠ Hangs).
    { unfold NpmScripts.buildAll, NpmScripts.buildChrome, NpmScripts.buildFirefox.
      cbv zeta.
      destruct (script_never_hangs ["--chrome"] disk) as [H1 | H1]; rewrite H1;
        cbn [succeeded Z.eqb]; [|rewrite H1; discriminate].
      destruct (script_never_hangs ["--firefox"] (ExtensionBuilder.script ["--chrome"] disk).1)
        as [H2 | H2]; rewrite H2; discriminate. }
    destruct ((NpmScripts.buildAll disk).2) as [|code|] eqn:E; [| |contradiction].
    - right. auto.
    - cbn [succeeded]. destruct (code =? 0); [right; auto | left; eauto]. }
  destruct Hensure as [[message Hthrown] | [Hreturned Hok]].
  - unfold mbind, St_mbind, St_bind. rewrite Hthrown. reflexivity.
  - assert (Habsent : ¬ In "dist/chrome/manifest.json" (NpmScripts.buildAll disk).1).
    { apply buildAll_no_chrome; [exact Hok | reflexivity]. }
    destruct (setupPackagesDirectory_chrome _ Habsent) as [Hsetup Habsent'].
    erewrite bind_run by exact Hreturned.
    erewrite bind_run by exact Hsetup.
    unfold mbind at 1, St_mbind, St_bind.
    rewrite (packageChrome_without_manifest _ Habsent'). reflexivity.
Qed.

End Packaging.

Lemma package_fails_without_both_builds_witness :
  (ExtensionPackager.package "2024-01-01T00-00-00" (fun _ => Ok "1.0.0")
     (fun _ outputPath _ => FsExtra.ensureDir outputPath) (mret tt) (mret tt)
     sourceTree).2 = Exit 1.
Proof.
  apply package_fails_without_both_builds. left. reflexivity.
Defined.

